(** * LANDrop: transfer and discovery core

    A shallow embedding of the protocol core of LANDrop (Qt/C++):
    - [Sender]   (landrop-plus/network/sender.cpp),
    - [Receiver] (landrop-plus/network/receiver.cpp) and the older
      [LegacyReceiver] (landrop/network/receiver.cpp),
    - [FileTransferManager] (landrop-plus/services/filetransfermanager.cpp),
    - [BroadcastDiscoveryService]
      (landrop-plus/services/broadcastdiscoveryservice.cpp).

    Every slot of the C++ classes is a function from the object's state to
    the new state together with the list of signals it emitted and calls it
    made on sockets, in program order. Pointers ([QTcpSocket*], [QFile*],
    [Sender*]) are keys into finite maps. *)

From Stdlib Require Import ZArith Lia Sorted Ascii.
From stdpp Require Import gmap strings list fin_maps pretty.

Local Open Scope string_scope.
Local Open Scope list_scope.
Local Open Scope Z_scope.

(** ** The Qt primitives the code relies on *)

Module Qt.

(** [qint64] and [int] arithmetic, two's complement. *)
Definition wrap64 (z : Z) : Z := (z + 2 ^ 63) mod 2 ^ 64 - 2 ^ 63.
Definition wrap32 (z : Z) : Z := (z + 2 ^ 31) mod 2 ^ 32 - 2 ^ 31.

Definition size (s : string) : Z := Z.of_nat (String.length s).

Fixpoint trimLeft (s : string) : string :=
  match s with
  | String c s' => if Ascii.is_space c then trimLeft s' else s
  | EmptyString => EmptyString
  end.

(** [QByteArray::trimmed]: white space removed at both ends. *)
Definition trimmed (s : string) : string :=
  String.rev (trimLeft (String.rev (trimLeft s))).

(** [QByteArray::contains(char)]. *)
Fixpoint contains (c : ascii) (s : string) : bool :=
  match s with
  | String d s' => if Ascii.eqb d c then true else contains c s'
  | EmptyString => false
  end.

(** [split(sep)] with empty parts kept. *)
Fixpoint split (sep : ascii) (s : string) : list string :=
  match s with
  | EmptyString => [EmptyString]
  | String c s' =>
      if Ascii.eqb c sep then EmptyString :: split sep s'
      else match split sep s' with
           | h :: t => String c h :: t
           | [] => [String c EmptyString]
           end
  end.

Definition startsWith (s p : string) : bool := String.prefix p s.

(** [QIODevice::readLine]: the bytes up to and including the first
    newline (all of them when there is none), and what stays buffered. *)
Fixpoint readLine (buf : string) : string * string :=
  match buf with
  | EmptyString => (EmptyString, EmptyString)
  | String c rest =>
      if Ascii.eqb c "010" then (String c EmptyString, rest)
      else let '(l, r) := readLine rest in (String c l, r)
  end.

(** Decimal digits of a byte array, most significant first. *)
Fixpoint digits (s : string) (acc : Z) : option Z :=
  match s with
  | EmptyString => Some acc
  | String c s' =>
      match Ascii.is_nat c with
      | Some d => digits s' (10 * acc + Z.of_nat d)
      | None => None
      end
  end.

Definition unsignedDigits (s : string) : option Z :=
  match s with
  | EmptyString => None
  | _ => digits s 0
  end.

(** The integer a byte array spells in base ten: optional white space
    around it, an optional sign, then digits only. *)
Definition parseInteger (s : string) : option Z :=
  match trimmed s with
  | String "-" ds => Z.opp <$> unsignedDigits ds
  | String "+" ds => unsignedDigits ds
  | ds => unsignedDigits ds
  end.

(** [QByteArray::toLongLong()]: 0 when the conversion fails or the value
    does not fit a [qint64]. *)
Definition toLongLong (s : string) : Z :=
  match parseInteger s with
  | Some z => if bool_decide (- 2 ^ 63 <= z < 2 ^ 63) then z else 0
  | None => 0
  end.

(** [QString::toUShort()]: 0 when the conversion fails or the value does
    not fit a [quint16]. *)
Definition toUShort (s : string) : Z :=
  match parseInteger s with
  | Some z => if bool_decide (0 <= z < 2 ^ 16) then z else 0
  | None => 0
  end.

(** [QString::number]. *)
Definition number (z : Z) : string := pretty z.

Fixpoint afterLastSlash (s acc : string) : string :=
  match s with
  | EmptyString => acc
  | String c s' => if Ascii.eqb c "/" then afterLastSlash s' s' else afterLastSlash s' acc
  end.

(** [QFileInfo(path).fileName()]: the part after the last slash. *)
Definition fileName (path : string) : string := afterLastSlash path path.

(** Every byte of the array satisfies [p]. *)
Fixpoint allChars (p : ascii -> bool) (s : string) : bool :=
  match s with
  | EmptyString => true
  | String c s' => p c && allChars p s'
  end.

Definition isDigit (c : ascii) : bool := bool_decide (is_Some (Ascii.is_nat c)).

(** [QByteArray::toInt(&ok)]: the value and [ok]. *)
Definition toInt (s : string) : Z * bool :=
  match parseInteger s with
  | Some z => if bool_decide (- 2 ^ 31 <= z < 2 ^ 31) then (z, true) else (0, false)
  | None => (0, false)
  end.

End Qt.

(** ** core/transferstatus.h *)

Inductive TransferStatus := WAITING | IN_PROGRESS | FINISHED | CANCELLED | ERROR.

Global Instance TransferStatus_eq_dec : EqDecision TransferStatus.
Proof. solve_decision. Defined.

(** ** Sender: one outbound transfer (sender.cpp) *)

Module Sender.

(** The signals of the class. *)
Inductive signal :=
| progressUpdated (percent : Z)
| transferAccepted
| transferRefused
| transferFinished
| transferError.

(** What a slot does to the outside, in program order: a signal emitted,
    or a call on the socket. A chunk is represented by its length. *)
Inductive action :=
| Emit (s : signal)
| connectToHost (ip : string) (port : Z)
| writeLine (line : string)
| writeChunk (len : Z)
| disconnectFromHost.

Inductive SocketState := UnconnectedState | ConnectingState | ConnectedState | ClosingState.

(** The [QTcpSocket] the Sender owns. [streaming] says that the
    [bytesWritten] lambda of [onReadyRead] is connected to it. *)
Record QTcpSocket := {
  state : SocketState;
  streaming : bool
}.

(** The [QFile] the Sender owns: its path, what the file system holds
    there (the size, and whether it can be opened for reading; [None] when
    nothing exists), and the state of the handle. *)
Record QFile := {
  fileName : string;
  onDisk : option (Z * bool);
  isOpen : bool;
  pos : Z
}.

Definition exists_ (f : QFile) : bool := bool_decide (is_Some (onDisk f)).
Definition size (f : QFile) : Z := from_option fst 0 (onDisk f).
Definition readable (f : QFile) : bool := from_option snd false (onDisk f).
Definition atEnd (f : QFile) : bool := bool_decide (size f <= pos f).

(** [file->open(QIODevice::ReadOnly)]: fails on a handle that is already
    open and on a file that cannot be read. *)
Definition open (f : QFile) : option QFile :=
  if isOpen f then None
  else if readable f then Some {| fileName := fileName f; onDisk := onDisk f; isOpen := true; pos := 0 |}
  else None.

Definition close (f : QFile) : QFile :=
  {| fileName := fileName f; onDisk := onDisk f; isOpen := false; pos := pos f |}.

(** [file->read(maxSize)]: the length of the chunk and the advanced handle. *)
Definition read (maxSize : Z) (f : QFile) : Z * QFile :=
  let n := Z.max 0 (Z.min maxSize (size f - pos f)) in
  (n, {| fileName := fileName f; onDisk := onDisk f; isOpen := isOpen f; pos := pos f + n |}).

Record Sender := {
  socket : option QTcpSocket;
  file : option QFile;
  bytesSent : Z;
  port : Z;
  connectionTimer : bool;
  responseTimer : bool
}.

(** The constructor; [port] is [Config::getPort()]. *)
Definition new (configPort : Z) : Sender :=
  {| socket := None; file := None; bytesSent := 0; port := configPort;
     connectionTimer := false; responseTimer := false |}.

Definition reset (s : Sender) : Sender * list action :=
  ({| socket := None; file := None; bytesSent := 0; port := port s;
      connectionTimer := false; responseTimer := false |},
   match socket s with
   | Some sock =>
       match state sock with
       | UnconnectedState => []
       | _ => [disconnectFromHost]
       end
   | None => []
   end).

(** [sendFile]; [disk] is the file system's answer for [filePath]. *)
Definition sendFile (filePath : string) (disk : option (Z * bool))
    (receiverIP : string) (customPort : Z) (s : Sender) : Sender * list action :=
  let '(s1, a1) := reset s in
  let f := {| fileName := filePath; onDisk := disk; isOpen := false; pos := 0 |} in
  if negb (exists_ f) then
    ({| socket := None; file := Some f; bytesSent := 0; port := customPort;
        connectionTimer := false; responseTimer := false |}, a1)
  else
    ({| socket := Some {| state := ConnectingState; streaming := false |};
        file := Some f; bytesSent := 0; port := customPort;
        connectionTimer := true; responseTimer := false |},
     a1 ++ [connectToHost receiverIP customPort]).

(** The connection or the response timer fires. *)
Definition onTimeout (s : Sender) : Sender * list action :=
  let '(s1, a1) := reset s in (s1, Emit transferError :: a1).

Definition onConnected (s : Sender) : Sender * list action :=
  match socket s, file s with
  | Some sock, Some f =>
      ({| socket := Some {| state := ConnectedState; streaming := streaming sock |};
          file := file s; bytesSent := bytesSent s; port := port s;
          connectionTimer := false; responseTimer := true |},
       [writeLine (Qt.fileName (fileName f) +:+ "|" +:+ Qt.number (size f) +:+ "
")])
  | _, _ => (s, [])
  end.

(** The lambda connected to [bytesWritten] once the transfer is accepted. *)
Definition onBytesWritten (bufferSize : Z) (s : Sender) : Sender * list action :=
  match file s, socket s with
  | Some f, Some sock =>
      if negb (isOpen f) then (s, [])
      else if negb (atEnd f) then
        let '(n, f') := read bufferSize f in
        let sent := Qt.wrap64 (bytesSent s + n) in
        ({| socket := socket s; file := Some f'; bytesSent := sent; port := port s;
            connectionTimer := connectionTimer s; responseTimer := responseTimer s |},
         [Emit (progressUpdated (Qt.wrap32 (Z.quot (Qt.wrap64 (sent * 100)) (size f'))));
          writeChunk n])
      else
        match state sock with
        | UnconnectedState =>
            ({| socket := socket s; file := Some (close f); bytesSent := bytesSent s;
                port := port s; connectionTimer := connectionTimer s;
                responseTimer := responseTimer s |},
             [Emit transferFinished])
        | _ =>
            ({| socket := Some {| state := ClosingState; streaming := streaming sock |};
                file := Some (close f); bytesSent := bytesSent s;
                port := port s; connectionTimer := connectionTimer s;
                responseTimer := responseTimer s |},
             [Emit transferFinished; disconnectFromHost])
        end
  | _, _ => (s, [])
  end.

(** [onReadyRead]; [line] is what [socket->readLine()] returns, and
    [writeOk] whether the socket takes the first chunk ([write] returns the
    chunk's length) or fails ([write] returns -1). *)
Definition onReadyRead (bufferSize : Z) (line : string) (writeOk : bool)
    (s : Sender) : Sender * list action :=
  match socket s with
  | None => (s, [])
  | Some sock =>
      let response := Qt.trimmed line in
      let closing :=
        match state sock with
        | UnconnectedState => (sock, [])
        | _ => ({| state := ClosingState; streaming := streaming sock |}, [disconnectFromHost])
        end in
      if String.eqb response "OK" then
        match file s ≫= open with
        | None =>
            let '(s1, a1) := reset s in (s1, Emit transferAccepted :: a1)
        | Some f =>
            let '(n, f') := read bufferSize f in
            let sent := Qt.wrap64 (0 + n) in
            ({| socket := Some {| state := state sock; streaming := true |};
                file := Some f'; bytesSent := sent; port := port s;
                connectionTimer := connectionTimer s; responseTimer := false |},
             Emit transferAccepted :: writeChunk n ::
               (if writeOk && bool_decide (1 <= n) then [] else [Emit transferError]))
        end
      else if String.eqb response "NO" then
        ({| socket := Some (closing.1); file := file s; bytesSent := bytesSent s;
            port := port s; connectionTimer := connectionTimer s; responseTimer := false |},
         closing.2 ++ [Emit transferRefused])
      else
        ({| socket := Some (closing.1); file := file s; bytesSent := bytesSent s;
            port := port s; connectionTimer := connectionTimer s; responseTimer := false |},
         closing.2 ++ [Emit transferError])
  end.

(** The socket reached the unconnected state. *)
Definition socketClosed (s : Sender) : Sender :=
  {| socket := (λ sock, {| state := UnconnectedState; streaming := streaming sock |}) <$> socket s;
     file := file s; bytesSent := bytesSent s; port := port s;
     connectionTimer := connectionTimer s; responseTimer := responseTimer s |}.

(** What the event loop delivers to a Sender: the signals of its socket
    and of its two timers. *)
Inductive event :=
| Connected
| ReadyRead (line : string) (writeOk : bool)
| BytesWritten
| Disconnected
| ErrorOccurred
| TimerExpired.

(** One event. A timer fires only while it runs; the signals of the socket
    reach the Sender only while it has the socket ([reset] blocks them). *)
Definition step (bufferSize : Z) (e : event) (s : Sender) : Sender * list action :=
  match e, socket s with
  | TimerExpired, _ =>
      if connectionTimer s || responseTimer s then onTimeout s else (s, [])
  | _, None => (s, [])
  | Connected, Some _ => onConnected s
  | ReadyRead line writeOk, Some _ => onReadyRead bufferSize line writeOk s
  | BytesWritten, Some sock =>
      if streaming sock then onBytesWritten bufferSize s else (s, [])
  | Disconnected, Some _ => reset (socketClosed s)
  | ErrorOccurred, Some _ => (s, [Emit transferError])
  end.

(** The states a Sender goes through on a list of events, each with the
    actions of the step that led to it. *)
Fixpoint trace (bufferSize : Z) (es : list event) (s : Sender) : list (Sender * list action) :=
  match es with
  | [] => []
  | e :: es' =>
      let r := step bufferSize e s in
      r :: trace bufferSize es' r.1
  end.

Definition progressOf (a : action) : list Z :=
  match a with
  | Emit (progressUpdated p) => [p]
  | _ => []
  end.

(** The progress values emitted along a trace, in order. *)
Definition progressValues (tr : list (Sender * list action)) : list Z :=
  tr ≫= (λ r, r.2 ≫= progressOf).

Definition finishes (r : Sender * list action) : Prop := Emit transferFinished ∈ r.2.

(** The Sender in the middle of streaming the file at [path] ([fsz] bytes
    on disk), [p] bytes read and sent. *)
Definition streamingAt (path : string) (fsz prt p : Z) : Sender :=
  {| socket := Some {| state := ConnectedState; streaming := true |};
     file := Some {| fileName := path; onDisk := Some (fsz, true); isOpen := true; pos := p |};
     bytesSent := p; port := prt; connectionTimer := false; responseTimer := false |}.

(** The Sender after the end of that file was seen. *)
Definition finishedAt (path : string) (fsz prt p : Z) : Sender :=
  {| socket := Some {| state := ClosingState; streaming := true |};
     file := Some {| fileName := path; onDisk := Some (fsz, true); isOpen := false; pos := p |};
     bytesSent := p; port := prt; connectionTimer := false; responseTimer := false |}.

(** An accepted transfer: [sendFile] on a fresh Sender for a readable file
    of [fsz] bytes, the connection, the receiver's OK, and [n]
    notifications that the socket wrote bytes. *)
Definition acceptedRun (bufferSize : Z) (path ip : string) (fsz cfgPort prt : Z) (n : nat)
    : list (Sender * list action) :=
  trace bufferSize
    (Connected :: ReadyRead "OK
" true :: repeat BytesWritten n)
    (sendFile path (Some (fsz, true)) ip prt (new cfgPort)).1.

Definition chunkOf (a : action) : list Z :=
  match a with
  | writeChunk n => [n]
  | _ => []
  end.

(** The lengths of the chunks written along a trace, in order. *)
Definition chunksWritten (tr : list (Sender * list action)) : list Z :=
  tr ≫= (λ r, r.2 ≫= chunkOf).

Definition sumZ (l : list Z) : Z := foldr Z.add 0 l.

Definition signalOf (a : action) : list signal :=
  match a with
  | Emit sig => [sig]
  | _ => []
  end.

(** The signals emitted along a trace, in order. *)
Definition signalsEmitted (tr : list (Sender * list action)) : list signal :=
  tr ≫= (λ r, r.2 ≫= signalOf).

End Sender.

(** ** Receiver: the inbound listener (landrop-plus/network/receiver.cpp) *)

Module Receiver.

(** The destination [QFile] the caller attaches to a socket: whether it is
    open, whether the device refuses writes ([write] returns -1), and the
    bytes written to it so far. *)
Record QFile := {
  isOpen : bool;
  writeFails : bool;
  written : string
}.

Record FileDefinition := {
  file : option positive;
  name : string;
  size : Z;
  totalReceived : Z
}.

(** The Receiver and the objects it works on: [pendingFiles] is the member
    of the class, [buffers] holds the unread bytes of every connected client
    socket, [files] the live [QFile] objects. *)
Record Receiver := {
  pendingFiles : gmap positive FileDefinition;
  buffers : gmap positive string;
  files : gmap positive QFile
}.

(** Signals emitted and calls made by the slots. [sendSharedFile] is the
    Sender that [handleDownloadRequest] creates and starts. *)
Inductive action :=
| fileTransferRequested (fileName fileSize : string) (socket : positive)
| fileReceivedSuccessfully (fileName : string)
| transferProgressUpdated (fileName : string) (percent : Z)
| transferStatusUpdated (fileName : string) (status : TransferStatus)
| disconnectFromHost (socket : positive)
| deleteLater (socket : positive)
| sendSharedFile (fullPath clientIP : string) (clientPort : Z).

(** What the slots ask of their surroundings: the full path of a shared
    file when [relativePath] names an existing regular file of the shared
    folder, the peer address of a socket, and the percentage
    [(float) totalReceived / (float) size * 100] cast to [int]. *)
Record Env := {
  sharedFile : string -> option string;
  peerAddress : positive -> string;
  percentage : Z -> Z -> Z
}.

Definition new : Receiver :=
  {| pendingFiles := ∅; buffers := ∅; files := ∅ |}.

Definition onNewConnection (s : positive) (r : Receiver) : Receiver :=
  {| pendingFiles := pendingFiles r; buffers := <[s := EmptyString]> (buffers r);
     files := files r |}.

Definition setBuffer (s : positive) (buf : string) (r : Receiver) : Receiver :=
  {| pendingFiles := pendingFiles r; buffers := <[s := buf]> (buffers r); files := files r |}.

Definition handleDownloadRequest (env : Env) (clientIP relativePath fileName : string)
    (clientPort : Z) : list action :=
  match sharedFile env relativePath with
  | None => []
  | Some fullPath => [sendSharedFile fullPath clientIP clientPort]
  end.

(** The first branch of [onReadyRead]: the socket has no pending entry, one
    line is read and taken as metadata or as a download request. *)
Definition readMetadata (env : Env) (s : positive) (buf : string) (r : Receiver)
    : Receiver * list action :=
  let '(raw, rest) := Qt.readLine buf in
  let r1 := setBuffer s rest r in
  let line := Qt.trimmed raw in
  if String.eqb line EmptyString || negb (Qt.contains "|" line) then
    (r1, [disconnectFromHost s])
  else if Qt.startsWith line "DOWNLOAD_REQUEST|" then
    match Qt.split "|" line with
    | _ :: relativePath :: fileName :: clientPort :: _ =>
        (r1, handleDownloadRequest env (peerAddress env s) relativePath fileName
               (Qt.toUShort clientPort) ++ [disconnectFromHost s])
    | _ => (r1, [disconnectFromHost s])
    end
  else
    match Qt.split "|" line with
    | fileName :: sizeField :: _ =>
        let fileSize := Qt.toLongLong sizeField in
        if String.eqb fileName EmptyString || bool_decide (fileSize < 0) then
          (r1, [disconnectFromHost s])
        else
          ({| pendingFiles :=
                <[s := {| file := None; name := fileName; size := fileSize;
                          totalReceived := 0 |}]> (pendingFiles r1);
              buffers := buffers r1; files := files r1 |},
           [fileTransferRequested fileName (Qt.number fileSize) s])
    | _ => (r1, [disconnectFromHost s])
    end.

(** The second branch of [onReadyRead]: the socket has the pending entry
    [info]. *)
Definition readPayload (env : Env) (s : positive) (buf : string) (info : FileDefinition)
    (r : Receiver) : Receiver * list action :=
  match file info ≫= (λ f, (λ q, (f, q)) <$> files r !! f) with
  | None => (r, [])
  | Some (f, q) =>
      if negb (isOpen q) then (r, [])
      else
        let data := buf in
        let r1 := setBuffer s EmptyString r in
        if String.eqb data EmptyString then (r1, [])
        else if writeFails q then
          (r1, [transferStatusUpdated (name info) CANCELLED; disconnectFromHost s])
        else
          let total := Qt.wrap64 (totalReceived info + Qt.size data) in
          let info' := {| file := file info; name := name info; size := size info;
                          totalReceived := total |} in
          ({| pendingFiles := <[s := info']> (pendingFiles r1);
              buffers := buffers r1;
              files := <[f := {| isOpen := true; writeFails := false;
                                 written := written q +:+ data |}]> (files r1) |},
           transferProgressUpdated (name info) (percentage env total (size info)) ::
             (if bool_decide (size info <= total) then [disconnectFromHost s] else []))
  end.

(** [onReadyRead] for the client socket [s]; a signal from anything but a
    connected client socket is ignored. *)
Definition onReadyRead (env : Env) (s : positive) (r : Receiver) : Receiver * list action :=
  match buffers r !! s with
  | None => (r, [])
  | Some buf =>
      match pendingFiles r !! s with
      | None => readMetadata env s buf r
      | Some info => readPayload env s buf info r
      end
  end.

(** Bytes arrive on the client socket [s]: they join its buffer and
    [readyRead] is emitted. *)
Definition receive (env : Env) (s : positive) (data : string) (r : Receiver)
    : Receiver * list action :=
  match buffers r !! s with
  | None => (r, [])
  | Some buf => onReadyRead env s (setBuffer s (buf +:+ data) r)
  end.

Definition onDisconnected (s : positive) (r : Receiver) : Receiver * list action :=
  match buffers r !! s with
  | None => (r, [])
  | Some _ =>
      match pendingFiles r !! s with
      | Some info =>
          ({| pendingFiles := delete s (pendingFiles r);
              buffers := delete s (buffers r);
              files := match file info with
                       | Some f => delete f (files r)
                       | None => files r
                       end |},
           (if bool_decide (totalReceived info < size info) then
              [transferStatusUpdated (name info) CANCELLED]
            else
              [fileReceivedSuccessfully (Qt.fileName (name info));
               transferStatusUpdated (name info) FINISHED])
           ++ [deleteLater s])
      | None =>
          ({| pendingFiles := pendingFiles r; buffers := delete s (buffers r);
              files := files r |},
           [deleteLater s])
      end
  end.

(** [setFile]; a null pointer is [None]. *)
Definition setFile (s f : option positive) (r : Receiver) : Receiver :=
  match s, f with
  | Some s', Some f' =>
      match pendingFiles r !! s' with
      | Some info =>
          let files1 := match file info with
                        | Some old => delete old (files r)
                        | None => files r
                        end in
          {| pendingFiles :=
               <[s' := {| file := Some f'; name := name info; size := size info;
                          totalReceived := totalReceived info |}]> (pendingFiles r);
             buffers := buffers r; files := files1 |}
      | None =>
          {| pendingFiles := pendingFiles r; buffers := buffers r;
             files := delete f' (files r) |}
      end
  | _, Some f' =>
      {| pendingFiles := pendingFiles r; buffers := buffers r; files := delete f' (files r) |}
  | _, None => r
  end.

(** The caller creates an open, writable, empty [QFile] object [f]. *)
Definition openFile (f : positive) (r : Receiver) : Receiver :=
  {| pendingFiles := pendingFiles r; buffers := buffers r;
     files := <[f := {| isOpen := true; writeFails := false; written := EmptyString |}]> (files r) |}.

(** What happens to one client socket after its metadata was taken. *)
Inductive payloadEvent :=
| Data (bytes : string)
| Attach (f : positive).

Definition payloadStep (env : Env) (s : positive) (e : payloadEvent) (r : Receiver)
    : Receiver * list action :=
  match e with
  | Data bytes => receive env s bytes r
  | Attach f => (setFile (Some s) (Some f) (openFile f r), [])
  end.

Fixpoint payloadRun (env : Env) (s : positive) (es : list payloadEvent) (r : Receiver)
    : Receiver * list action :=
  match es with
  | [] => (r, [])
  | e :: es' =>
      let '(r1, a1) := payloadStep env s e r in
      let '(r2, a2) := payloadRun env s es' r1 in
      (r2, a1 ++ a2)
  end.

Definition bytesOf (e : payloadEvent) : Z :=
  match e with
  | Data bytes => Qt.size bytes
  | Attach _ => 0
  end.

(** The number of bytes a list of payload events delivers. *)
Definition payloadBytes (es : list payloadEvent) : Z :=
  foldr (λ e n, bytesOf e + n) 0 es.

(** The first line of a buffer as [onReadyRead] looks at it, and the two
    fields it takes from a metadata line. *)
Definition firstLine (buf : string) : string := Qt.trimmed (Qt.readLine buf).1.

Definition sizeField (line : string) : string :=
  default EmptyString (Qt.split "|" line !! 1%nat).

Definition metadataName (line : string) : string :=
  default EmptyString (Qt.split "|" line !! 0%nat).

Definition metadataSize (line : string) : Z := Qt.toLongLong (sizeField line).

Definition isDownloadRequest (line : string) : bool :=
  Qt.startsWith line "DOWNLOAD_REQUEST|".

(** [startServer]. [listen] is the answer of [QTcpServer::listen] for a
    port: the port the server is then bound to, or [None] when it cannot
    bind. The result is the return value, the new value of
    [Config::getPort()] and [server->serverPort()], which is 0 for a server
    that does not listen. *)
Definition startServer (listen : Z -> option Z) (configPort port : Z) : bool * Z * Z :=
  let targetPort := if bool_decide (port = 0) then configPort mod 2 ^ 16 else port in
  match listen targetPort with
  | Some bound => (true, bound, bound)
  | None =>
      if bool_decide (port ≠ 0) then
        match listen 0 with
        | Some bound => (true, bound, bound)
        | None => (false, configPort, 0)
        end
      else (true, 0, 0)
  end.

(** The socket [s] has the open, writable handle [f] attached; [w] is
    what was written to it, all of it counted, and [b0] is still buffered. *)
Definition attached (s f : positive) (nm : string) (sz : Z) (w b0 : string) (r : Receiver)
    : Prop :=
  pendingFiles r !! s
    = Some {| file := Some f; name := nm; size := sz; totalReceived := Qt.size w |}
  /\ files r !! f = Some {| isOpen := true; writeFails := false; written := w |}
  /\ buffers r !! s = Some b0.

Definition concat (l : list string) : string := foldr String.append EmptyString l.

(** The socket [s] has a pending entry for [nm] of declared size 0, and
    what was counted and what is buffered stays under [bound]. *)
Definition zeroSizeEntry (s : positive) (nm : string) (bound : Z) (r : Receiver) : Prop :=
  exists info buf,
    pendingFiles r !! s = Some info
    /\ buffers r !! s = Some buf
    /\ name info = nm
    /\ size info = 0
    /\ 0 <= totalReceived info
    /\ totalReceived info + Qt.size buf <= bound.

End Receiver.

(** ** The older Receiver (landrop/network/receiver.cpp) *)

Module LegacyReceiver.

Record FileDefintion := {
  file : option positive;
  name : string;
  size : Z;
  totalRecieved : Z
}.

(** The entry [pendingFiles[socket]] creates when there is none. *)
Definition empty : FileDefintion :=
  {| file := None; name := EmptyString; size := 0; totalRecieved := 0 |}.

Record Receiver := {
  pendingFiles : gmap positive FileDefintion;
  buffers : gmap positive string;
  files : gmap positive Receiver.QFile
}.

Definition setBuffer (s : positive) (buf : string) (r : Receiver) : Receiver :=
  {| pendingFiles := pendingFiles r; buffers := <[s := buf]> (buffers r); files := files r |}.

(** [file->write(data)] on a live, open handle; the result is not looked at. *)
Definition write (data : string) (q : Receiver.QFile) : Receiver.QFile :=
  if Receiver.isOpen q && negb (Receiver.writeFails q) then
    {| Receiver.isOpen := true; Receiver.writeFails := false;
       Receiver.written := Receiver.written q +:+ data |}
  else q.

(** [onReadyRead]; [None] is the out-of-range access [data[1]] on a first
    line without separator. *)
Definition onReadyRead (percentage : Z -> Z -> Z) (s : positive) (r : Receiver)
    : option (Receiver * list Receiver.action) :=
  match buffers r !! s with
  | None => Some (r, [])
  | Some buf =>
      match pendingFiles r !! s with
      | None =>
          let '(raw, rest) := Qt.readLine buf in
          let r1 := setBuffer s rest r in
          match Qt.split "|" (Qt.trimmed raw) with
          | fileName :: sizeField :: _ =>
              let fileSize := Qt.toLongLong sizeField in
              Some ({| pendingFiles :=
                         <[s := {| file := None; name := fileName; size := fileSize;
                                   totalRecieved := 0 |}]> (pendingFiles r1);
                       buffers := buffers r1; files := files r1 |},
                    [Receiver.fileTransferRequested fileName (Qt.number fileSize) s])
          | _ => None
          end
      | Some info =>
          let data := buf in
          let r1 := setBuffer s EmptyString r in
          let total := Qt.wrap64 (totalRecieved info + Qt.size data) in
          let info' := {| file := file info; name := name info; size := size info;
                          totalRecieved := total |} in
          Some ({| pendingFiles := <[s := info']> (pendingFiles r1);
                   buffers := buffers r1;
                   files := match file info with
                            | Some f => alter (write data) f (files r1)
                            | None => files r1
                            end |},
                [Receiver.transferProgressUpdated (name info) (percentage total (size info))])
      end
  end.

Definition receive (percentage : Z -> Z -> Z) (s : positive) (data : string) (r : Receiver)
    : option (Receiver * list Receiver.action) :=
  match buffers r !! s with
  | None => Some (r, [])
  | Some buf => onReadyRead percentage s (setBuffer s (buf +:+ data) r)
  end.

Definition setFile (s f : positive) (r : Receiver) : Receiver :=
  let info := default empty (pendingFiles r !! s) in
  {| pendingFiles :=
       <[s := {| file := Some f; name := name info; size := size info;
                 totalRecieved := totalRecieved info |}]> (pendingFiles r);
     buffers := buffers r; files := files r |}.

Definition onDisconnected (s : positive) (r : Receiver) : Receiver * list Receiver.action :=
  match buffers r !! s with
  | None => (r, [])
  | Some _ =>
      match pendingFiles r !! s with
      | Some info =>
          ({| pendingFiles := delete s (pendingFiles r);
              buffers := delete s (buffers r);
              files := match file info with
                       | Some f => delete f (files r)
                       | None => files r
                       end |},
           (if bool_decide (totalRecieved info < size info) then
              [Receiver.transferStatusUpdated (name info) CANCELLED]
            else
              [Receiver.fileReceivedSuccessfully (Qt.fileName (name info));
               Receiver.transferStatusUpdated (name info) FINISHED])
           ++ [Receiver.deleteLater s])
      | None =>
          ({| pendingFiles := pendingFiles r; buffers := delete s (buffers r);
              files := files r |},
           [Receiver.deleteLater s])
      end
  end.

End LegacyReceiver.

(** ** BroadcastDiscoveryService (broadcastdiscoveryservice.cpp) *)

Module BroadcastDiscoveryService.

(** [QJsonArray] is kept as the list of its elements. *)
Record LANDropUser := {
  ipAddress : string;
  hostname : string;
  transferPort : Z;
  version : string;
  sharedFiles : list string
}.

Definition PROTOCOL_VERSION : string := "V1".
Definition DISCOVERY_PORT : Z := 12346.
Definition USER_TIMEOUT_MS : Z := 15000.

Record Service := {
  discovering : bool;
  myDiscoveryPort : Z;
  discoveredUsers : list LANDropUser;
  lastSeenTimes : gmap string Z;
  cachedSharedFilesJson : string
}.

Inductive action :=
| userListUpdated (users : list LANDropUser)
| writeDatagram (message sender : string) (port : Z).

(** What the slots read from their surroundings when they run:
    [QDateTime::currentMSecsSinceEpoch()], [getLocalIPAddress()],
    [getLocalHostname()], [Config::getPort()], and
    [QJsonDocument::fromJson] restricted to documents that are arrays. *)
Record Env := {
  currentTime : Z;
  localIP : string;
  localHostname : string;
  configPort : Z;
  fromJsonArray : string -> option (list string)
}.

Definition isSelfMessage (env : Env) (senderIP hostname_ : string) : bool :=
  String.eqb senderIP (localIP env) || String.eqb hostname_ (localHostname env).

(** The loop of [updatePeerWithSharedFiles]: the first entry with the
    user's address or host name is overwritten. *)
Fixpoint replaceFirst (user : LANDropUser) (users : list LANDropUser)
    : list LANDropUser * bool :=
  match users with
  | [] => ([], false)
  | u :: rest =>
      if String.eqb (ipAddress u) (ipAddress user) || String.eqb (hostname u) (hostname user)
      then (user :: rest, true)
      else let '(rest', found) := replaceFirst user rest in (u :: rest', found)
  end.

Definition updatePeerWithSharedFiles (env : Env) (user : LANDropUser) (sv : Service)
    : Service * list action :=
  let seen := <[ipAddress user := currentTime env]> (lastSeenTimes sv) in
  let '(users, found) := replaceFirst user (discoveredUsers sv) in
  let users' := if found then users else discoveredUsers sv ++ [user] in
  ({| discovering := discovering sv; myDiscoveryPort := myDiscoveryPort sv;
      discoveredUsers := users'; lastSeenTimes := seen;
      cachedSharedFilesJson := cachedSharedFilesJson sv |},
   [userListUpdated users']).

Definition parseSharedFiles (env : Env) (parts : list string) : list string :=
  match parts with
  | _ :: _ :: _ :: _ :: json :: _ => default [] (fromJsonArray env json)
  | _ => []
  end.

(** [getTransferPort]: [Config::getPort()] returned as a [quint16]. *)
Definition getTransferPort (env : Env) : Z := configPort env mod 2 ^ 16.

(** [handleDiscoveryRequest]. The answer is the text [QString::arg] gives
    for a host name without place marker ('%'): the five values joined by
    the separator. *)
Definition handleDiscoveryRequest (env : Env) (message sender senderIP : string)
    (sv : Service) : Service * list action :=
  let parts := Qt.split "|" message in
  match parts with
  | _ :: p1 :: p2 :: hostname_ :: _ =>
      let senderDiscoveryPort := Qt.toUShort p1 in
      let transferPort_ := Qt.toUShort p2 in
      let shared := parseSharedFiles env parts in
      if isSelfMessage env senderIP hostname_ then (sv, [])
      else
        let responseMessage :=
          "LANDROP_RESPONSE_" +:+ PROTOCOL_VERSION +:+ "|" +:+ Qt.number (myDiscoveryPort sv)
          +:+ "|" +:+ Qt.number (getTransferPort env) +:+ "|" +:+ localHostname env
          +:+ "|" +:+ cachedSharedFilesJson sv in
        let user := {| ipAddress := senderIP; hostname := hostname_;
                       transferPort := transferPort_; version := "1.0";
                       sharedFiles := shared |} in
        let '(sv', acts) := updatePeerWithSharedFiles env user sv in
        (sv', writeDatagram responseMessage sender senderDiscoveryPort :: acts)
  | _ => (sv, [])
  end.

Definition handleDiscoveryResponse (env : Env) (message senderIP : string)
    (sv : Service) : Service * list action :=
  let parts := Qt.split "|" message in
  match parts with
  | _ :: p1 :: p2 :: hostname_ :: _ =>
      let transferPort_ := Qt.toUShort p2 in
      let shared := parseSharedFiles env parts in
      if isSelfMessage env senderIP hostname_ then (sv, [])
      else
        let user := {| ipAddress := senderIP; hostname := hostname_;
                       transferPort := transferPort_; version := "1.0";
                       sharedFiles := shared |} in
        updatePeerWithSharedFiles env user sv
  | _ => (sv, [])
  end.

(** The address as the handlers get it: an IPv6-mapped prefix is cut off. *)
Definition cleanIP (sender : string) : string :=
  if Qt.startsWith sender "::ffff:" then String.substring 7 (String.length sender - 7) sender
  else sender.

(** The body of the loop of [handleDiscoveryMessage] for one datagram read
    from the socket. *)
Definition handleDatagram (env : Env) (message sender : string) (sv : Service)
    : Service * list action :=
  let senderIP := cleanIP sender in
  if Qt.startsWith message ("LANDROP_DISCOVERY_" +:+ PROTOCOL_VERSION +:+ "|") then
    handleDiscoveryRequest env message sender senderIP sv
  else if Qt.startsWith message ("LANDROP_RESPONSE_" +:+ PROTOCOL_VERSION +:+ "|") then
    handleDiscoveryResponse env message senderIP sv
  else (sv, []).

Fixpoint handleDatagrams (env : Env) (pending : list (string * string)) (sv : Service)
    : Service * list action :=
  match pending with
  | [] => (sv, [])
  | (message, sender) :: rest =>
      let '(sv1, a1) := handleDatagram env message sender sv in
      let '(sv2, a2) := handleDatagrams env rest sv1 in
      (sv2, a1 ++ a2)
  end.

(** [handleDiscoveryMessage]: every pending datagram, while discovering. *)
Definition handleDiscoveryMessage (env : Env) (pending : list (string * string))
    (sv : Service) : Service * list action :=
  if discovering sv then handleDatagrams env pending sv else (sv, []).

(** The host name field of a datagram, when it has one. *)
Definition hostnameField (message : string) : option string :=
  Qt.split "|" message !! 3%nat.

(** The loop of [cleanupExpiredUsers], from the last index down to 0:
    what is left of the list, of [lastSeenTimes], and [anyRemoved]. *)
Fixpoint cleanupLoop (env : Env) (users : list LANDropUser) (seen : gmap string Z)
    : list LANDropUser * gmap string Z * bool :=
  match users with
  | [] => ([], seen, false)
  | u :: rest =>
      let '(rest', seen', anyRemoved) := cleanupLoop env rest seen in
      let lastSeen := default 0 (seen' !! ipAddress u) in
      let timeSinceLastSeen := Qt.wrap64 (currentTime env - lastSeen) in
      if String.eqb (ipAddress u) (localIP env) || String.eqb (hostname u) (localHostname env)
      then (rest', delete (ipAddress u) seen', true)
      else if bool_decide (USER_TIMEOUT_MS < timeSinceLastSeen)
      then (rest', delete (ipAddress u) seen', true)
      else (u :: rest', seen', anyRemoved)
  end.

Definition cleanupExpiredUsers (env : Env) (sv : Service) : Service * list action :=
  let '(users, seen, anyRemoved) := cleanupLoop env (discoveredUsers sv) (lastSeenTimes sv) in
  ({| discovering := discovering sv; myDiscoveryPort := myDiscoveryPort sv;
      discoveredUsers := users; lastSeenTimes := seen;
      cachedSharedFilesJson := cachedSharedFilesJson sv |},
   if anyRemoved then [userListUpdated users] else []).

(** The entry is the local machine's. *)
Definition isSelf (env : Env) (u : LANDropUser) : Prop :=
  ipAddress u = localIP env \/ hostname u = localHostname env.

(** The entry's age at [currentTime], by the [lastSeenTimes] of [sv]
    (0 when the address has no record), is over the timeout. *)
Definition isExpired (env : Env) (sv : Service) (u : LANDropUser) : Prop :=
  USER_TIMEOUT_MS < currentTime env - default 0 (lastSeenTimes sv !! ipAddress u).

(** The test of the loop of [updatePeerWithSharedFiles]: the entry [u]
    has the address or the host name of [user]. *)
Definition sameUser (user u : LANDropUser) : bool :=
  String.eqb (ipAddress u) (ipAddress user) || String.eqb (hostname u) (hostname user).

(** No entry of the list is the local machine's, and every entry's address
    has a [lastSeenTimes] record. *)
Definition tracked (env : Env) (sv : Service) : Prop :=
  Forall (λ u, ¬ isSelf env u /\ is_Some (lastSeenTimes sv !! ipAddress u))
    (discoveredUsers sv).

End BroadcastDiscoveryService.

(** ** FileTransferManager (filetransfermanager.cpp) *)

Module FileTransferManager.

Import BroadcastDiscoveryService.

Record TransferSession := {
  id : Z;
  fileName : string;
  recipientIP : string;
  status : TransferStatus;
  progress : Z;
  sender : option positive
}.

(** The members of the class, and with them: the live [Sender] objects
    ([senders]) and the address the next [new Sender] gets
    ([nextSender]); the Senders whose signals are connected to the slots of
    the manager ([wired]); the deadline of [batchTimer] while it runs; the
    deferred cleanups handed to [QTimer::singleShot], each with its delay,
    its Sender and its session. *)
Record Manager := {
  sessions : gmap Z TransferSession;
  senderToSession : gmap positive Z;
  receivedFileToSession : gmap string Z;
  batchTimer : option Z;
  pendingBatchFiles : gmap string Z;
  pendingBatchSockets : gmap string positive;
  nextSessionId : Z;
  senders : gmap positive Sender.Sender;
  nextSender : positive;
  wired : gset positive;
  cleanups : list (Z * positive * Z)
}.

Inductive action :=
| transferSessionCreated (sessionId : Z) (fileName recipient : string)
| transferProgressUpdated (sessionId : Z) (progress : Z)
| transferStatusChanged (sessionId : Z) (status : TransferStatus)
| batchTransferRequested (files : gmap string Z) (sockets : gmap string positive)
| senderDid (sender : positive) (a : Sender.action).

(** The constructor. *)
Definition new : Manager :=
  {| sessions := ∅; senderToSession := ∅; receivedFileToSession := ∅;
     batchTimer := None; pendingBatchFiles := ∅; pendingBatchSockets := ∅;
     nextSessionId := 1; senders := ∅; nextSender := 1%positive; wired := ∅;
     cleanups := [] |}.

Definition setSessions (ss : gmap Z TransferSession) (m : Manager) : Manager :=
  {| sessions := ss; senderToSession := senderToSession m;
     receivedFileToSession := receivedFileToSession m; batchTimer := batchTimer m;
     pendingBatchFiles := pendingBatchFiles m; pendingBatchSockets := pendingBatchSockets m;
     nextSessionId := nextSessionId m; senders := senders m; nextSender := nextSender m;
     wired := wired m; cleanups := cleanups m |}.

Definition createTransferSession (fileName_ recipientIP_ : string) (m : Manager)
    : Manager * Z * list action :=
  let sessionId := nextSessionId m in
  let session := {| id := sessionId; fileName := fileName_; recipientIP := recipientIP_;
                    status := WAITING; progress := 0; sender := None |} in
  ({| sessions := <[sessionId := session]> (sessions m);
      senderToSession := senderToSession m;
      receivedFileToSession := receivedFileToSession m; batchTimer := batchTimer m;
      pendingBatchFiles := pendingBatchFiles m; pendingBatchSockets := pendingBatchSockets m;
      nextSessionId := Qt.wrap32 (sessionId + 1); senders := senders m;
      nextSender := nextSender m; wired := wired m; cleanups := cleanups m |},
   sessionId,
   [transferSessionCreated sessionId fileName_ recipientIP_]).

Definition updateSessionStatus (sessionId : Z) (st : TransferStatus) (m : Manager)
    : Manager * list action :=
  match sessions m !! sessionId with
  | Some s =>
      (setSessions (<[sessionId := {| id := id s; fileName := fileName s;
                                      recipientIP := recipientIP s; status := st;
                                      progress := progress s; sender := sender s |}]>
                      (sessions m)) m,
       [transferStatusChanged sessionId st])
  | None => (m, [])
  end.

Definition updateSessionProgress (sessionId : Z) (p : Z) (m : Manager)
    : Manager * list action :=
  match sessions m !! sessionId with
  | Some s =>
      (setSessions (<[sessionId := {| id := id s; fileName := fileName s;
                                      recipientIP := recipientIP s; status := status s;
                                      progress := p; sender := sender s |}]>
                      (sessions m)) m,
       [transferProgressUpdated sessionId p])
  | None => (m, [])
  end.

(** The body of the inner loop of [sendFilesToUsers] for one file and one
    recipient. [disk] is the file system, [configPort] is
    [Config::getPort()]. *)
Definition sendFileToUser (disk : string -> option (Z * bool)) (configPort : Z)
    (filePath : string) (user : LANDropUser) (m : Manager) : Manager * list action :=
  let '(m1, sessionId, a1) :=
    createTransferSession (Qt.fileName filePath +:+ " @" +:+ ipAddress user)
      (ipAddress user) m in
  let sp := nextSender m1 in
  let '(sender', a2) :=
    Sender.sendFile filePath (disk filePath) (ipAddress user) (transferPort user)
      (Sender.new configPort) in
  ({| sessions := alter (λ s, {| id := id s; fileName := fileName s;
                                 recipientIP := recipientIP s; status := status s;
                                 progress := progress s; sender := Some sp |})
                    sessionId (sessions m1);
      senderToSession := <[sp := sessionId]> (senderToSession m1);
      receivedFileToSession := receivedFileToSession m1; batchTimer := batchTimer m1;
      pendingBatchFiles := pendingBatchFiles m1;
      pendingBatchSockets := pendingBatchSockets m1;
      nextSessionId := nextSessionId m1;
      senders := <[sp := sender']> (senders m1);
      nextSender := Pos.succ sp;
      wired := {[sp]} ∪ wired m1;
      cleanups := cleanups m1 |},
   a1 ++ (senderDid sp <$> a2)).

Fixpoint sendFileToUsers (disk : string -> option (Z * bool)) (configPort : Z)
    (filePath : string) (recipients : list LANDropUser) (m : Manager)
    : Manager * list action :=
  match recipients with
  | [] => (m, [])
  | user :: rest =>
      let '(m1, a1) := sendFileToUser disk configPort filePath user m in
      let '(m2, a2) := sendFileToUsers disk configPort filePath rest m1 in
      (m2, a1 ++ a2)
  end.

Fixpoint sendFilesToUsers (disk : string -> option (Z * bool)) (configPort : Z)
    (filePaths : list string) (recipients : list LANDropUser) (m : Manager)
    : Manager * list action :=
  match filePaths with
  | [] => (m, [])
  | filePath :: rest =>
      let '(m1, a1) := sendFileToUsers disk configPort filePath recipients m in
      let '(m2, a2) := sendFilesToUsers disk configPort rest recipients m1 in
      (m2, a1 ++ a2)
  end.

(** [sender->disconnect()] followed by [QTimer::singleShot(delay, ...)]. *)
Definition teardown (delay : Z) (sp : positive) (sessionId : Z) (m : Manager) : Manager :=
  {| sessions := sessions m; senderToSession := senderToSession m;
     receivedFileToSession := receivedFileToSession m; batchTimer := batchTimer m;
     pendingBatchFiles := pendingBatchFiles m; pendingBatchSockets := pendingBatchSockets m;
     nextSessionId := nextSessionId m; senders := senders m; nextSender := nextSender m;
     wired := wired m ∖ {[sp]};
     cleanups := cleanups m ++ [(delay, sp, sessionId)] |}.

(** The slots for the signals of a Sender; [sp] is [this->sender()]. *)
Definition onSenderTransferAccepted (sp : positive) (m : Manager) : Manager * list action :=
  match senderToSession m !! sp with
  | Some sessionId => updateSessionStatus sessionId IN_PROGRESS m
  | None => (m, [])
  end.

Definition onSenderTransferRefused (sp : positive) (m : Manager) : Manager * list action :=
  match senderToSession m !! sp with
  | Some sessionId =>
      let '(m1, a1) := updateSessionStatus sessionId CANCELLED m in
      (teardown 500 sp sessionId m1, a1)
  | None => (m, [])
  end.

Definition onSenderProgressUpdated (sp : positive) (p : Z) (m : Manager)
    : Manager * list action :=
  match senderToSession m !! sp with
  | Some sessionId => updateSessionProgress sessionId p m
  | None => (m, [])
  end.

Definition onSenderTransferFinished (sp : positive) (m : Manager) : Manager * list action :=
  match senderToSession m !! sp with
  | Some sessionId =>
      let '(m1, a1) := updateSessionStatus sessionId FINISHED m in
      (teardown 100 sp sessionId m1, a1)
  | None => (m, [])
  end.

Definition onSenderTransferError (sp : positive) (m : Manager) : Manager * list action :=
  match senderToSession m !! sp with
  | Some sessionId =>
      let '(m1, a1) :=
        match sessions m !! sessionId with
        | Some session =>
            if bool_decide (status session ≠ FINISHED) && bool_decide (status session ≠ CANCELLED)
            then updateSessionStatus sessionId ERROR m
            else (m, [])
        | None => (m, [])
        end in
      (teardown 100 sp sessionId m1, a1)
  | None => (m, [])
  end.

(** A signal of the Sender [sp] reaches the slot it is connected to. *)
Definition onSenderSignal (sp : positive) (sig : Sender.signal) (m : Manager)
    : Manager * list action :=
  if bool_decide (sp ∈ wired m) then
    match sig with
    | Sender.transferAccepted => onSenderTransferAccepted sp m
    | Sender.transferRefused => onSenderTransferRefused sp m
    | Sender.progressUpdated p => onSenderProgressUpdated sp p m
    | Sender.transferFinished => onSenderTransferFinished sp m
    | Sender.transferError => onSenderTransferError sp m
    end
  else (m, []).

(** The slots for the signals of the Receiver; [now] is the time at which
    the slot runs, in milliseconds. *)
Definition onReceiverFileTransferRequested (now : Z) (fileName_ fileSize : string)
    (socket : positive) (m : Manager) : Manager * list action :=
  let m0 :=
    {| sessions := sessions m; senderToSession := senderToSession m;
       receivedFileToSession := receivedFileToSession m;
       batchTimer := Some (now + 200);
       pendingBatchFiles := <[fileName_ := Qt.toLongLong fileSize]> (pendingBatchFiles m);
       pendingBatchSockets := <[fileName_ := socket]> (pendingBatchSockets m);
       nextSessionId := nextSessionId m; senders := senders m; nextSender := nextSender m;
       wired := wired m; cleanups := cleanups m |} in
  let '(m1, sessionId, a1) := createTransferSession fileName_ "Incoming" m0 in
  let m2 :=
    {| sessions := sessions m1; senderToSession := senderToSession m1;
       receivedFileToSession := <[fileName_ := sessionId]> (receivedFileToSession m1);
       batchTimer := batchTimer m1;
       pendingBatchFiles := pendingBatchFiles m1;
       pendingBatchSockets := pendingBatchSockets m1;
       nextSessionId := nextSessionId m1; senders := senders m1;
       nextSender := nextSender m1; wired := wired m1; cleanups := cleanups m1 |} in
  let '(m3, a3) := updateSessionStatus sessionId WAITING m2 in
  (m3, a1 ++ a3).

(** The lambda connected to [batchTimer]'s timeout in the constructor. *)
Definition onBatchTimeout (m : Manager) : Manager * list action :=
  ({| sessions := sessions m; senderToSession := senderToSession m;
      receivedFileToSession := receivedFileToSession m;
      batchTimer := None;
      pendingBatchFiles := ∅; pendingBatchSockets := ∅;
      nextSessionId := nextSessionId m; senders := senders m; nextSender := nextSender m;
      wired := wired m; cleanups := cleanups m |},
   [batchTransferRequested (pendingBatchFiles m) (pendingBatchSockets m)]).

Definition onReceiverProgressUpdated (fileName_ : string) (p : Z) (m : Manager)
    : Manager * list action :=
  match receivedFileToSession m !! fileName_ with
  | Some sessionId => updateSessionProgress sessionId p m
  | None => (m, [])
  end.

Definition onReceiverStatusUpdated (fileName_ : string) (st : TransferStatus) (m : Manager)
    : Manager * list action :=
  match receivedFileToSession m !! fileName_ with
  | Some sessionId => updateSessionStatus sessionId st m
  | None => (m, [])
  end.

Definition onReceiverFileReceived (fileName_ : string) (m : Manager) : Manager * list action :=
  match receivedFileToSession m !! fileName_ with
  | Some sessionId =>
      let '(m1, a1) := updateSessionStatus sessionId FINISHED m in
      ({| sessions := sessions m1; senderToSession := senderToSession m1;
          receivedFileToSession := delete fileName_ (receivedFileToSession m1);
          batchTimer := batchTimer m1;
          pendingBatchFiles := pendingBatchFiles m1;
          pendingBatchSockets := pendingBatchSockets m1;
          nextSessionId := nextSessionId m1; senders := senders m1;
          nextSender := nextSender m1; wired := wired m1; cleanups := cleanups m1 |}, a1)
  | None => (m, [])
  end.

(** The connections made in [setupReceiver]: what the manager does with
    one thing the Receiver did. Calls on sockets are none of its business. *)
Definition onReceiverAction (now : Z) (a : Receiver.action) (m : Manager)
    : Manager * list action :=
  match a with
  | Receiver.fileTransferRequested n sz s => onReceiverFileTransferRequested now n sz s m
  | Receiver.transferProgressUpdated n p => onReceiverProgressUpdated n p m
  | Receiver.transferStatusUpdated n st => onReceiverStatusUpdated n st m
  | Receiver.fileReceivedSuccessfully n => onReceiverFileReceived n m
  | _ => (m, [])
  end.

Fixpoint onReceiverActions (now : Z) (acts : list Receiver.action) (m : Manager)
    : Manager * list action :=
  match acts with
  | [] => (m, [])
  | a :: rest =>
      let '(m1, a1) := onReceiverAction now a m in
      let '(m2, a2) := onReceiverActions now rest m1 in
      (m2, a1 ++ a2)
  end.

(** The event loop reaches time [now]: a running [batchTimer] whose
    deadline has come fires. *)
Definition advance (now : Z) (m : Manager) : Manager * list action :=
  match batchTimer m with
  | Some deadline => if bool_decide (deadline <= now) then onBatchTimeout m else (m, [])
  | None => (m, [])
  end.

(** Signals of the Receiver arriving at given times, then the loop running
    on until [finalTime]. *)
Fixpoint runUntil (finalTime : Z) (arrivals : list (Z * Receiver.action)) (m : Manager)
    : Manager * list action :=
  match arrivals with
  | [] => advance finalTime m
  | (t, a) :: rest =>
      let '(m1, a1) := advance t m in
      let '(m2, a2) := onReceiverAction t a m1 in
      let '(m3, a3) := runUntil finalTime rest m2 in
      (m3, a1 ++ a2 ++ a3)
  end.

Definition batchOf (a : action) : list (gmap string Z * gmap string positive) :=
  match a with
  | batchTransferRequested files sockets => [(files, sockets)]
  | _ => []
  end.

(** The batch offers among the actions, in order. *)
Definition batchOffers (acts : list action) : list (gmap string Z * gmap string positive) :=
  acts ≫= batchOf.

Definition createdOf (a : action) : list (Z * string * string) :=
  match a with
  | transferSessionCreated i n r => [(i, n, r)]
  | _ => []
  end.

(** The session-created events among the actions, in order. *)
Definition sessionsCreated (acts : list action) : list (Z * string * string) :=
  acts ≫= createdOf.

Definition statusOf (sessionId : Z) (m : Manager) : option TransferStatus :=
  status <$> sessions m !! sessionId.

Definition progressOf (sessionId : Z) (m : Manager) : option Z :=
  progress <$> sessions m !! sessionId.

(** The connections made in [sendFilesToUsers]: what the manager does
    with one thing the Sender [sp] did. *)
Definition onSenderAction (sp : positive) (a : Sender.action) (m : Manager)
    : Manager * list action :=
  match a with
  | Sender.Emit sig => onSenderSignal sp sig m
  | _ => (m, [])
  end.

Fixpoint onSenderActions (sp : positive) (acts : list Sender.action) (m : Manager)
    : Manager * list action :=
  match acts with
  | [] => (m, [])
  | a :: rest =>
      let '(m1, a1) := onSenderAction sp a m in
      let '(m2, a2) := onSenderActions sp rest m1 in
      (m2, senderDid sp a :: a1 ++ a2)
  end.

Definition setSender (sp : positive) (sender' : Sender.Sender) (m : Manager) : Manager :=
  {| sessions := sessions m; senderToSession := senderToSession m;
     receivedFileToSession := receivedFileToSession m; batchTimer := batchTimer m;
     pendingBatchFiles := pendingBatchFiles m; pendingBatchSockets := pendingBatchSockets m;
     nextSessionId := nextSessionId m; senders := <[sp := sender']> (senders m);
     nextSender := nextSender m; wired := wired m; cleanups := cleanups m |}.

(** The event loop delivers an event to the live Sender [sp]: the Sender
    handles it, and the slots of the manager run for the signals it emits. *)
Definition deliver (bufferSize : Z) (sp : positive) (e : Sender.event) (m : Manager)
    : Manager * list action :=
  match senders m !! sp with
  | None => (m, [])
  | Some sender0 =>
      let '(sender', acts) := Sender.step bufferSize e sender0 in
      onSenderActions sp acts (setSender sp sender' m)
  end.

Fixpoint deliverAll (bufferSize : Z) (sp : positive) (es : list Sender.event) (m : Manager)
    : Manager * list action :=
  match es with
  | [] => (m, [])
  | e :: rest =>
      let '(m1, a1) := deliver bufferSize sp e m in
      let '(m2, a2) := deliverAll bufferSize sp rest m1 in
      (m2, a1 ++ a2)
  end.

(** The first key, in key order, that [senderToSession] maps to [sessionId]. *)
Definition firstSenderOf (sessionId : Z) (m : gmap positive Z) : option positive :=
  match (map_to_list (filter (λ kv, kv.2 = sessionId) m)).*1 with
  | [] => None
  | k :: ks => Some (foldr Pos.min k ks)
  end.

(** The lambda the three terminal slots hand to [QTimer::singleShot], for
    the Sender [sp] and the session [sessionId]: with the Sender still
    alive, its entry and the session are removed and the Sender is deleted
    (its destructor resets it); else the session is removed and the first
    entry of [senderToSession] with that session erased. *)
Definition cleanup (sp : positive) (sessionId : Z) (m : Manager) : Manager * list action :=
  match senders m !! sp with
  | Some sender0 =>
      ({| sessions := delete sessionId (sessions m);
          senderToSession := delete sp (senderToSession m);
          receivedFileToSession := receivedFileToSession m; batchTimer := batchTimer m;
          pendingBatchFiles := pendingBatchFiles m;
          pendingBatchSockets := pendingBatchSockets m;
          nextSessionId := nextSessionId m; senders := delete sp (senders m);
          nextSender := nextSender m; wired := wired m ∖ {[sp]}; cleanups := cleanups m |},
       senderDid sp <$> (Sender.reset sender0).2)
  | None =>
      ({| sessions := delete sessionId (sessions m);
          senderToSession :=
            match firstSenderOf sessionId (senderToSession m) with
            | Some k => delete k (senderToSession m)
            | None => senderToSession m
            end;
          receivedFileToSession := receivedFileToSession m; batchTimer := batchTimer m;
          pendingBatchFiles := pendingBatchFiles m;
          pendingBatchSockets := pendingBatchSockets m;
          nextSessionId := nextSessionId m; senders := senders m;
          nextSender := nextSender m; wired := wired m; cleanups := cleanups m |},
       [])
  end.

(** The single-shot timer of the [i]-th deferred cleanup fires. *)
Definition fireCleanup (i : nat) (m : Manager) : Manager * list action :=
  match cleanups m !! i with
  | Some (_, sp, sessionId) =>
      cleanup sp sessionId
        {| sessions := sessions m; senderToSession := senderToSession m;
           receivedFileToSession := receivedFileToSession m; batchTimer := batchTimer m;
           pendingBatchFiles := pendingBatchFiles m;
           pendingBatchSockets := pendingBatchSockets m;
           nextSessionId := nextSessionId m; senders := senders m;
           nextSender := nextSender m; wired := wired m;
           cleanups := delete i (cleanups m) |}
  | None => (m, [])
  end.

Definition statusChangeOf (a : action) : list (Z * TransferStatus) :=
  match a with
  | transferStatusChanged i st => [(i, st)]
  | _ => []
  end.

(** The status changes among the actions, in order. *)
Definition statusChanges (acts : list action) : list (Z * TransferStatus) :=
  acts ≫= statusChangeOf.

(** No session and no Sender of the manager has an identifier that is
    still to be handed out. *)
Definition fresh (m : Manager) : Prop :=
  (forall i, is_Some (sessions m !! i) -> i < nextSessionId m)
  /\ (forall sp, is_Some (senderToSession m !! sp) \/ is_Some (senders m !! sp) \/ sp ∈ wired m ->
                 (sp < nextSender m)%positive).

(** The identifiers of the sessions created among the actions, in order. *)
Definition createdIds (acts : list action) : list Z :=
  (λ c, c.1.1) <$> sessionsCreated acts.

(** What [count] sends starting from [m] have done when they end in [m']
    with the actions [acts]: the sessions created have the next [count]
    identifiers, every session of [m] is still there unchanged, every new
    session is there and WAITING, and [m'] is fresh again. *)
Definition sent (m m' : Manager) (acts : list action) (count : Z) : Prop :=
  createdIds acts = seqZ (nextSessionId m) count
  /\ (forall i s, sessions m !! i = Some s -> sessions m' !! i = Some s)
  /\ (forall i, nextSessionId m <= i < nextSessionId m + count ->
                statusOf i m' = Some WAITING)
  /\ fresh m'
  /\ nextSessionId m' = nextSessionId m + count.

(** The Sender [sp] streams the file at [path] ([fsz] bytes) for the
    session [sessionId], which is IN_PROGRESS at progress [pr]; [p] bytes are
    sent, and the deferred cleanups are [cleanups0]. *)
Definition live (path : string) (fsz prt : Z) (sp : positive) (sessionId : Z)
    (cleanups0 : list (Z * positive * Z)) (p pr : Z) (m : Manager) : Prop :=
  senders m !! sp = Some (Sender.streamingAt path fsz prt p)
  /\ sp ∈ wired m
  /\ senderToSession m !! sp = Some sessionId
  /\ statusOf sessionId m = Some IN_PROGRESS
  /\ progressOf sessionId m = Some pr
  /\ cleanups m = cleanups0.

(** The signals after which a slot tears the Sender down. *)
Definition isTerminal (sig : Sender.signal) : Prop :=
  sig = Sender.transferRefused \/ sig = Sender.transferFinished \/ sig = Sender.transferError.

Global Instance signal_eq_dec : EqDecision Sender.signal.
Proof. solve_decision. Defined.

(** No received file is tracked under the session [sessionId]. *)
Definition untracked (sessionId : Z) (m : Manager) : Prop :=
  forall n, receivedFileToSession m !! n ≠ Some sessionId.

(** The Receiver announces a new offer. *)
Definition isOffer (a : Receiver.action) : bool :=
  match a with
  | Receiver.fileTransferRequested _ _ _ => true
  | _ => false
  end.

End FileTransferManager.

(** ** Config (landrop-plus/config/config.cpp) *)

Module Config.

(** The function-local statics behind the accessors that the settings file
    is about. *)
Record Config := {
  receivedFilesPath : string;
  sharedFolderPath : string;
  settingsPath : string;
  port : Z;
  bufferSize : Z
}.

(** The initial values of the statics. *)
Definition initial : Config :=
  {| receivedFilesPath := "./Received Files"; sharedFolderPath := "./Shared Files";
     settingsPath := "./settings.txt"; port := 5556; bufferSize := 65536 |}.

Definition reset (c : Config) : Config :=
  {| receivedFilesPath := "./Received Files"; sharedFolderPath := "./Shared Files";
     settingsPath := "./settings.txt"; port := 5556; bufferSize := 65536 |}.

(** The file system: the content of each file that exists, and which paths
    [QFile::open] succeeds on for reading and for writing. *)
Record Disk := {
  files : gmap string string;
  canRead : string -> bool;
  canWrite : string -> bool
}.

Definition setFiles (fs : gmap string string) (d : Disk) : Disk :=
  {| files := fs; canRead := canRead d; canWrite := canWrite d |}.

(** What [writeToFile] writes. *)
Definition settingsText (c : Config) : string :=
  Qt.trimmed (receivedFilesPath c) +:+ String "010" EmptyString
  +:+ Qt.number (port c) +:+ String "010" EmptyString
  +:+ Qt.number (bufferSize c).

Definition writeToFile (c : Config) (d : Disk) : Disk :=
  if canWrite d (settingsPath c) then
    setFiles (<[settingsPath c := settingsText c]> (files d)) d
  else d.

Definition isEmpty (s : string) : bool := String.eqb s EmptyString.

Definition readFromFile (c : Config) (d : Disk) : Config * Disk :=
  match files d !! settingsPath c with
  | Some text =>
      if canRead d (settingsPath c) then
        let '(pathData, rest1) := Qt.readLine text in
        let '(portData, rest2) := Qt.readLine rest1 in
        let '(bufferData, _) := Qt.readLine rest2 in
        if negb (isEmpty pathData) && negb (isEmpty portData) && negb (isEmpty bufferData)
        then
          let c1 := {| receivedFilesPath := Qt.trimmed pathData;
                       sharedFolderPath := sharedFolderPath c;
                       settingsPath := settingsPath c;
                       port := port c; bufferSize := bufferSize c |} in
          let '(newPort, portOk) := Qt.toInt (Qt.trimmed portData) in
          let '(newBuffer, bufferOk) := Qt.toInt (Qt.trimmed bufferData) in
          if portOk && bufferOk && bool_decide (0 < newPort) && bool_decide (newPort < 65536)
             && bool_decide (0 < newBuffer)
          then
            ({| receivedFilesPath := receivedFilesPath c1;
                sharedFolderPath := sharedFolderPath c1;
                settingsPath := settingsPath c1;
                port := newPort; bufferSize := newBuffer |}, d)
          else
            let c2 := reset c1 in (c2, writeToFile c2 d)
        else
          let c2 := reset c in (c2, writeToFile c2 d)
      else (c, d)
  | None =>
      let c2 := reset c in (c2, writeToFile c2 d)
  end.

(** The port is one a server can listen on and the buffer is not empty. *)
Definition valid (c : Config) : Prop :=
  0 < port c < 65536 /\ 0 < bufferSize c < 2 ^ 31.

(** The loop of [findAvailablePort] from [testPort] on, [attempts] ports
    still to try. [listen] is whether [QTcpServer::listen] succeeds on a
    port; it takes a [quint16], to which the [int] is converted. *)
Fixpoint findFrom (listen : Z -> bool) (testPort : Z) (attempts : nat) : Z :=
  match attempts with
  | O => -1
  | S n => if listen (testPort mod 2 ^ 16) then testPort
           else findFrom listen (testPort + 1) n
  end.

Definition findAvailablePort (listen : Z -> bool) (startPort maxAttempts : Z) : Z :=
  findFrom listen startPort (Z.to_nat maxAttempts).

End Config.

(** ** NetworkManager (landrop-plus/services/networkmanager.cpp) *)

Module NetworkManager.

Inductive ConnectionStatus := DISCONNECTED | CHECKING | CONNECTED.

Global Instance ConnectionStatus_eq_dec : EqDecision ConnectionStatus.
Proof. solve_decision. Defined.

(** What the code asks of a [QNetworkAddressEntry]'s [ip()] and of a
    [QNetworkInterface]. *)
Record QNetworkAddressEntry := {
  isIPv4 : bool;
  isLoopback : bool;
  isMulticast : bool;
  toIPv4Address : Z;
  toString : string
}.

Record QNetworkInterface := {
  isUp : bool;
  isLoopBack : bool;
  name : string;
  addressEntries : list QNetworkAddressEntry
}.

Definition lowerChar (c : ascii) : ascii :=
  let n := nat_of_ascii c in
  if (65 <=? n)%nat && (n <=? 90)%nat then ascii_of_nat (n + 32) else c.

(** [QString::toLower] on the Latin letters. *)
Fixpoint toLower (s : string) : string :=
  match s with
  | EmptyString => EmptyString
  | String c s' => String (lowerChar c) (toLower s')
  end.

(** [QString::contains(const QString &)]. *)
Fixpoint containsString (sub s : string) : bool :=
  String.prefix sub s
  || match s with
     | EmptyString => false
     | String _ s' => containsString sub s'
     end.

(** The names that are skipped as virtual adapters. *)
Definition isVirtual (interfaceName : string) : bool :=
  let name := toLower interfaceName in
  containsString "virtualbox" name || containsString "vmware" name
  || containsString "docker" name || containsString "veth" name
  || containsString "br-" name || Qt.startsWith name "vbox"
  || Qt.startsWith name "vmnet" || containsString "host-only" name.

(** The inner loop of [getLocalIPAddress]. *)
Fixpoint firstAddress (entries : list QNetworkAddressEntry) : option string :=
  match entries with
  | [] => None
  | entry :: rest =>
      if isIPv4 entry && negb (isLoopback entry) && negb (isMulticast entry) then
        let addr := toIPv4Address entry in
        if bool_decide (Z.land addr 0xFFFFFF00 = 0xC0A83800) then firstAddress rest
        else if bool_decide (Z.land addr 0xFFFFFF00 = 0xAC110000) then firstAddress rest
        else Some (toString entry)
      else firstAddress rest
  end.

Fixpoint getLocalIPAddress (interfaces : list QNetworkInterface) : string :=
  match interfaces with
  | [] => EmptyString
  | interface :: rest =>
      if negb (isUp interface) || isLoopBack interface then getLocalIPAddress rest
      else if isVirtual (name interface) then getLocalIPAddress rest
      else match firstAddress (addressEntries interface) with
           | Some ip => ip
           | None => getLocalIPAddress rest
           end
  end.

(** The members; [monitorTimer] is the interval while the timer runs. *)
Record NetworkManager := {
  monitorTimer : option Z;
  currentIP : string;
  connectionStatus : ConnectionStatus
}.

Inductive action :=
| ipAddressChanged (newIP : string)
| connectionStatusChanged (status : ConnectionStatus).

Definition new : NetworkManager :=
  {| monitorTimer := None; currentIP := EmptyString; connectionStatus := DISCONNECTED |}.

Definition updateConnectionStatus (m : NetworkManager) : NetworkManager * list action :=
  let newStatus := if String.eqb (currentIP m) EmptyString then DISCONNECTED else CONNECTED in
  if bool_decide (newStatus ≠ connectionStatus m) then
    ({| monitorTimer := monitorTimer m; currentIP := currentIP m;
        connectionStatus := newStatus |},
     [connectionStatusChanged newStatus])
  else (m, []).

Definition checkConnection (interfaces : list QNetworkInterface) (m : NetworkManager)
    : NetworkManager * list action :=
  let m1 := {| monitorTimer := monitorTimer m; currentIP := currentIP m;
               connectionStatus := CHECKING |} in
  let newIP := getLocalIPAddress interfaces in
  let '(m2, a2) :=
    if negb (String.eqb newIP (currentIP m1)) then
      ({| monitorTimer := monitorTimer m1; currentIP := newIP;
          connectionStatus := connectionStatus m1 |}, [ipAddressChanged newIP])
    else (m1, []) in
  let '(m3, a3) := updateConnectionStatus m2 in
  (m3, connectionStatusChanged CHECKING :: a2 ++ a3).

Definition startMonitoring (interfaces : list QNetworkInterface) (intervalMs : Z)
    (m : NetworkManager) : NetworkManager * list action :=
  let '(m1, a1) := checkConnection interfaces m in
  ({| monitorTimer := Some intervalMs; currentIP := currentIP m1;
      connectionStatus := connectionStatus m1 |}, a1).

Definition stopMonitoring (m : NetworkManager) : NetworkManager :=
  {| monitorTimer := None; currentIP := currentIP m;
     connectionStatus := connectionStatus m |}.

Definition statusOf (a : action) : list ConnectionStatus :=
  match a with
  | connectionStatusChanged st => [st]
  | _ => []
  end.

(** The statuses signalled among the actions, in order. *)
Definition statusesSignalled (acts : list action) : list ConnectionStatus :=
  acts ≫= statusOf.

Definition addressOf (a : action) : list string :=
  match a with
  | ipAddressChanged ip => [ip]
  | _ => []
  end.

(** The addresses signalled among the actions, in order. *)
Definition addressesSignalled (acts : list action) : list string :=
  acts ≫= addressOf.

(** The interface is one whose addresses are looked at. *)
Definition eligible (i : QNetworkInterface) : Prop :=
  isUp i = true /\ isLoopBack i = false /\ isVirtual (name i) = false.

(** The entry is an IPv4 address that is neither loop-back nor multicast
    and lies outside 192.168.56.0/24 and 172.17.0.0/24. *)
Definition usable (e : QNetworkAddressEntry) : Prop :=
  isIPv4 e = true /\ isLoopback e = false /\ isMulticast e = false
  /\ ¬ (3232249856 <= toIPv4Address e <= 3232250111)
  /\ ¬ (2886795264 <= toIPv4Address e <= 2886795519).

End NetworkManager.

(** ** Concrete surroundings used in the examples *)

Module Fixtures.

(** No shared files, one peer address, and the percentage as the integer
    quotient. The code computes the percentage in [float] and truncates it;
    the examples only read it where the two agree (100 when everything has
    arrived), and the theorems are stated for every environment. *)
Definition receiverEnv : Receiver.Env :=
  {| Receiver.sharedFile := λ _, None;
     Receiver.peerAddress := λ _, "192.168.1.20";
     Receiver.percentage := λ total size, total * 100 / size |}.

Definition alice : BroadcastDiscoveryService.LANDropUser :=
  {| BroadcastDiscoveryService.ipAddress := "192.168.1.10";
     BroadcastDiscoveryService.hostname := "alice-pc";
     BroadcastDiscoveryService.transferPort := 5556;
     BroadcastDiscoveryService.version := "1.0";
     BroadcastDiscoveryService.sharedFiles := [] |}.

Definition bob : BroadcastDiscoveryService.LANDropUser :=
  {| BroadcastDiscoveryService.ipAddress := "192.168.1.30";
     BroadcastDiscoveryService.hostname := "bob-pc";
     BroadcastDiscoveryService.transferPort := 5556;
     BroadcastDiscoveryService.version := "1.0";
     BroadcastDiscoveryService.sharedFiles := [] |}.

(** The local machine is 192.168.1.2, "my-pc"; the clock reads 100 s. *)
Definition discoveryEnv : BroadcastDiscoveryService.Env :=
  {| BroadcastDiscoveryService.currentTime := 100000;
     BroadcastDiscoveryService.localIP := "192.168.1.2";
     BroadcastDiscoveryService.localHostname := "my-pc";
     BroadcastDiscoveryService.configPort := 5556;
     BroadcastDiscoveryService.fromJsonArray := λ _, Some [] |}.

(** An empty file system. *)
Definition noFiles : string -> option (Z * bool) := λ _, None.

End Fixtures.

(** * Properties *)

Lemma Qt_wrap64_id z : - 2 ^ 63 <= z < 2 ^ 63 -> Qt.wrap64 z = z.
Proof.
  intros Hz. unfold Qt.wrap64.
  rewrite Z.mod_small by lia. lia.
Qed.

Lemma Qt_wrap32_id z : - 2 ^ 31 <= z < 2 ^ 31 -> Qt.wrap32 z = z.
Proof.
  intros Hz. unfold Qt.wrap32.
  rewrite Z.mod_small by lia. lia.
Qed.


Example split_metadata : Qt.split "|" "a.txt|10" = ["a.txt"; "10"].
Proof. reflexivity. Qed.

Example toLongLong_examples :
Qt.toLongLong "42" = 42 /\ Qt.toLongLong "-7" = -7 /\ Qt.toLongLong "abc" = 0
/\ Qt.toLongLong "" = 0 /\ Qt.toLongLong " 12 " = 12 /\ Qt.toLongLong "12x" = 0
/\ Qt.toLongLong "9223372036854775808" = 0.
Proof. repeat split; vm_compute; reflexivity. Qed.

Example fileName_examples :
Qt.fileName "/tmp/dir/a.txt" = "a.txt" /\ Qt.fileName "a.txt" = "a.txt".
Proof. split; reflexivity. Qed.

Example readLine_example : Qt.readLine "a|1
xyz" = ("a|1
", "xyz").
Proof. reflexivity. Qed.

Lemma string_app_assoc (a b c : string) : (a +:+ b) +:+ c = a +:+ b +:+ c.
Proof.
  induction a as [|x a IH]; [done|].
  change (String x ((a +:+ b) +:+ c) = String x (a +:+ b +:+ c)). by rewrite IH.
Qed.

Lemma string_app_nil_r (a : string) : a +:+ EmptyString = a.
Proof.
  induction a as [|x a IH]; [done|].
  change (String x (a +:+ EmptyString) = String x a). by rewrite IH.
Qed.

Lemma size_app (a b : string) : Qt.size (a +:+ b) = Qt.size a + Qt.size b.
Proof.
  unfold Qt.size. induction a as [|x a IH].
  { change (EmptyString +:+ b) with b. cbn [String.length]. lia. }
  change (Z.of_nat (S (String.length (a +:+ b)))
          = Z.of_nat (S (String.length a)) + Z.of_nat (String.length b)).
  rewrite !Nat2Z.inj_succ. lia.
Qed.

Lemma size_nonneg (a : string) : 0 <= Qt.size a.
Proof. unfold Qt.size. lia. Qed.

(** ** Byte arrays: trimming, splitting, numbers *)

Lemma rev_app_spec (a b : string) : String.rev_app a b = String.rev a +:+ b.
Proof.
  revert b. induction a as [|x a IH]; intros b; [done|].
  unfold String.rev. cbn [String.rev_app].
  rewrite (IH (String x b)), (IH (String x EmptyString)).
  by rewrite string_app_assoc.
Qed.

Lemma rev_cons (x : ascii) (a : string) :
  String.rev (String x a) = String.rev a +:+ String x EmptyString.
Proof. unfold String.rev at 1. cbn [String.rev_app]. apply rev_app_spec. Qed.

Lemma rev_app_distr (a b : string) : String.rev (a +:+ b) = String.rev b +:+ String.rev a.
Proof.
  induction a as [|x a IH].
  - change (EmptyString +:+ b) with b. by rewrite string_app_nil_r.
  - change (String x a +:+ b) with (String x (a +:+ b)).
    by rewrite !rev_cons, IH, string_app_assoc.
Qed.

Lemma rev_involutive (a : string) : String.rev (String.rev a) = a.
Proof.
  induction a as [|x a IH]; [done|].
  rewrite rev_cons, rev_app_distr, IH. reflexivity.
Qed.

Lemma allChars_app (p : ascii -> bool) (a b : string) :
  Qt.allChars p (a +:+ b) = Qt.allChars p a && Qt.allChars p b.
Proof.
  induction a as [|x a IH]; [done|].
  change (String x a +:+ b) with (String x (a +:+ b)). cbn.
  by rewrite IH, andb_assoc.
Qed.

Lemma allChars_rev (p : ascii -> bool) (a : string) :
  Qt.allChars p (String.rev a) = Qt.allChars p a.
Proof.
  induction a as [|x a IH]; [done|].
  rewrite rev_cons, allChars_app, IH. cbn. by rewrite andb_true_r, andb_comm.
Qed.



Lemma split_app (sep : ascii) (a b : string) :
  Qt.contains sep a = false ->
  Qt.split sep (a +:+ String sep b) = a :: Qt.split sep b.
Proof.
  induction a as [|x a IH].
  - intros _. change (EmptyString +:+ String sep b) with (String sep b).
    cbn. by rewrite Ascii.eqb_refl.
  - change (String x a +:+ String sep b) with (String x (a +:+ String sep b)). cbn.
    destruct (Ascii.eqb x sep); [done|]. intros H. by rewrite (IH H).
Qed.

Lemma readLine_app (a rest : string) :
  Qt.contains "010" a = false ->
  Qt.readLine (a +:+ String "010" rest) = (a +:+ String "010" EmptyString, rest).
Proof.
  induction a as [|x a IH].
  - intros _. reflexivity.
  - change (String x a +:+ String "010" rest) with (String x (a +:+ String "010" rest)).
    change (String x a +:+ String "010" EmptyString)
      with (String x (a +:+ String "010" EmptyString)).
    cbn. destruct (Ascii.eqb x "010"); [done|]. intros H. by rewrite (IH H).
Qed.

Lemma readLine_no_newline (a : string) :
  Qt.contains "010" a = false -> Qt.readLine a = (a, EmptyString).
Proof.
  induction a as [|x a IH]; [done|]. cbn.
  destruct (Ascii.eqb x "010"); [done|]. intros H. by rewrite (IH H).
Qed.

(** A byte array that starts and ends with something other than white
    space is its own trimmed form, with or without a newline behind it. *)
Lemma trimLeft_clean (x : ascii) (a : string) :
  Ascii.is_space x = false -> Qt.trimLeft (String x a) = String x a.
Proof. intros H. cbn. by rewrite H. Qed.

Lemma trimmed_clean (a : string) :
  Qt.trimLeft a = a -> Qt.trimLeft (String.rev a) = String.rev a -> Qt.trimmed a = a.
Proof. intros H1 H2. unfold Qt.trimmed. by rewrite H1, H2, rev_involutive. Qed.

Lemma trimmed_clean_newline (a : string) :
  a ≠ EmptyString ->
  Qt.trimLeft a = a -> Qt.trimLeft (String.rev a) = String.rev a ->
  Qt.trimmed (a +:+ String "010" EmptyString) = a.
Proof.
  intros Hne H1 H2. unfold Qt.trimmed.
  assert (Hl : Qt.trimLeft (a +:+ String "010" EmptyString) = a +:+ String "010" EmptyString).
  { destruct a as [|x a]; [done|].
    change (String x a +:+ String "010" EmptyString)
      with (String x (a +:+ String "010" EmptyString)).
    cbn in H1 |- *. destruct (Ascii.is_space x) eqn:Hx; [|done].
    exfalso. clear -H1.
    assert (Hlen : forall s, (String.length (Qt.trimLeft s) <= String.length s)%nat).
    { induction s as [|y s IH]; cbn; [lia|]. destruct (Ascii.is_space y); cbn; lia. }
    pose proof (Hlen a) as Ha. rewrite H1 in Ha. cbn in Ha. lia. }
  rewrite Hl, rev_app_distr.
  change (String.rev (String "010" EmptyString) +:+ String.rev a)
    with (String "010" (String.rev a)).
  cbn [Qt.trimLeft]. change (Ascii.is_space "010") with true. cbn iota.
  by rewrite H2, rev_involutive.
Qed.



Lemma trimLeft_digits (a : string) :
  Qt.allChars Qt.isDigit a = true -> Qt.trimLeft a = a.
Proof.
  destruct a as [|x a]; [done|]. cbn. intros [Hx _]%andb_true_iff.
  destruct (Ascii.is_space x) eqn:Hs; [|done]. exfalso.
  unfold Qt.isDigit in Hx. apply bool_decide_eq_true in Hx as [d Hd].
  destruct x as [[] [] [] [] [] [] [] []]; cbn in *; congruence.
Qed.

(** ** [QString::number] read back by the conversions *)

Lemma is_nat_pretty_N_char (m : N) :
  (m < 10)%N -> Ascii.is_nat (pretty_N_char m) = Some (N.to_nat m).
Proof.
  intros Hm.
  assert (m = 0 \/ m = 1 \/ m = 2 \/ m = 3 \/ m = 4 \/ m = 5 \/ m = 6 \/ m = 7
          \/ m = 8 \/ m = 9)%N as H by lia.
  repeat (destruct H as [->|H]; [reflexivity|]). by subst.
Qed.

Lemma digits_app (a b : string) (acc : Z) :
  Qt.digits (a +:+ b) acc = Qt.digits a acc ≫= Qt.digits b.
Proof.
  revert acc. induction a as [|x a IH]; intros acc; [done|].
  change (String x a +:+ b) with (String x (a +:+ b)). cbn.
  destruct (Ascii.is_nat x); [apply IH|done].
Qed.

(** The digits that [pretty_N_go] puts in front of [s]. *)
Lemma pretty_N_go_spec (x : N) :
  forall s, exists pre,
    pretty_N_go x s = pre +:+ s
    /\ Qt.allChars Qt.isDigit pre = true
    /\ ((0 < x)%N -> pre ≠ EmptyString)
    /\ (forall acc, Qt.digits pre acc
                    = Some (acc * 10 ^ Z.of_nat (String.length pre) + Z.of_N x)).
Proof.
  induction (N.lt_wf_0 x) as [x _ IH]; intros s.
  destruct (decide (x = 0%N)) as [->|Hx].
  { exists EmptyString. rewrite pretty_N_go_0.
    split; [done|]. split; [done|]. split; [lia|].
    intros acc. cbn. f_equal. lia. }
  rewrite pretty_N_go_step by lia.
  destruct (IH (x `div` 10)%N ltac:(apply N.div_lt; lia)
              (String (pretty_N_char (x `mod` 10)) s)) as (pre & Hgo & Hall & _ & Hdig).
  exists (pre +:+ String (pretty_N_char (x `mod` 10)) EmptyString).
  assert (Hmod : (x `mod` 10 < 10)%N) by (apply N.mod_lt; lia).
  split; [by rewrite Hgo, string_app_assoc|]. split.
  { rewrite allChars_app, Hall. cbn. rewrite andb_true_r.
    unfold Qt.isDigit. apply bool_decide_eq_true.
    rewrite is_nat_pretty_N_char by done. by eexists. }
  split.
  { intros _. destruct pre; discriminate. }
  intros acc. rewrite digits_app, Hdig. cbn.
  rewrite is_nat_pretty_N_char by done. f_equal.
  assert (Hlen : String.length (pre +:+ String (pretty_N_char (x `mod` 10)) EmptyString)
                 = S (String.length pre)).
  { clear. induction pre as [|y pre IH]; [done|].
    change (String y pre +:+ ?t) with (String y (pre +:+ t)). cbn. by rewrite IH. }
  rewrite Hlen, Nat2Z.inj_succ, Z.pow_succ_r by lia.
  rewrite N_nat_Z.
  pose proof (N.div_mod x 10 ltac:(lia)) as Hdm.
  rewrite (N2Z.inj_iff) in Hdm || idtac.
  assert (Z.of_N x = 10 * Z.of_N (x `div` 10) + Z.of_N (x `mod` 10)) by lia.
  lia.
Qed.

(** The text of a natural number: digits only, not empty, and read back
    as the number. *)
Lemma pretty_N_digits (x : N) :
  Qt.allChars Qt.isDigit (pretty x) = true
  /\ pretty x ≠ EmptyString
  /\ Qt.unsignedDigits (pretty x) = Some (Z.of_N x).
Proof.
  unfold pretty, pretty_N. case_decide as Hx.
  { subst. split; [reflexivity|]. split; [discriminate|reflexivity]. }
  destruct (pretty_N_go_spec x EmptyString) as (pre & Hgo & Hall & Hne & Hdig).
  rewrite Hgo, string_app_nil_r. specialize (Hne ltac:(lia)).
  split; [done|]. split; [done|].
  unfold Qt.unsignedDigits. destruct pre; [done|].
  rewrite Hdig. f_equal; lia.
Qed.

Lemma trimmed_digits (a : string) :
  Qt.allChars Qt.isDigit a = true -> Qt.trimmed a = a.
Proof.
  intros H. apply trimmed_clean; apply trimLeft_digits; [done|].
  by rewrite allChars_rev.
Qed.

Lemma parseInteger_digits (a : string) :
  Qt.allChars Qt.isDigit a = true -> Qt.parseInteger a = Qt.unsignedDigits a.
Proof.
  intros H. unfold Qt.parseInteger. rewrite trimmed_digits by done.
  destruct a as [|x a]; [done|].
  cbn in H. apply andb_true_iff in H as [Hx _].
  unfold Qt.isDigit in Hx. apply bool_decide_eq_true in Hx as [d Hd].
  destruct x as [[] [] [] [] [] [] [] []]; cbn in Hd; try discriminate; reflexivity.
Qed.

(** The text [QString::number] gives for a number that is not negative
    starts and ends with a digit, holds neither separator nor newline, and
    reads back as that number. *)
Lemma number_nonneg (z : Z) :
  0 <= z ->
  Qt.allChars Qt.isDigit (Qt.number z) = true
  /\ Qt.number z ≠ EmptyString
  /\ Qt.parseInteger (Qt.number z) = Some z.
Proof.
  intros Hz. unfold Qt.number, pretty, pretty_Z.
  destruct z as [|p|p]; [done| |lia].
  destruct (pretty_N_digits (N.pos p)) as (Hall & Hne & Hdig).
  split; [exact Hall|]. split; [exact Hne|].
  change (pretty p) with (pretty (N.pos p)).
  rewrite parseInteger_digits by done. rewrite Hdig. reflexivity.
Qed.

Lemma digits_no (c : ascii) (a : string) :
  Qt.isDigit c = false -> Qt.allChars Qt.isDigit a = true -> Qt.contains c a = false.
Proof.
  intros Hc. induction a as [|x a IH]; [done|]. cbn.
  intros [Hx Ha]%andb_true_iff.
  destruct (Ascii.eqb_spec x c) as [->|_]; [congruence|by apply IH].
Qed.


Lemma toUShort_number (z : Z) : 0 <= z < 2 ^ 16 -> Qt.toUShort (Qt.number z) = z.
Proof.
  intros Hz. unfold Qt.toUShort.
  destruct (number_nonneg z ltac:(lia)) as (_ & _ & ->).
  rewrite bool_decide_eq_true_2 by lia. reflexivity.
Qed.

Lemma toInt_number (z : Z) : 0 <= z < 2 ^ 31 -> Qt.toInt (Qt.number z) = (z, true).
Proof.
  intros Hz. unfold Qt.toInt.
  destruct (number_nonneg z ltac:(lia)) as (_ & _ & ->).
  rewrite bool_decide_eq_true_2 by lia. reflexivity.
Qed.

(** ** Sender: the progress stream *)

Section SenderStream.

Variables (path : string) (fsz b prt : Z).
Hypothesis Hb : 0 < b.
Hypothesis Hfsz : 0 < fsz.
Hypothesis Hrange : fsz * 100 < 2 ^ 63.

Local Abbreviation streamingAt := (Sender.streamingAt path fsz prt).
Local Abbreviation finishedAt := (Sender.finishedAt path fsz prt).

Lemma percent_exact (p : Z) :
  0 <= p <= fsz ->
  Qt.wrap32 (Z.quot (Qt.wrap64 (p * 100)) fsz) = p * 100 / fsz.
Proof using Hfsz Hrange.
  intros Hp.
  rewrite Qt_wrap64_id by nia.
  rewrite Z.quot_div_nonneg by nia.
  assert (0 <= p * 100 / fsz) by (apply Z.div_pos; nia).
  assert (p * 100 / fsz <= 100).
  { apply Z.div_le_upper_bound; nia. }
  apply Qt_wrap32_id. lia.
Qed.

Lemma percent_full (p : Z) :
  0 <= p <= fsz -> (p * 100 / fsz = 100 <-> p = fsz).
Proof using Hfsz.
  intros Hp. split.
  - intros H100.
    destruct (decide (p = fsz)) as [|Hne]; [done|].
    assert (p * 100 / fsz < 100); [|lia].
    apply Z.div_lt_upper_bound; lia.
  - intros ->. rewrite Z.mul_comm. apply Z.div_mul. lia.
Qed.

Lemma percent_mono (p q : Z) : p <= q -> p * 100 / fsz <= q * 100 / fsz.
Proof using Hfsz. intros Hpq. apply Z.div_le_mono; lia. Qed.

Lemma step_more (p : Z) :
  0 <= p < fsz ->
  Sender.step b Sender.BytesWritten (streamingAt p) =
    (streamingAt (p + Z.min b (fsz - p)),
     [Sender.Emit (Sender.progressUpdated ((p + Z.min b (fsz - p)) * 100 / fsz));
      Sender.writeChunk (Z.min b (fsz - p))]).
Proof using Hb Hfsz Hrange.
  intros Hp.
  unfold Sender.step, Sender.streamingAt, Sender.onBytesWritten; cbn.
  unfold Sender.atEnd, Sender.size; cbn.
  rewrite bool_decide_eq_false_2 by lia. cbn.
  rewrite (Z.max_r 0 (Z.min b (fsz - p))) by lia.
  rewrite (Qt_wrap64_id (p + _)) by lia.
  rewrite percent_exact by lia.
  reflexivity.
Qed.

Lemma step_end :
  Sender.step b Sender.BytesWritten (streamingAt fsz) =
    (finishedAt fsz, [Sender.Emit Sender.transferFinished; Sender.disconnectFromHost]).
Proof.
  unfold Sender.step, Sender.streamingAt, Sender.onBytesWritten; cbn.
  unfold Sender.atEnd, Sender.size; cbn.
  rewrite bool_decide_eq_true_2 by lia. reflexivity.
Qed.

Lemma step_finished (p : Z) :
  Sender.step b Sender.BytesWritten (finishedAt p) = (finishedAt p, []).
Proof. reflexivity. Qed.

Lemma trace_finished (n : nat) :
  Sender.trace b (repeat Sender.BytesWritten n) (finishedAt fsz) =
    repeat (finishedAt fsz, []) n.
Proof.
  induction n as [|n IH]; [done|].
  cbn [repeat Sender.trace]. rewrite step_finished. cbn [fst]. by rewrite IH.
Qed.

Lemma progress_finished (n : nat) :
  Sender.progressValues (repeat (finishedAt fsz, []) n) = [].
Proof. induction n as [|n IH]; [done|]. cbn. exact IH. Qed.

Lemma stream_trace (n : nat) :
  forall p, 0 < p <= fsz ->
    let tr := Sender.trace b (repeat Sender.BytesWritten n) (streamingAt p) in
    StronglySorted Z.le (Sender.progressValues tr)
    /\ Forall (fun v => p * 100 / fsz <= v) (Sender.progressValues tr)
    /\ Forall (fun r => 0 <= Sender.bytesSent r.1 <= fsz) tr
    /\ Forall (fun r => forall v, Sender.Emit (Sender.progressUpdated v) ∈ r.2 ->
                                 v = Sender.bytesSent r.1 * 100 / fsz) tr
    /\ Forall (fun r => Sender.finishes r -> Sender.bytesSent r.1 = fsz) tr
    /\ (Exists Sender.finishes tr -> p < fsz -> 100 ∈ Sender.progressValues tr)
    /\ (fsz - p <= b * (Z.of_nat n - 1) -> Exists Sender.finishes tr).
Proof using Hb Hfsz Hrange.
  induction n as [|n IH]; intros p Hp.
  - cbn.
    repeat split; try constructor.
    + intros Hex. inversion Hex.
    + intros Hle. lia.
  - cbn [repeat Sender.trace].
    destruct (decide (p = fsz)) as [->|Hne].
    + rewrite step_end. cbn [fst]. rewrite trace_finished.
      unfold Sender.progressValues. cbn [mbind list_bind app snd fst Sender.progressOf].
      fold (Sender.progressValues (repeat (finishedAt fsz, []) n)).
      rewrite progress_finished.
      repeat split; try constructor; cbn; try lia.
      * apply Forall_forall. intros r Hr. apply list_elem_of_In, repeat_spec in Hr.
        subst r. cbn. lia.
      * intros v Hv. apply elem_of_cons in Hv as [Hv|Hv]; [done|].
        apply elem_of_cons in Hv as [Hv|Hv]; [done|]. by apply elem_of_nil in Hv.
      * apply Forall_forall. intros r Hr. apply list_elem_of_In, repeat_spec in Hr.
        subst r. cbn. intros v Hv. by apply elem_of_nil in Hv.
      * apply Forall_forall. intros r Hr. apply list_elem_of_In, repeat_spec in Hr.
        subst r. cbn. done.
      * unfold Sender.finishes. cbn. apply elem_of_cons. by left.
    + rewrite step_more by lia. cbn [fst].
      set (q := p + Z.min b (fsz - p)).
      assert (Hq : 0 < q <= fsz) by (unfold q; lia).
      assert (Hpq : p <= q) by (unfold q; lia).
      destruct (IH q Hq) as (Hs & Hlb & Hbd & Hval & Hfin & Hfull & Hlive).
      cbv zeta. unfold Sender.progressValues.
      cbn [mbind list_bind app snd fst Sender.progressOf].
      fold (Sender.progressValues (Sender.trace b (repeat Sender.BytesWritten n) (streamingAt q))).
      repeat split.
      * constructor; [exact Hs | exact Hlb].
      * constructor; [by apply percent_mono|].
        eapply Forall_impl; [exact Hlb|]. cbn. intros v Hv.
        pose proof (percent_mono p q Hpq). lia.
      * constructor; [cbn; lia | exact Hbd].
      * constructor; [|exact Hval]. cbn. intros v Hv.
        apply elem_of_cons in Hv as [Hv|Hv]; [by injection Hv|].
        apply elem_of_cons in Hv as [Hv|Hv]; [done|]. by apply elem_of_nil in Hv.
      * constructor; [|exact Hfin]. unfold Sender.finishes. cbn. intros Hv.
        apply elem_of_cons in Hv as [Hv|Hv]; [done|].
        apply elem_of_cons in Hv as [Hv|Hv]; [done|]. by apply elem_of_nil in Hv.
      * intros Hex _. destruct (decide (q = fsz)) as [Heq|Hqne].
        -- apply elem_of_cons. left. rewrite Heq. symmetry. apply (proj2 (percent_full fsz ltac:(lia))). reflexivity.
        -- apply elem_of_cons. right. apply Hfull; [|lia].
           apply Exists_cons in Hex as [Hex|Hex]; [|exact Hex].
           unfold Sender.finishes in Hex. cbn in Hex.
           apply elem_of_cons in Hex as [Hv|Hv]; [done|].
           apply elem_of_cons in Hv as [Hv|Hv]; [done|]. by apply elem_of_nil in Hv.
      * intros Hle. apply Exists_cons_tl. apply Hlive. rewrite Nat2Z.inj_succ in Hle.
        assert (1 <= Z.of_nat n).
        { destruct (decide (Z.of_nat n = 0)) as [Hz|]; [rewrite Hz in Hle|]; lia. }
        unfold q. destruct (Z.min_spec b (fsz - p)) as [[? ->]|[? ->]]; nia.
Qed.

End SenderStream.

Lemma progressValues_cons (r : Sender.Sender * list Sender.action) tr :
  Sender.progressValues (r :: tr) = (r.2 ≫= Sender.progressOf) ++ Sender.progressValues tr.
Proof. reflexivity. Qed.

Lemma acceptedRun_unfold (b : Z) (path ip : string) (fsz cfg prt : Z) (n : nat) :
  0 < b -> 0 < fsz -> fsz < 2 ^ 63 ->
  exists r1 r2,
    Sender.acceptedRun b path ip fsz cfg prt n =
      r1 :: r2 :: Sender.trace b (repeat Sender.BytesWritten n)
                    (Sender.streamingAt path fsz prt (Z.min b fsz))
    /\ r1.2 ≫= Sender.progressOf = [] /\ r2.2 ≫= Sender.progressOf = []
    /\ ~ Sender.finishes r1 /\ ~ Sender.finishes r2.
Proof.
  intros Hb Hfsz Hlt.
  unfold Sender.acceptedRun. cbn [Sender.trace].
  eexists _, _. split; [|split; [|split; [|split]]].
  - f_equal. f_equal. f_equal.
    unfold Sender.step at 2. cbn.
    unfold Sender.size; cbn.
    rewrite Z.sub_0_r, (Z.max_r 0 (Z.min b fsz)) by lia.
    rewrite Qt_wrap64_id by lia.
    reflexivity.
  - reflexivity.
  - cbn. unfold Sender.size; cbn.
    rewrite Z.sub_0_r, (Z.max_r 0 (Z.min b fsz)) by lia.
    rewrite bool_decide_eq_true_2 by lia. reflexivity.
  - unfold Sender.finishes. cbn. intros Hv.
    apply elem_of_cons in Hv as [Hv|Hv]; [done|]. by apply elem_of_nil in Hv.
  - unfold Sender.finishes. cbn. unfold Sender.size; cbn.
    rewrite Z.sub_0_r, (Z.max_r 0 (Z.min b fsz)) by lia.
    rewrite bool_decide_eq_true_2 by lia. cbn. intros Hv.
    apply elem_of_cons in Hv as [Hv|Hv]; [done|].
    apply elem_of_cons in Hv as [Hv|Hv]; [done|]. by apply elem_of_nil in Hv.
Qed.

(** C3 (as amended). For an accepted transfer of a non-empty readable file
    whose size times 100 fits a [qint64], with a positive buffer size: the
    progress values the Sender emits are non-decreasing; each one is
    [floor (bytesSent * 100 / fileSize)] and is 100 exactly when
    [bytesSent = fileSize]; [bytesSent = fileSize] when [transferFinished] is
    emitted; when the file is larger than one buffer, a transfer that
    finishes has emitted 100; and [ceil (fileSize / bufferSize)]
    bytes-written notifications are enough for it to finish. *)
Theorem sender_progress_stream (b : Z) (path ip : string) (fsz cfg prt : Z) (n : nat) :
  0 < b -> 0 < fsz -> fsz * 100 < 2 ^ 63 ->
  let tr := Sender.acceptedRun b path ip fsz cfg prt n in
  StronglySorted Z.le (Sender.progressValues tr)
  /\ (forall r v, r ∈ tr -> Sender.Emit (Sender.progressUpdated v) ∈ r.2 ->
        v = Sender.bytesSent r.1 * 100 / fsz
        /\ (v = 100 <-> Sender.bytesSent r.1 = fsz))
  /\ (forall r, r ∈ tr -> Sender.finishes r -> Sender.bytesSent r.1 = fsz)
  /\ (b < fsz -> Exists Sender.finishes tr -> 100 ∈ Sender.progressValues tr)
  /\ (fsz <= b * Z.of_nat n -> Exists Sender.finishes tr).
Proof.
  intros Hb Hfsz Hrange tr.
  destruct (acceptedRun_unfold b path ip fsz cfg prt n Hb Hfsz ltac:(lia))
    as (r1 & r2 & Htr & Hp1 & Hp2 & Hf1 & Hf2).
  assert (Hp0 : 0 < Z.min b fsz <= fsz) by lia.
  destruct (stream_trace path fsz b prt Hb Hfsz Hrange n (Z.min b fsz) Hp0)
    as (Hs & _ & Hbd & Hval & Hfin & Hfull & Hlive).
  set (tr' := Sender.trace b (repeat Sender.BytesWritten n)
                (Sender.streamingAt path fsz prt (Z.min b fsz))) in *.
  assert (Hpv : Sender.progressValues tr = Sender.progressValues tr').
  { unfold tr. rewrite Htr. rewrite !progressValues_cons. by rewrite Hp1, Hp2. }
  assert (Hin : forall r, r ∈ tr -> r = r1 \/ r = r2 \/ r ∈ tr').
  { intros r Hr. unfold tr in Hr. rewrite Htr in Hr.
    apply elem_of_cons in Hr as [Hr|Hr]; [by left|].
    apply elem_of_cons in Hr as [Hr|Hr]; [by right; left|by right; right]. }
  assert (Hnone : forall (r : Sender.Sender * list Sender.action) v,
             r.2 ≫= Sender.progressOf = [] ->
             ~ Sender.Emit (Sender.progressUpdated v) ∈ r.2).
  { intros r v Hnil Hv. 
    assert (v ∈ r.2 ≫= Sender.progressOf).
    { apply list_elem_of_bind. exists (Sender.Emit (Sender.progressUpdated v)).
      split; [|exact Hv]. cbn. apply elem_of_cons. by left. }
    rewrite Hnil in H. by apply elem_of_nil in H. }
  split; [by rewrite Hpv|]. split; [|split; [|split]].
  - intros r v Hr Hv.
    destruct (Hin r Hr) as [->|[->|Hr']].
    + by apply Hnone in Hv.
    + by apply Hnone in Hv.
    + rewrite Forall_forall in Hval, Hbd.
      pose proof (Hval r Hr' v Hv) as Hv'. split; [exact Hv'|].
      rewrite Hv'. apply percent_full; [lia|]. by apply Hbd.
  - intros r Hr Hf.
    destruct (Hin r Hr) as [->|[->|Hr']]; [done|done|].
    rewrite Forall_forall in Hfin. by apply Hfin.
  - intros Hlt Hex. rewrite Hpv. apply Hfull; [|lia].
    unfold tr in Hex. rewrite Htr in Hex.
    apply Exists_cons in Hex as [Hex|Hex]; [done|].
    apply Exists_cons in Hex as [Hex|Hex]; [done|exact Hex].
  - intros Hle. unfold tr. rewrite Htr.
    apply Exists_cons_tl, Exists_cons_tl, Hlive.
    destruct (Z.min_spec b fsz) as [[? ->]|[? ->]]; [nia|].
    assert (1 <= Z.of_nat n); [|nia].
    destruct (decide (Z.of_nat n = 0)) as [Hz|]; [rewrite Hz in Hle|]; lia.
Qed.

Lemma sender_progress_stream_witness :
  let tr := Sender.acceptedRun 4 "/tmp/a.txt" "192.168.1.10" 10 5556 5556 3 in
  Sender.progressValues tr = [80; 100]
  /\ StronglySorted Z.le (Sender.progressValues tr)
  /\ Exists Sender.finishes tr.
Proof.
  pose proof (sender_progress_stream 4 "/tmp/a.txt" "192.168.1.10" 10 5556 5556 3
                ltac:(lia) ltac:(lia) ltac:(lia)) as (Hs & _ & _ & _ & Hlive).
  split; [vm_compute; reflexivity|]. split; [exact Hs|].
  apply Hlive. lia.
Defined.

(** C3 as stated fails: a file that fits one buffer is sent whole with the
    receiver's OK, so [transferFinished] is emitted with
    [bytesSent = fileSize], and no progress value is ever emitted. *)
Lemma sender_small_file_never_reaches_100 :
  let tr := Sender.acceptedRun 65536 "/tmp/a.txt" "192.168.1.10" 10 5556 5556 3 in
  ~ (100 ∈ Sender.progressValues tr <->
     exists r, r ∈ tr /\ Sender.finishes r /\ Sender.bytesSent r.1 = 10).
Proof.
  intros tr [_ Hback].
  assert (Hnil : Sender.progressValues tr = []) by (vm_compute; reflexivity).
  rewrite Hnil in Hback.
  eapply elem_of_nil, Hback.
  exists (Sender.finishedAt "/tmp/a.txt" 10 5556 10,
          [Sender.Emit Sender.transferFinished; Sender.disconnectFromHost]).
  split; [|split].
  - assert (Htr : tr !! 2%nat = Some (Sender.finishedAt "/tmp/a.txt" 10 5556 10,
          [Sender.Emit Sender.transferFinished; Sender.disconnectFromHost]))
      by (vm_compute; reflexivity).
    by eapply list_elem_of_lookup_2.
  - unfold Sender.finishes. cbn. apply elem_of_cons. by left.
  - reflexivity.
Qed.

(** The receiver answers NO: the Sender disconnects and reports the
    refusal; the disconnect then releases socket and file. *)
Example sender_refused :
  let s0 := (Sender.sendFile "/tmp/a.txt" (Some (10, true)) "192.168.1.10" 5556
               (Sender.new 5556)).1 in
  let tr := Sender.trace 65536
              [Sender.Connected; Sender.ReadyRead "NO
" true; Sender.Disconnected] s0 in
  snd <$> tr = [[Sender.writeLine "a.txt|10
"];
                [Sender.disconnectFromHost; Sender.Emit Sender.transferRefused];
                []]
  /\ (fst <$> tr) !! 2%nat = Some (Sender.new 5556).
Proof. vm_compute. split; reflexivity. Qed.

(** No answer before the response timer fires: an error, and the reset. *)
Example sender_response_timeout :
  let s0 := (Sender.sendFile "/tmp/a.txt" (Some (10, true)) "192.168.1.10" 5556
               (Sender.new 5556)).1 in
  let tr := Sender.trace 65536 [Sender.Connected; Sender.TimerExpired] s0 in
  (snd <$> tr) !! 1%nat = Some [Sender.Emit Sender.transferError; Sender.disconnectFromHost]
  /\ (fst <$> tr) !! 1%nat = Some (Sender.new 5556).
Proof. vm_compute. split; reflexivity. Qed.

(** A file that does not exist: [sendFile] does nothing on the network. *)
Example sender_missing_file :
  Sender.sendFile "/tmp/none.txt" None "192.168.1.10" 5556 (Sender.new 5556)
  = ({| Sender.socket := None;
        Sender.file := Some {| Sender.fileName := "/tmp/none.txt"; Sender.onDisk := None;
                               Sender.isOpen := false; Sender.pos := 0 |};
        Sender.bytesSent := 0; Sender.port := 5556;
        Sender.connectionTimer := false; Sender.responseTimer := false |}, []).
Proof. reflexivity. Qed.

(** ** Receiver: completion on disconnect *)

(** C4. For a client socket with a pending entry (its metadata was taken),
    [onDisconnected] reports CANCELLED when [totalReceived < size], and
    otherwise the received-successfully notification followed by FINISHED;
    either way the entry is removed from [pendingFiles] and the attached
    [QFile], if any, is closed and destroyed. *)
Theorem receiver_disconnect_outcome (s : positive) (r : Receiver.Receiver)
    (info : Receiver.FileDefinition) (buf : string) :
  Receiver.buffers r !! s = Some buf ->
  Receiver.pendingFiles r !! s = Some info ->
  let '(r', acts) := Receiver.onDisconnected s r in
  (Receiver.totalReceived info < Receiver.size info ->
     acts = [Receiver.transferStatusUpdated (Receiver.name info) CANCELLED;
             Receiver.deleteLater s])
  /\ (Receiver.size info <= Receiver.totalReceived info ->
        acts = [Receiver.fileReceivedSuccessfully (Qt.fileName (Receiver.name info));
                Receiver.transferStatusUpdated (Receiver.name info) FINISHED;
                Receiver.deleteLater s])
  /\ Receiver.pendingFiles r' !! s = None
  /\ (forall f, Receiver.file info = Some f -> Receiver.files r' !! f = None)
  /\ (forall s', s' ≠ s -> Receiver.pendingFiles r' !! s' = Receiver.pendingFiles r !! s').
Proof.
  intros Hbuf Hpend. unfold Receiver.onDisconnected. rewrite Hbuf, Hpend.
  split; [|split; [|split; [|split]]].
  - intros Hlt. by rewrite bool_decide_eq_true_2.
  - intros Hge. rewrite bool_decide_eq_false_2 by lia. done.
  - cbn. apply lookup_delete_eq.
  - intros f Hf. cbn. rewrite Hf. apply lookup_delete_eq.
  - intros s' Hne. cbn. by apply lookup_delete_ne.
Qed.

Lemma receiver_disconnect_outcome_witness :
  let r := (Receiver.payloadRun Fixtures.receiverEnv 1
              [Receiver.Attach 7; Receiver.Data "AB"]
              (Receiver.receive Fixtures.receiverEnv 1 "a.txt|4
" (Receiver.onNewConnection 1 Receiver.new)).1).1 in
  (Receiver.onDisconnected 1 r).2 =
    [Receiver.transferStatusUpdated "a.txt" CANCELLED; Receiver.deleteLater 1]
  /\ Receiver.pendingFiles (Receiver.onDisconnected 1 r).1 !! 1%positive = None
  /\ Receiver.files (Receiver.onDisconnected 1 r).1 !! 7%positive = None.
Proof.
  intros r.
  pose proof (receiver_disconnect_outcome 1 r
                {| Receiver.file := Some 7%positive; Receiver.name := "a.txt";
                   Receiver.size := 4; Receiver.totalReceived := 2 |} ""
                ltac:(vm_compute; reflexivity) ltac:(vm_compute; reflexivity)) as H.
  destruct (Receiver.onDisconnected 1 r) as [r' acts].
  destruct H as (Hc & _ & Hp & Hf & _).
  split; [apply Hc; cbn; lia|]. split; [exact Hp|]. by apply Hf.
Defined.

(** ** Receiver: payload before a handle is attached *)

Lemma attach_state (s f : positive) (r : Receiver.Receiver) (info : Receiver.FileDefinition) :
  Receiver.pendingFiles r !! s = Some info ->
  Receiver.file info = None ->
  Receiver.setFile (Some s) (Some f) (Receiver.openFile f r) =
    {| Receiver.pendingFiles :=
         <[s := {| Receiver.file := Some f; Receiver.name := Receiver.name info;
                   Receiver.size := Receiver.size info;
                   Receiver.totalReceived := Receiver.totalReceived info |}]>
           (Receiver.pendingFiles r);
       Receiver.buffers := Receiver.buffers r;
       Receiver.files :=
         <[f := {| Receiver.isOpen := true; Receiver.writeFails := false;
                   Receiver.written := EmptyString |}]> (Receiver.files r) |}.
Proof.
  intros Hpend Hfile. unfold Receiver.setFile, Receiver.openFile. cbn.
  by rewrite Hpend, Hfile.
Qed.

Lemma receive_with_handle (env : Receiver.Env) (s f : positive) (data : string)
    (r : Receiver.Receiver) (buf : string) (info : Receiver.FileDefinition)
    (q : Receiver.QFile) :
  Receiver.buffers r !! s = Some buf ->
  Receiver.pendingFiles r !! s = Some info ->
  Receiver.file info = Some f ->
  Receiver.files r !! f = Some q ->
  Receiver.isOpen q = true ->
  Receiver.writeFails q = false ->
  buf +:+ data ≠ EmptyString ->
  Receiver.written <$> Receiver.files (Receiver.receive env s data r).1 !! f
  = Some (Receiver.written q +:+ buf +:+ data).
Proof.
  intros Hbuf Hpend Hfile Hq Hopen Hfail Hne.
  unfold Receiver.receive. rewrite Hbuf. unfold Receiver.onReadyRead. cbn.
  rewrite lookup_insert_eq, Hpend. unfold Receiver.readPayload.
  rewrite Hfile. cbn. rewrite Hq. cbn. rewrite Hopen, Hfail. cbn.
  destruct (String.eqb_spec (buf +:+ data) EmptyString) as [Heq|_]; [done|].
  cbn. by rewrite lookup_insert_eq.
Qed.

Lemma readPayload_no_handle (env : Receiver.Env) (s : positive) (buf : string)
    (info : Receiver.FileDefinition) (r : Receiver.Receiver) :
  Receiver.file info = None ->
  Receiver.readPayload env s buf info r = (r, []).
Proof. intros Hf. unfold Receiver.readPayload. by rewrite Hf. Qed.

(** C2 (as amended). While the pending entry of a client socket has no file
    handle, payload bytes arriving on it are not persisted. In landrop-plus
    they are not consumed either: they stay in the socket's buffer, no file
    and no counter changes and nothing is emitted, and once an open handle
    is attached the next bytes that arrive are written after them, to the
    same file. In the older landrop receiver they are read, counted in
    [totalRecieved] and thrown away. *)
Theorem receiver_payload_before_accept (env : Receiver.Env) (s f : positive)
    (buf early late : string) :
  (forall (r : Receiver.Receiver) (info : Receiver.FileDefinition),
      Receiver.buffers r !! s = Some buf ->
      Receiver.pendingFiles r !! s = Some info ->
      Receiver.file info = None ->
      let r1 := (Receiver.receive env s early r).1 in
      Receiver.receive env s early r = (Receiver.setBuffer s (buf +:+ early) r, [])
      /\ Receiver.files r1 = Receiver.files r
      /\ Receiver.pendingFiles r1 = Receiver.pendingFiles r
      /\ (buf +:+ early +:+ late ≠ EmptyString ->
          Receiver.written <$>
            Receiver.files
              (Receiver.payloadRun env s [Receiver.Attach f; Receiver.Data late] r1).1 !! f
          = Some (buf +:+ early +:+ late)))
  /\ (forall (r : LegacyReceiver.Receiver) (info : LegacyReceiver.FileDefintion),
        LegacyReceiver.buffers r !! s = Some buf ->
        LegacyReceiver.pendingFiles r !! s = Some info ->
        LegacyReceiver.file info = None ->
        exists r1 acts,
          LegacyReceiver.receive (Receiver.percentage env) s early r = Some (r1, acts)
          /\ LegacyReceiver.files r1 = LegacyReceiver.files r
          /\ LegacyReceiver.buffers r1 !! s = Some EmptyString
          /\ LegacyReceiver.totalRecieved <$> LegacyReceiver.pendingFiles r1 !! s
             = Some (Qt.wrap64 (LegacyReceiver.totalRecieved info + Qt.size (buf +:+ early)))).
Proof.
  split.
  - intros r info Hbuf Hpend Hfile r1.
    assert (Hrecv : Receiver.receive env s early r
                    = (Receiver.setBuffer s (buf +:+ early) r, [])).
    { unfold Receiver.receive. rewrite Hbuf. unfold Receiver.onReadyRead. cbn.
      rewrite lookup_insert_eq, Hpend. by apply readPayload_no_handle. }
    subst r1. rewrite Hrecv. cbn [fst].
    split; [done|]. split; [done|]. split; [done|].
    intros Hne. cbn [Receiver.payloadRun Receiver.payloadStep].
    rewrite (attach_state s f _ info) by (cbn; done).
    set (r2 := Receiver.Build_Receiver _ _ _).
    pose proof (receive_with_handle env s f late r2 (buf +:+ early)
                  {| Receiver.file := Some f; Receiver.name := Receiver.name info;
                     Receiver.size := Receiver.size info;
                     Receiver.totalReceived := Receiver.totalReceived info |}
                  {| Receiver.isOpen := true; Receiver.writeFails := false;
                     Receiver.written := EmptyString |}) as Hw.
    destruct (Receiver.receive env s late r2) as [r3 a3]. cbn [fst] in *.
    rewrite Hw; cbn; rewrite ?lookup_insert_eq, ?string_app_assoc; done.
  - intros r info Hbuf Hpend Hfile.
    unfold LegacyReceiver.receive. rewrite Hbuf. unfold LegacyReceiver.onReadyRead. cbn.
    rewrite lookup_insert_eq, Hpend, Hfile.
    eexists _, _. split; [reflexivity|]. cbn.
    split; [done|]. rewrite !lookup_insert_eq. done.
Qed.

Lemma receiver_payload_before_accept_witness :
  let r := (Receiver.receive Fixtures.receiverEnv 1 "a.txt|4
" (Receiver.onNewConnection 1 Receiver.new)).1 in
  let r1 := (Receiver.receive Fixtures.receiverEnv 1 "AB" r).1 in
  Receiver.files r1 = Receiver.files r
  /\ Receiver.written <$>
       Receiver.files
         (Receiver.payloadRun Fixtures.receiverEnv 1
            [Receiver.Attach 7; Receiver.Data "CD"] r1).1 !! 7%positive
     = Some "ABCD".
Proof.
  intros r r1.
  destruct (receiver_payload_before_accept Fixtures.receiverEnv 1 7 "" "AB" "CD") as [Hplus _].
  destruct (Hplus r {| Receiver.file := None; Receiver.name := "a.txt"; Receiver.size := 4;
                       Receiver.totalReceived := 0 |}
              ltac:(vm_compute; reflexivity) ltac:(vm_compute; reflexivity)
              ltac:(reflexivity)) as (_ & Hfiles & _ & Hwritten).
  split; [exact Hfiles|]. apply Hwritten. discriminate.
Defined.

(** C2 as stated fails on landrop-plus: the bytes "AB" arrive before a
    handle is attached, and when the handle is attached and "CD" arrives,
    the file gets "ABCD": the early bytes were kept, not dropped. *)
Lemma receiver_early_bytes_are_written_later :
  let r0 := (Receiver.receive Fixtures.receiverEnv 1 "a.txt|4
" (Receiver.onNewConnection 1 Receiver.new)).1 in
  let early := Receiver.receive Fixtures.receiverEnv 1 "AB" r0 in
  let later := Receiver.payloadRun Fixtures.receiverEnv 1
                 [Receiver.Attach 7; Receiver.Data "CD"] early.1 in
  Receiver.file <$> Receiver.pendingFiles r0 !! 1%positive = Some None
  /\ Receiver.buffers early.1 !! 1%positive = Some "AB"
  /\ Receiver.files later.1 !! 7%positive
     = Some {| Receiver.isOpen := true; Receiver.writeFails := false;
               Receiver.written := "ABCD" |}
  /\ later.2 = [Receiver.transferProgressUpdated "a.txt" 100; Receiver.disconnectFromHost 1].
Proof. vm_compute. repeat split; reflexivity. Qed.

(** ** Receiver: the metadata line *)

Lemma split_nonempty (sep : ascii) (s : string) :
  exists h t, Qt.split sep s = h :: t.
Proof.
  destruct s as [|c s]; cbn; [by eexists _, _|].
  destruct (Ascii.eqb c sep); [by eexists _, _|].
  destruct (Qt.split sep s); by eexists _, _.
Qed.

Lemma split_contains (sep : ascii) (s : string) :
  Qt.contains sep s = true -> exists a b t, Qt.split sep s = a :: b :: t.
Proof.
  induction s as [|c s IH]; cbn; [done|].
  destruct (Ascii.eqb c sep).
  - intros _. destruct (split_nonempty sep s) as (h & t & ->). by eexists _, _, _.
  - intros Hc. destruct (IH Hc) as (a & b' & t & ->). by eexists _, _, _.
Qed.

Lemma manager_ignores_disconnect (now : Z) (s : positive) (m : FileTransferManager.Manager) :
  FileTransferManager.onReceiverActions now [Receiver.disconnectFromHost s] m = (m, []).
Proof. reflexivity. Qed.

Lemma manager_ignores_download (now : Z) (s : positive) (p ip : string) (port : Z)
    (m : FileTransferManager.Manager) :
  FileTransferManager.onReceiverActions now
    [Receiver.sendSharedFile p ip port; Receiver.disconnectFromHost s] m = (m, []).
Proof. reflexivity. Qed.

(** What [onReadyRead] does on a socket without pending entry, by the
    shape of the first line. *)
Lemma readMetadata_cases (env : Receiver.Env) (s : positive) (r : Receiver.Receiver)
    (buf : string) :
  Receiver.buffers r !! s = Some buf ->
  Receiver.pendingFiles r !! s = None ->
  let line := Receiver.firstLine buf in
  let r1 := Receiver.setBuffer s (Qt.readLine buf).2 r in
  let res := Receiver.onReadyRead env s r in
  (line = EmptyString \/ Qt.contains "|" line = false -> res = (r1, [Receiver.disconnectFromHost s]))
  /\ (line ≠ EmptyString -> Qt.contains "|" line = true ->
      Receiver.isDownloadRequest line = true ->
      res.1 = r1
      /\ (res.2 = [Receiver.disconnectFromHost s]
          \/ exists p ip port,
               res.2 = [Receiver.sendSharedFile p ip port; Receiver.disconnectFromHost s]))
  /\ (line ≠ EmptyString -> Qt.contains "|" line = true ->
      Receiver.isDownloadRequest line = false ->
      (Receiver.metadataName line = EmptyString \/ Receiver.metadataSize line < 0 ->
       res = (r1, [Receiver.disconnectFromHost s]))
      /\ (Receiver.metadataName line ≠ EmptyString -> 0 <= Receiver.metadataSize line ->
          res = ({| Receiver.pendingFiles :=
                      <[s := {| Receiver.file := None;
                                Receiver.name := Receiver.metadataName line;
                                Receiver.size := Receiver.metadataSize line;
                                Receiver.totalReceived := 0 |}]> (Receiver.pendingFiles r);
                    Receiver.buffers := Receiver.buffers r1;
                    Receiver.files := Receiver.files r |},
                 [Receiver.fileTransferRequested (Receiver.metadataName line)
                    (Qt.number (Receiver.metadataSize line)) s]))).
Proof.
  intros Hbuf Hpend line r1 res.
  subst res. unfold Receiver.onReadyRead. rewrite Hbuf, Hpend.
  unfold Receiver.readMetadata.
  subst line r1. unfold Receiver.firstLine.
  destruct (Qt.readLine buf) as [raw rest]. cbn [fst snd].
  set (line := Qt.trimmed raw).
  split; [|split].
  - intros [Hempty|Hnopipe].
    + rewrite Hempty. reflexivity.
    + rewrite Hnopipe. cbn. by rewrite orb_true_r.
  - intros Hne Hpipe Hdl.
    destruct (String.eqb_spec line EmptyString) as [|_]; [done|].
    rewrite Hpipe. cbn [negb orb].
    unfold Receiver.isDownloadRequest in Hdl. rewrite Hdl.
    destruct (Qt.split "|" line) as [|p0 [|p1 [|p2 [|p3 ps]]]]; cbn [fst snd];
      try (split; [reflexivity|left; reflexivity]).
    split; [reflexivity|].
    unfold Receiver.handleDownloadRequest.
    destruct (Receiver.sharedFile env p1); [right; by eexists _, _, _|by left].
  - intros Hne Hpipe Hdl.
    destruct (String.eqb_spec line EmptyString) as [|_]; [done|].
    rewrite Hpipe. cbn [negb orb].
    unfold Receiver.isDownloadRequest in Hdl. rewrite Hdl.
    unfold Receiver.metadataName, Receiver.metadataSize, Receiver.sizeField.
    destruct (split_contains _ _ Hpipe) as (a & b & t & ->). cbn.
    split.
    + intros [Hname|Hsize].
      * rewrite Hname. reflexivity.
      * rewrite (bool_decide_eq_true_2 _ Hsize). by rewrite orb_true_r.
    + intros Hname Hsize.
      destruct (String.eqb_spec a EmptyString) as [|_]; [done|].
      rewrite bool_decide_eq_false_2 by lia. reflexivity.
Qed.

(** C8 (as amended). On a newly accepted socket, a first line that is
    empty, has no separator, has an empty file name or a size field that
    [toLongLong] reads as a negative number makes the Receiver disconnect
    that socket and no other; no pending entry is created, the manager
    creates no session, and the slot returns normally. (A line that starts
    with the download-request tag is a download request whatever its second
    field: it is served, if the shared file exists, and the socket is
    disconnected. A size field that is not a number, or that spells a number
    outside [qint64], is read as 0 and is not turned down: see the two
    lemmas after the theorem.) *)
Theorem receiver_malformed_metadata (env : Receiver.Env) (s : positive)
    (r : Receiver.Receiver) (buf : string) :
  Receiver.buffers r !! s = Some buf ->
  Receiver.pendingFiles r !! s = None ->
  let line := Receiver.firstLine buf in
  line = EmptyString \/ Qt.contains "|" line = false
    \/ Receiver.metadataName line = EmptyString \/ Receiver.metadataSize line < 0 ->
  let '(r', acts) := Receiver.onReadyRead env s r in
  Receiver.pendingFiles r' = Receiver.pendingFiles r
  /\ Receiver.disconnectFromHost s ∈ acts
  /\ (forall s', Receiver.disconnectFromHost s' ∈ acts -> s' = s)
  /\ (forall n sz s', ~ Receiver.fileTransferRequested n sz s' ∈ acts)
  /\ (Receiver.isDownloadRequest line = false -> acts = [Receiver.disconnectFromHost s])
  /\ (forall now m, FileTransferManager.onReceiverActions now acts m = (m, [])).
Proof.
  intros Hbuf Hpend line Hbad.
  destruct (readMetadata_cases env s r buf Hbuf Hpend) as (Hshape & Hdl & Hmeta).
  fold line in Hshape, Hdl, Hmeta.
  assert (Hres : (Receiver.onReadyRead env s r).1
                 = Receiver.setBuffer s (Qt.readLine buf).2 r
                 /\ ((Receiver.onReadyRead env s r).2 = [Receiver.disconnectFromHost s]
                     \/ (Receiver.isDownloadRequest line = true
                         /\ exists p ip port,
                              (Receiver.onReadyRead env s r).2
                              = [Receiver.sendSharedFile p ip port;
                                 Receiver.disconnectFromHost s]))).
  { destruct (decide (line = EmptyString)) as [He|Hne].
    { rewrite Hshape by (by left). cbn. auto. }
    destruct (Qt.contains "|" line) eqn:Hpipe.
    2:{ rewrite Hshape by (by right). cbn. auto. }
    destruct (Receiver.isDownloadRequest line) eqn:Hd.
    - destruct (Hdl Hne eq_refl eq_refl) as [H1 [H2|H2]]; auto.
    - destruct (Hmeta Hne eq_refl eq_refl) as [Hrej _].
      rewrite Hrej; [cbn; auto|].
      destruct Hbad as [?|[?|Hbad]]; [done|done|exact Hbad]. }
  destruct (Receiver.onReadyRead env s r) as [r' acts]. cbn [fst snd] in Hres.
  destruct Hres as [-> Hacts].
  split; [done|].
  destruct Hacts as [->|(Hd & p & ip & port & ->)].
  - split; [apply elem_of_cons; by left|].
    split; [intros s' Hs'; apply elem_of_cons in Hs' as [Hs'|Hs'];
            [by injection Hs'|by apply elem_of_nil in Hs']|].
    split; [intros n sz s' Hs'; apply elem_of_cons in Hs' as [Hs'|Hs'];
            [done|by apply elem_of_nil in Hs']|].
    split; [done|]. intros now m. reflexivity.
  - split; [apply elem_of_cons; right; apply elem_of_cons; by left|].
    split; [intros s' Hs'; apply elem_of_cons in Hs' as [Hs'|Hs']; [done|];
            apply elem_of_cons in Hs' as [Hs'|Hs'];
            [by injection Hs'|by apply elem_of_nil in Hs']|].
    split; [intros n sz s' Hs'; apply elem_of_cons in Hs' as [Hs'|Hs']; [done|];
            apply elem_of_cons in Hs' as [Hs'|Hs'];
            [done|by apply elem_of_nil in Hs']|].
    split; [intros Hd'; congruence|]. intros now m. reflexivity.
Qed.

Lemma receiver_malformed_metadata_witness :
  let r := Receiver.setBuffer 1 "a.txt|-5
" (Receiver.onNewConnection 1 Receiver.new) in
  Receiver.onReadyRead Fixtures.receiverEnv 1 r
  = (Receiver.setBuffer 1 "" r, [Receiver.disconnectFromHost 1]).
Proof.
  intros r.
  pose proof (receiver_malformed_metadata Fixtures.receiverEnv 1 r "a.txt|-5
" ltac:(vm_compute; reflexivity) ltac:(vm_compute; reflexivity)
     ltac:(right; right; right; vm_compute; reflexivity)) as H.
  destruct (Receiver.onReadyRead Fixtures.receiverEnv 1 r) as [r' acts] eqn:Hrun.
  destruct H as (_ & _ & _ & _ & Hacts & _).
  rewrite (Hacts ltac:(vm_compute; reflexivity)).
  f_equal. vm_compute in Hrun. injection Hrun as <- _. vm_compute. reflexivity.
Defined.

(** C8 as stated fails: a declared size that is not a number is read as 0
    and the offer is accepted: a pending entry is created, the request is
    signalled, and the manager creates a session. *)
Lemma receiver_non_numeric_size_is_accepted :
  let r := Receiver.onNewConnection 1 Receiver.new in
  let res := Receiver.receive Fixtures.receiverEnv 1 "report.pdf|abc
" r in
  Receiver.pendingFiles res.1 !! 1%positive
  = Some {| Receiver.file := None; Receiver.name := "report.pdf"; Receiver.size := 0;
            Receiver.totalReceived := 0 |}
  /\ res.2 = [Receiver.fileTransferRequested "report.pdf" "0" 1]
  /\ ~ Receiver.disconnectFromHost 1 ∈ res.2
  /\ FileTransferManager.status <$>
       FileTransferManager.sessions
         (FileTransferManager.onReceiverActions 0 res.2 FileTransferManager.new).1 !! 1
     = Some WAITING.
Proof.
  vm_compute. repeat split; try reflexivity.
  intros H. apply elem_of_cons in H as [H|H]; [discriminate|by apply elem_of_nil in H].
Qed.

(** Nor is a size field that spells a negative number outside [qint64]:
    [toLongLong] gives 0 for it, and the offer is accepted with size 0. *)
Lemma receiver_out_of_range_size_is_accepted :
  let r := Receiver.onNewConnection 1 Receiver.new in
  let res := Receiver.receive Fixtures.receiverEnv 1 "a.txt|-99999999999999999999
" r in
  Qt.parseInteger "-99999999999999999999" = Some (-99999999999999999999)
  /\ Qt.toLongLong "-99999999999999999999" = 0
  /\ Receiver.pendingFiles res.1 !! 1%positive
     = Some {| Receiver.file := None; Receiver.name := "a.txt"; Receiver.size := 0;
               Receiver.totalReceived := 0 |}
  /\ res.2 = [Receiver.fileTransferRequested "a.txt" "0" 1].
Proof. vm_compute. repeat split; reflexivity. Qed.

(** ** Receiver: offers of declared size 0 *)

Lemma payloadBytes_cons (e : Receiver.payloadEvent) (es : list Receiver.payloadEvent) :
  Receiver.payloadBytes (e :: es) = Receiver.bytesOf e + Receiver.payloadBytes es.
Proof. reflexivity. Qed.

Lemma payloadBytes_nonneg (es : list Receiver.payloadEvent) : 0 <= Receiver.payloadBytes es.
Proof.
  induction es as [|e es IH]; [done|]. rewrite payloadBytes_cons.
  destruct e as [bytes|f]; cbn; [pose proof (size_nonneg bytes)|]; lia.
Qed.

Section ZeroSize.

Variables (env : Receiver.Env) (s : positive) (nm : string).

Local Abbreviation zeroSizeEntry := (Receiver.zeroSizeEntry s nm).

Lemma zeroSizeEntry_step (e : Receiver.payloadEvent) (bound : Z) (r : Receiver.Receiver) :
  bound + Receiver.bytesOf e < 2 ^ 63 ->
  zeroSizeEntry bound r ->
  zeroSizeEntry (bound + Receiver.bytesOf e) (Receiver.payloadStep env s e r).1.
Proof.
  intros Hlt (info & buf & Hpend & Hbuf & Hname & Hsize & Hpos & Hbound).
  destruct e as [data|f]; cbn [Receiver.payloadStep Receiver.bytesOf] in *.
  - unfold Receiver.receive. rewrite Hbuf. unfold Receiver.onReadyRead.
    cbn [Receiver.setBuffer Receiver.buffers Receiver.pendingFiles].
    rewrite lookup_insert_eq, Hpend.
    pose proof (size_app buf data) as Happ.
    pose proof (size_nonneg buf). pose proof (size_nonneg data).
    assert (Hkeep : zeroSizeEntry (bound + Qt.size data)
                      (Receiver.setBuffer s (buf +:+ data) r)).
    { exists info, (buf +:+ data). cbn. rewrite lookup_insert_eq.
      repeat split; try done; lia. }
    assert (Hdrop : zeroSizeEntry (bound + Qt.size data)
                      (Receiver.setBuffer s EmptyString
                         (Receiver.setBuffer s (buf +:+ data) r))).
    { exists info, EmptyString. cbn. rewrite lookup_insert_eq.
      repeat split; try done. change (Qt.size EmptyString) with 0. lia. }
    unfold Receiver.readPayload.
    destruct (Receiver.file info ≫= _) as [[f q]|]; [|exact Hkeep].
    destruct (Receiver.isOpen q); cbn [negb]; [|exact Hkeep].
    destruct (String.eqb (buf +:+ data) EmptyString); [exact Hdrop|].
    destruct (Receiver.writeFails q); [exact Hdrop|].
    cbn [fst].
    eexists _, EmptyString. cbn. rewrite !lookup_insert_eq.
    split; [reflexivity|]. split; [reflexivity|]. cbn.
    rewrite Qt_wrap64_id by lia.
    change (Qt.size EmptyString) with 0.
    repeat split; try done; lia.
  - rewrite Z.add_0_r.
    unfold Receiver.setFile, Receiver.openFile. cbn. rewrite Hpend.
    eexists _, buf. cbn. rewrite lookup_insert_eq.
    split; [reflexivity|]. repeat split; done.
Qed.

Lemma zeroSizeEntry_run (es : list Receiver.payloadEvent) :
  forall (bound : Z) (r : Receiver.Receiver),
    bound + Receiver.payloadBytes es < 2 ^ 63 ->
    zeroSizeEntry bound r ->
    zeroSizeEntry (bound + Receiver.payloadBytes es) (Receiver.payloadRun env s es r).1.
Proof.
  induction es as [|e es IH]; intros bound r Hlt Hinv.
  - cbn. by rewrite Z.add_0_r.
  - rewrite payloadBytes_cons in *. cbn [Receiver.payloadRun].
    pose proof (payloadBytes_nonneg es) as Hes.
    pose proof (zeroSizeEntry_step e bound r ltac:(lia) Hinv) as Hstep.
    destruct (Receiver.payloadStep env s e r) as [r1 a1]. cbn [fst] in Hstep.
    pose proof (IH (bound + Receiver.bytesOf e) r1 ltac:(lia) Hstep) as Hrun.
    destruct (Receiver.payloadRun env s es r1) as [r2 a2]. cbn [fst] in *.
    by rewrite Z.add_assoc.
Qed.

Lemma zeroSizeEntry_finished (bound : Z) (r : Receiver.Receiver) :
  zeroSizeEntry bound r ->
  (Receiver.onDisconnected s r).2 =
    [Receiver.fileReceivedSuccessfully (Qt.fileName nm);
     Receiver.transferStatusUpdated nm FINISHED; Receiver.deleteLater s].
Proof.
  intros (info & buf & Hpend & Hbuf & Hname & Hsize & Hpos & _).
  unfold Receiver.onDisconnected. rewrite Hbuf, Hpend. cbn.
  rewrite bool_decide_eq_false_2 by lia. by rewrite Hname.
Qed.

End ZeroSize.

(** C10 (as amended). On a socket without pending entry the first line is
    turned down (the socket is disconnected) exactly when it has no
    separator (the empty line included), starts with the download-request
    tag, has an empty file name, or has a size field that parses to a
    negative number. Every other line creates a pending entry with no handle
    and nothing received. A size field that is not a number parses to 0.
    When the size of an accepted line is 0, whatever payload events follow
    (fewer than 2^63 bytes in all), the first disconnect reports the
    transfer received and FINISHED. *)
Theorem receiver_metadata_acceptance (env : Receiver.Env) (s : positive)
    (r : Receiver.Receiver) (buf : string) :
  Receiver.buffers r !! s = Some buf ->
  Receiver.pendingFiles r !! s = None ->
  let line := Receiver.firstLine buf in
  let name := Receiver.metadataName line in
  let size := Receiver.metadataSize line in
  let accepted := Qt.contains "|" line = true /\ Receiver.isDownloadRequest line = false
                  /\ name ≠ EmptyString /\ 0 <= size in
  let '(r', acts) := Receiver.onReadyRead env s r in
  (Receiver.disconnectFromHost s ∈ acts
   <-> Qt.contains "|" line = false \/ Receiver.isDownloadRequest line = true
       \/ name = EmptyString \/ size < 0)
  /\ (Receiver.disconnectFromHost s ∈ acts -> Receiver.pendingFiles r' !! s = None)
  /\ (accepted ->
      acts = [Receiver.fileTransferRequested name (Qt.number size) s]
      /\ Receiver.pendingFiles r' !! s
         = Some {| Receiver.file := None; Receiver.name := name; Receiver.size := size;
                   Receiver.totalReceived := 0 |})
  /\ (Qt.parseInteger (Receiver.sizeField line) = None -> size = 0)
  /\ (accepted -> size = 0 ->
      forall es,
        Qt.size (Qt.readLine buf).2 + Receiver.payloadBytes es < 2 ^ 63 ->
        (Receiver.onDisconnected s (Receiver.payloadRun env s es r').1).2
        = [Receiver.fileReceivedSuccessfully (Qt.fileName name);
           Receiver.transferStatusUpdated name FINISHED; Receiver.deleteLater s]).
Proof.
  intros Hbuf Hpend line name size accepted.
  destruct (readMetadata_cases env s r buf Hbuf Hpend) as (Hshape & Hdl & Hmeta).
  fold line in Hshape, Hdl, Hmeta.
  assert (Hempty : line = EmptyString -> Qt.contains "|" line = false)
    by (by intros ->).
  assert (Hres :
    (Qt.contains "|" line = false \/ Receiver.isDownloadRequest line = true
     \/ name = EmptyString \/ size < 0 ->
     Receiver.disconnectFromHost s ∈ (Receiver.onReadyRead env s r).2
     /\ Receiver.pendingFiles (Receiver.onReadyRead env s r).1 !! s = None)
    /\ (accepted ->
        Receiver.onReadyRead env s r
        = ({| Receiver.pendingFiles :=
                <[s := {| Receiver.file := None; Receiver.name := name;
                          Receiver.size := size; Receiver.totalReceived := 0 |}]>
                  (Receiver.pendingFiles r);
              Receiver.buffers :=
                Receiver.buffers (Receiver.setBuffer s (Qt.readLine buf).2 r);
              Receiver.files := Receiver.files r |},
           [Receiver.fileTransferRequested name (Qt.number size) s]))).
  { split.
    - intros Hbad.
      destruct (Qt.contains "|" line) eqn:Hpipe.
      2:{ rewrite Hshape by (by right). cbn [fst snd Receiver.setBuffer
                                             Receiver.pendingFiles].
          split; [apply elem_of_cons; by left|exact Hpend]. }
      assert (Hne : line ≠ EmptyString) by (intros He; pose proof (Hempty He); congruence).
      destruct (Receiver.isDownloadRequest line) eqn:Hd.
      + destruct (Hdl Hne eq_refl eq_refl) as [H1 [H2|(p & ip & port & H2)]];
          rewrite H1, H2; cbn [Receiver.setBuffer Receiver.pendingFiles].
        * split; [apply elem_of_cons; by left|exact Hpend].
        * split; [apply elem_of_cons; right; apply elem_of_cons; by left|exact Hpend].
      + destruct (Hmeta Hne eq_refl eq_refl) as [Hrej _].
        rewrite Hrej; [|destruct Hbad as [?|[?|Hbad]]; [done|done|exact Hbad]].
        cbn [fst snd Receiver.setBuffer Receiver.pendingFiles].
        split; [apply elem_of_cons; by left|exact Hpend].
    - intros (Hpipe & Hd & Hname & Hsize).
      assert (Hne : line ≠ EmptyString) by (intros He; pose proof (Hempty He); congruence).
      destruct (Hmeta Hne Hpipe Hd) as [_ Hacc]. exact (Hacc Hname Hsize). }
  destruct Hres as [Hrej Hacc].
  destruct (Receiver.onReadyRead env s r) as [r' acts]. cbn [fst snd] in Hrej, Hacc.
  assert (Hcases : (Qt.contains "|" line = false \/ Receiver.isDownloadRequest line = true
                    \/ name = EmptyString \/ size < 0) \/ accepted).
  { unfold accepted.
    destruct (Qt.contains "|" line); [|by left; left].
    destruct (Receiver.isDownloadRequest line); [by left; right; left|].
    destruct (decide (name = EmptyString)); [by left; right; right; left|].
    destruct (decide (size < 0)); [by left; right; right; right|].
    right. repeat split; try done. lia. }
  split; [|split; [|split; [|split]]].
  - split; [|by intros Hbad; apply Hrej].
    intros Hin. destruct Hcases as [Hbad|Hok]; [exact Hbad|].
    specialize (Hacc Hok). injection Hacc as _ ->.
    apply elem_of_cons in Hin as [Hin|Hin]; [done|by apply elem_of_nil in Hin].
  - intros Hin. destruct Hcases as [Hbad|Hok]; [by apply Hrej|].
    specialize (Hacc Hok). injection Hacc as _ ->.
    apply elem_of_cons in Hin as [Hin|Hin]; [done|by apply elem_of_nil in Hin].
  - intros Hok. specialize (Hacc Hok). injection Hacc as -> ->.
    split; [done|]. cbn. apply lookup_insert_eq.
  - intros Hparse. subst size. unfold Receiver.metadataSize, Qt.toLongLong.
    by rewrite Hparse.
  - intros Hok Hsize es Hlt.
    specialize (Hacc Hok). injection Hacc as -> _.
    destruct Hok as (_ & _ & Hname & _).
    eapply (zeroSizeEntry_finished s name).
    apply (zeroSizeEntry_run env s name es (Qt.size (Qt.readLine buf).2)); [exact Hlt|].
    eexists _, _. cbn. rewrite !lookup_insert_eq.
    split; [reflexivity|]. split; [reflexivity|]. cbn.
    repeat split; try done; lia.
Qed.

Lemma receiver_metadata_acceptance_witness :
  let r := Receiver.setBuffer 1 "report.pdf|abc
" (Receiver.onNewConnection 1 Receiver.new) in
  let r' := (Receiver.onReadyRead Fixtures.receiverEnv 1 r).1 in
  (Receiver.onReadyRead Fixtures.receiverEnv 1 r).2
  = [Receiver.fileTransferRequested "report.pdf" "0" 1]
  /\ (Receiver.onDisconnected 1
        (Receiver.payloadRun Fixtures.receiverEnv 1
           [Receiver.Data "xy"; Receiver.Attach 7; Receiver.Data "z"] r').1).2
     = [Receiver.fileReceivedSuccessfully "report.pdf";
        Receiver.transferStatusUpdated "report.pdf" FINISHED; Receiver.deleteLater 1].
Proof.
  intros r r'.
  pose proof (receiver_metadata_acceptance Fixtures.receiverEnv 1 r "report.pdf|abc
" ltac:(vm_compute; reflexivity) ltac:(vm_compute; reflexivity)) as H.
  subst r'. cbv zeta in H.
  destruct (Receiver.onReadyRead Fixtures.receiverEnv 1 r) as [r' acts].
  destruct H as (_ & _ & Hacc & _ & Hfin).
  assert (Hok : Qt.contains "|" (Receiver.firstLine "report.pdf|abc
") = true
                /\ Receiver.isDownloadRequest (Receiver.firstLine "report.pdf|abc
") = false
                /\ Receiver.metadataName (Receiver.firstLine "report.pdf|abc
") ≠ EmptyString
                /\ 0 <= Receiver.metadataSize (Receiver.firstLine "report.pdf|abc
")).
  { vm_compute. repeat split; discriminate || reflexivity. }
  split.
  - apply (Hacc Hok).
  - apply (Hfin Hok ltac:(vm_compute; reflexivity)
             [Receiver.Data "xy"; Receiver.Attach 7; Receiver.Data "z"]).
    vm_compute. reflexivity.
Defined.

(** C10 as stated fails: a first line with a file name that is not empty
    and a size that is not negative is turned down when it starts with the
    download-request tag. It is the line a Sender writes for a file of 5
    bytes named DOWNLOAD_REQUEST. *)
Lemma receiver_download_tag_is_turned_down :
  let wire := "DOWNLOAD_REQUEST|5
" in
  let line := Receiver.firstLine wire in
  let r := Receiver.onNewConnection 1 Receiver.new in
  let res := Receiver.receive Fixtures.receiverEnv 1 wire r in
  let sender :=
    (Sender.sendFile "/home/u/DOWNLOAD_REQUEST" (Some (5, true)) "192.168.1.10" 5556
       (Sender.new 5556)).1 in
  (Sender.onConnected sender).2 = [Sender.writeLine wire]
  /\ Receiver.metadataName line = "DOWNLOAD_REQUEST"
  /\ Receiver.metadataSize line = 5
  /\ res.2 = [Receiver.disconnectFromHost 1]
  /\ Receiver.pendingFiles res.1 !! 1%positive = None
  /\ ~ (Receiver.disconnectFromHost 1 ∈ res.2 ->
        Receiver.metadataName line = EmptyString \/ Receiver.metadataSize line < 0).
Proof.
  vm_compute. repeat split; try reflexivity.
  intros H. destruct H as [H|H]; [apply elem_of_cons; by left|discriminate H|].
  discriminate H.
Qed.

(** ** Discovery: self messages *)

Lemma isSelfMessage_true (env : BroadcastDiscoveryService.Env) (senderIP host : string) :
  senderIP = BroadcastDiscoveryService.localIP env
    \/ host = BroadcastDiscoveryService.localHostname env ->
  BroadcastDiscoveryService.isSelfMessage env senderIP host = true.
Proof.
  intros [->| ->]; unfold BroadcastDiscoveryService.isSelfMessage.
  - by rewrite String.eqb_refl.
  - by rewrite String.eqb_refl, orb_true_r.
Qed.

(** C6. A datagram whose sender address (as the handlers get it, an
    IPv6-mapped prefix cut off) is the local address, or whose host name
    field is the local host name, changes nothing: the request handler, the
    response handler and the dispatch of [handleDiscoveryMessage] leave the
    peer list and the last-seen times as they are, send no response and
    emit no table update. *)
Theorem self_message_is_discarded (env : BroadcastDiscoveryService.Env)
    (message sender : string) (sv : BroadcastDiscoveryService.Service) :
  let senderIP := BroadcastDiscoveryService.cleanIP sender in
  senderIP = BroadcastDiscoveryService.localIP env
    \/ BroadcastDiscoveryService.hostnameField message
       = Some (BroadcastDiscoveryService.localHostname env) ->
  BroadcastDiscoveryService.handleDiscoveryRequest env message sender senderIP sv = (sv, [])
  /\ BroadcastDiscoveryService.handleDiscoveryResponse env message senderIP sv = (sv, [])
  /\ BroadcastDiscoveryService.handleDatagram env message sender sv = (sv, [])
  /\ BroadcastDiscoveryService.handleDiscoveryMessage env [(message, sender)] sv = (sv, []).
Proof.
  intros senderIP Hself.
  assert (Hreq : BroadcastDiscoveryService.handleDiscoveryRequest env message sender senderIP sv
                 = (sv, [])).
  { unfold BroadcastDiscoveryService.handleDiscoveryRequest.
    unfold BroadcastDiscoveryService.hostnameField in Hself.
    destruct (Qt.split "|" message) as [|p0 [|p1 [|p2 [|host ps]]]]; try reflexivity.
    rewrite isSelfMessage_true; [reflexivity|].
    destruct Hself as [?|Hhost]; [by left|right]. cbn in Hhost. congruence. }
  assert (Hresp : BroadcastDiscoveryService.handleDiscoveryResponse env message senderIP sv
                  = (sv, [])).
  { unfold BroadcastDiscoveryService.handleDiscoveryResponse.
    unfold BroadcastDiscoveryService.hostnameField in Hself.
    destruct (Qt.split "|" message) as [|p0 [|p1 [|p2 [|host ps]]]]; try reflexivity.
    rewrite isSelfMessage_true; [reflexivity|].
    destruct Hself as [?|Hhost]; [by left|right]. cbn in Hhost. congruence. }
  assert (Hdg : BroadcastDiscoveryService.handleDatagram env message sender sv = (sv, [])).
  { unfold BroadcastDiscoveryService.handleDatagram. fold senderIP.
    rewrite Hreq, Hresp. by repeat case_match. }
  split; [exact Hreq|]. split; [exact Hresp|]. split; [exact Hdg|].
  unfold BroadcastDiscoveryService.handleDiscoveryMessage.
  cbn [BroadcastDiscoveryService.handleDatagrams]. rewrite Hdg.
  by destruct (BroadcastDiscoveryService.discovering sv).
Qed.

Lemma self_message_is_discarded_witness :
  let sv := {| BroadcastDiscoveryService.discovering := true;
               BroadcastDiscoveryService.myDiscoveryPort := 12346;
               BroadcastDiscoveryService.discoveredUsers := [Fixtures.alice];
               BroadcastDiscoveryService.lastSeenTimes := {["192.168.1.10" := 99000]};
               BroadcastDiscoveryService.cachedSharedFilesJson := "[]" |} in
  BroadcastDiscoveryService.handleDatagram Fixtures.discoveryEnv
    "LANDROP_DISCOVERY_V1|12346|5556|my-pc|[]" "::ffff:192.168.1.77" sv = (sv, [])
  /\ BroadcastDiscoveryService.handleDatagram Fixtures.discoveryEnv
       "LANDROP_RESPONSE_V1|12346|5556|other-pc|[]" "::ffff:192.168.1.2" sv = (sv, []).
Proof.
  intros sv. split.
  - apply (self_message_is_discarded Fixtures.discoveryEnv
             "LANDROP_DISCOVERY_V1|12346|5556|my-pc|[]" "::ffff:192.168.1.77" sv).
    right. reflexivity.
  - apply (self_message_is_discarded Fixtures.discoveryEnv
             "LANDROP_RESPONSE_V1|12346|5556|other-pc|[]" "::ffff:192.168.1.2" sv).
    left. reflexivity.
Defined.

Example discovery_request_from_peer :
  let sv := {| BroadcastDiscoveryService.discovering := true;
               BroadcastDiscoveryService.myDiscoveryPort := 12346;
               BroadcastDiscoveryService.discoveredUsers := [];
               BroadcastDiscoveryService.lastSeenTimes := ∅;
               BroadcastDiscoveryService.cachedSharedFilesJson := "[]" |} in
  let res := BroadcastDiscoveryService.handleDatagram Fixtures.discoveryEnv
               "LANDROP_DISCOVERY_V1|12346|5556|alice-pc|[]" "::ffff:192.168.1.10" sv in
  BroadcastDiscoveryService.discoveredUsers res.1 = [Fixtures.alice]
  /\ BroadcastDiscoveryService.lastSeenTimes res.1 !! "192.168.1.10" = Some 100000
  /\ res.2 = [BroadcastDiscoveryService.writeDatagram
                "LANDROP_RESPONSE_V1|12346|5556|my-pc|[]" "::ffff:192.168.1.10" 12346;
              BroadcastDiscoveryService.userListUpdated [Fixtures.alice]].
Proof. vm_compute. repeat split; reflexivity. Qed.

(** ** Discovery: cleanup of the peer list *)

Section Cleanup.

Variable env : BroadcastDiscoveryService.Env.
Hypothesis Hnow : 0 <= BroadcastDiscoveryService.currentTime env < 2 ^ 63.

Local Abbreviation now := (BroadcastDiscoveryService.currentTime env).
Local Abbreviation timeout := BroadcastDiscoveryService.USER_TIMEOUT_MS.

Lemma cleanupLoop_spec (users : list BroadcastDiscoveryService.LANDropUser)
    (seen : gmap string Z) :
  (forall ip t, seen !! ip = Some t -> 0 <= t < 2 ^ 63) ->
  let '(users', seen', anyRemoved) := BroadcastDiscoveryService.cleanupLoop env users seen in
  sublist users' users
  /\ (forall ip t, seen' !! ip = Some t -> seen !! ip = Some t)
  /\ (forall u, u ∈ users' ->
        ~ BroadcastDiscoveryService.isSelf env u
        /\ ~ timeout < now - default 0 (seen !! BroadcastDiscoveryService.ipAddress u))
  /\ (anyRemoved = true -> (length users' < length users)%nat)
  /\ (anyRemoved = false -> users' = users).
Proof using Hnow.
  intros Hseen. induction users as [|u rest IH]; cbn [BroadcastDiscoveryService.cleanupLoop].
  { split; [constructor|]. split; [done|]. split; [|split; [done|done]].
    intros u Hu. by apply elem_of_nil in Hu. }
  destruct (BroadcastDiscoveryService.cleanupLoop env rest seen) as [[rest' seen'] any].
  destruct IH as (Hsub & Hdel & Hkept & Hany & Hnone).
  assert (Hdel' : forall ip t,
             delete (BroadcastDiscoveryService.ipAddress u) seen' !! ip = Some t ->
             seen !! ip = Some t).
  { intros ip t Hl. apply lookup_delete_Some in Hl as [_ Hl]. by apply Hdel. }
  assert (Hlen : (length rest' <= length rest)%nat) by (by apply sublist_length).
  destruct (String.eqb_spec (BroadcastDiscoveryService.ipAddress u)
              (BroadcastDiscoveryService.localIP env)) as [Hip|Hip]; cbn [orb].
  { split; [by apply sublist_cons|]. split; [exact Hdel'|]. split; [exact Hkept|].
    split; [cbn; lia|done]. }
  destruct (String.eqb_spec (BroadcastDiscoveryService.hostname u)
              (BroadcastDiscoveryService.localHostname env)) as [Hhost|Hhost].
  { split; [by apply sublist_cons|]. split; [exact Hdel'|]. split; [exact Hkept|].
    split; [cbn; lia|done]. }
  case_bool_decide as Hexp.
  { split; [by apply sublist_cons|]. split; [exact Hdel'|]. split; [exact Hkept|].
    split; [cbn; lia|done]. }
  split; [by apply sublist_skip|]. split; [exact Hdel|]. split.
  - intros v Hv. apply elem_of_cons in Hv as [->|Hv]; [|by apply Hkept].
    split; [unfold BroadcastDiscoveryService.isSelf; tauto|].
    destruct (seen' !! BroadcastDiscoveryService.ipAddress u) as [t|] eqn:Hl.
    + rewrite (Hdel _ _ Hl). cbn in *.
      pose proof (Hseen _ _ (Hdel _ _ Hl)).
      rewrite Qt_wrap64_id in Hexp by lia. exact Hexp.
    + cbn in Hexp. rewrite Qt_wrap64_id in Hexp by lia.
      destruct (seen !! BroadcastDiscoveryService.ipAddress u) as [t0|] eqn:Hl0; cbn.
      * pose proof (Hseen _ _ Hl0). lia.
      * exact Hexp.
  - split.
    + intros Ht. specialize (Hany Ht). cbn. lia.
    + intros Hf. by rewrite (Hnone Hf).
Qed.

End Cleanup.

(** C7. With the clock and the recorded times in the range of a
    non-negative [qint64]: after a cleanup tick no entry is left in the
    peer list that matches the local address or the local host name, or
    whose last-seen time (0 when none is recorded) lies more than 15000 ms
    back; what is left is a sublist of the old list; and the table-updated
    signal is emitted, with the new list, exactly when the list became
    shorter. *)
Theorem cleanup_removes_expired_and_self (env : BroadcastDiscoveryService.Env)
    (sv : BroadcastDiscoveryService.Service) :
  0 <= BroadcastDiscoveryService.currentTime env < 2 ^ 63 ->
  (forall ip t, BroadcastDiscoveryService.lastSeenTimes sv !! ip = Some t -> 0 <= t < 2 ^ 63) ->
  let '(sv', acts) := BroadcastDiscoveryService.cleanupExpiredUsers env sv in
  let before := BroadcastDiscoveryService.discoveredUsers sv in
  let after := BroadcastDiscoveryService.discoveredUsers sv' in
  (forall u, u ∈ before ->
     BroadcastDiscoveryService.isSelf env u \/ BroadcastDiscoveryService.isExpired env sv u ->
     u ∉ after)
  /\ sublist after before
  /\ (acts = [BroadcastDiscoveryService.userListUpdated after]
      <-> (length after < length before)%nat)
  /\ (acts = [] <-> after = before)
  /\ (BroadcastDiscoveryService.USER_TIMEOUT_MS = 15000).
Proof.
  intros Hnow Hseen. unfold BroadcastDiscoveryService.cleanupExpiredUsers.
  pose proof (cleanupLoop_spec env Hnow (BroadcastDiscoveryService.discoveredUsers sv)
                (BroadcastDiscoveryService.lastSeenTimes sv) Hseen) as H.
  destruct (BroadcastDiscoveryService.cleanupLoop env _ _) as [[users' seen'] any].
  destruct H as (Hsub & _ & Hkept & Hany & Hnone). cbn.
  split; [|split; [exact Hsub|split; [|split; [|reflexivity]]]].
  - intros u _ Hbad Hin. destruct (Hkept u Hin) as [Hns Hne].
    destruct Hbad as [?|Hexp]; [done|]. by apply Hne.
  - destruct any.
    + split; [intros _; by apply Hany|done].
    + rewrite (Hnone eq_refl). split; [done|lia].
  - destruct any.
    + split; [done|]. intros Heq. specialize (Hany eq_refl). rewrite Heq in Hany. lia.
    + split; [intros _; by apply Hnone|done].
Qed.

Lemma cleanup_removes_expired_and_self_witness :
  let sv := {| BroadcastDiscoveryService.discovering := true;
               BroadcastDiscoveryService.myDiscoveryPort := 12346;
               BroadcastDiscoveryService.discoveredUsers := [Fixtures.alice; Fixtures.bob];
               BroadcastDiscoveryService.lastSeenTimes :=
                 <["192.168.1.30" := 84000]> {["192.168.1.10" := 99000]};
               BroadcastDiscoveryService.cachedSharedFilesJson := "[]" |} in
  (Fixtures.bob ∉ BroadcastDiscoveryService.discoveredUsers
                    (BroadcastDiscoveryService.cleanupExpiredUsers Fixtures.discoveryEnv sv).1)
  /\ (BroadcastDiscoveryService.cleanupExpiredUsers Fixtures.discoveryEnv sv).2
     = [BroadcastDiscoveryService.userListUpdated [Fixtures.alice]].
Proof.
  intros sv.
  assert (Hseen : forall ip t,
             BroadcastDiscoveryService.lastSeenTimes sv !! ip = Some t -> 0 <= t < 2 ^ 63).
  { intros ip t Hl. cbn in Hl.
    apply lookup_insert_Some in Hl as [[_ <-]|[_ Hl]]; [lia|].
    apply lookup_singleton_Some in Hl as [_ <-]. lia. }
  pose proof (cleanup_removes_expired_and_self Fixtures.discoveryEnv sv
                ltac:(cbn; lia) Hseen) as H.
  destruct (BroadcastDiscoveryService.cleanupExpiredUsers Fixtures.discoveryEnv sv)
    as [sv' acts] eqn:Hrun.
  destruct H as (Hgone & _ & _ & _).
  split.
  - apply Hgone; [apply elem_of_cons; right; apply elem_of_cons; by left|].
    right. unfold BroadcastDiscoveryService.isExpired. vm_compute. reflexivity.
  - vm_compute in Hrun. injection Hrun as _ <-. reflexivity.
Defined.

(** ** FileTransferManager: sending *)

Lemma sessionsCreated_app (a b : list FileTransferManager.action) :
  FileTransferManager.sessionsCreated (a ++ b)
  = FileTransferManager.sessionsCreated a ++ FileTransferManager.sessionsCreated b.
Proof. apply bind_app. Qed.

Lemma sessionsCreated_senderDid (sp : positive) (acts : list Sender.action) :
  FileTransferManager.sessionsCreated (FileTransferManager.senderDid sp <$> acts) = [].
Proof. induction acts as [|a acts IH]; [done|]. exact IH. Qed.

(** One pair: the session is created first, whatever the file system says. *)
Lemma sendFileToUser_created (disk : string -> option (Z * bool)) (cfg : Z)
    (filePath : string) (user : BroadcastDiscoveryService.LANDropUser)
    (m : FileTransferManager.Manager) :
  FileTransferManager.sessionsCreated
    (FileTransferManager.sendFileToUser disk cfg filePath user m).2
  = [(FileTransferManager.nextSessionId m,
      Qt.fileName filePath +:+ " @" +:+ BroadcastDiscoveryService.ipAddress user,
      BroadcastDiscoveryService.ipAddress user)].
Proof.
  unfold FileTransferManager.sendFileToUser, FileTransferManager.createTransferSession.
  destruct (Sender.sendFile _ _ _ _ _) as [sender' a2]. cbn [snd].
  rewrite sessionsCreated_app, sessionsCreated_senderDid. reflexivity.
Qed.

Lemma sendFileToUsers_created (disk : string -> option (Z * bool)) (cfg : Z)
    (filePath : string) (recipients : list BroadcastDiscoveryService.LANDropUser) :
  forall m,
    length (FileTransferManager.sessionsCreated
              (FileTransferManager.sendFileToUsers disk cfg filePath recipients m).2)
    = length recipients.
Proof.
  induction recipients as [|user rest IH]; intros m; [done|].
  cbn [FileTransferManager.sendFileToUsers].
  pose proof (sendFileToUser_created disk cfg filePath user m) as H1.
  destruct (FileTransferManager.sendFileToUser disk cfg filePath user m) as [m1 a1].
  specialize (IH m1).
  destruct (FileTransferManager.sendFileToUsers disk cfg filePath rest m1) as [m2 a2].
  cbn [snd] in *. rewrite sessionsCreated_app, length_app, H1, IH. reflexivity.
Qed.

Lemma sendFilesToUsers_created (disk : string -> option (Z * bool)) (cfg : Z)
    (filePaths : list string) (recipients : list BroadcastDiscoveryService.LANDropUser) :
  forall m,
    length (FileTransferManager.sessionsCreated
              (FileTransferManager.sendFilesToUsers disk cfg filePaths recipients m).2)
    = (length filePaths * length recipients)%nat.
Proof.
  induction filePaths as [|filePath rest IH]; intros m; [done|].
  cbn [FileTransferManager.sendFilesToUsers].
  pose proof (sendFileToUsers_created disk cfg filePath recipients m) as H1.
  destruct (FileTransferManager.sendFileToUsers disk cfg filePath recipients m) as [m1 a1].
  specialize (IH m1).
  destruct (FileTransferManager.sendFilesToUsers disk cfg rest recipients m1) as [m2 a2].
  cbn [snd length] in *. rewrite sessionsCreated_app, length_app, H1, IH. lia.
Qed.

(** A Sender without socket and with neither timer running takes no event. *)
Lemma step_idle (b : Z) (e : Sender.event) (s : Sender.Sender) :
  Sender.socket s = None ->
  Sender.connectionTimer s = false -> Sender.responseTimer s = false ->
  Sender.step b e s = (s, []).
Proof.
  intros Hsock Hct Hrt. unfold Sender.step. rewrite Hsock, Hct, Hrt. by destruct e.
Qed.

Lemma setSender_same (sp : positive) (s : Sender.Sender) (m : FileTransferManager.Manager) :
  FileTransferManager.senders m !! sp = Some s -> FileTransferManager.setSender sp s m = m.
Proof.
  intros Hsnd. unfold FileTransferManager.setSender. rewrite (insert_id _ _ _ Hsnd).
  by destruct m.
Qed.

Lemma deliver_idle (b : Z) (sp : positive) (s : Sender.Sender) (es : list Sender.event)
    (m : FileTransferManager.Manager) :
  FileTransferManager.senders m !! sp = Some s ->
  Sender.socket s = None ->
  Sender.connectionTimer s = false -> Sender.responseTimer s = false ->
  FileTransferManager.deliverAll b sp es m = (m, []).
Proof.
  intros Hsnd Hsock Hct Hrt. induction es as [|e es IH]; [done|].
  cbn [FileTransferManager.deliverAll]. unfold FileTransferManager.deliver.
  rewrite Hsnd, (step_idle b e s Hsock Hct Hrt).
  cbn [FileTransferManager.onSenderActions].
  rewrite (setSender_same _ _ _ Hsnd), IH. done.
Qed.

(** C1 (as amended). [sendFilesToUsers] creates a session and emits a
    session-created event for every (file, recipient) pair, whether the
    source file exists or not. For a pair whose source file does not exist,
    the Sender returns from [sendFile] without a socket, attempts no
    connection, starts neither of its timers and emits nothing: the only
    thing the pair does is the session-created event. Whatever the event
    loop delivers to that Sender afterwards, it does nothing and the manager
    stays as it is: the session stays WAITING at progress 0, no status
    change (so no error) is ever signalled for it, and no cleanup is
    scheduled. *)
Theorem send_missing_file_session (disk : string -> option (Z * bool)) (cfg : Z)
    (filePath : string) (user : BroadcastDiscoveryService.LANDropUser)
    (m : FileTransferManager.Manager) :
  disk filePath = None ->
  let sessionId := FileTransferManager.nextSessionId m in
  let sp := FileTransferManager.nextSender m in
  let label := Qt.fileName filePath +:+ " @" +:+ BroadcastDiscoveryService.ipAddress user in
  let '(m', acts) := FileTransferManager.sendFileToUser disk cfg filePath user m in
  acts = [FileTransferManager.transferSessionCreated sessionId label
            (BroadcastDiscoveryService.ipAddress user)]
  /\ FileTransferManager.sessions m' !! sessionId
     = Some {| FileTransferManager.id := sessionId;
               FileTransferManager.fileName := label;
               FileTransferManager.recipientIP := BroadcastDiscoveryService.ipAddress user;
               FileTransferManager.status := WAITING;
               FileTransferManager.progress := 0;
               FileTransferManager.sender := Some sp |}
  /\ FileTransferManager.senderToSession m' !! sp = Some sessionId
  /\ (exists sender', FileTransferManager.senders m' !! sp = Some sender'
                  /\ Sender.socket sender' = None
                  /\ Sender.connectionTimer sender' = false
                  /\ Sender.responseTimer sender' = false)
  /\ FileTransferManager.cleanups m' = FileTransferManager.cleanups m
  /\ (forall b es,
        let '(m'', later) := FileTransferManager.deliverAll b sp es m' in
        m'' = m' /\ later = []
        /\ FileTransferManager.statusOf sessionId m'' = Some WAITING
        /\ FileTransferManager.progressOf sessionId m'' = Some 0)
  /\ (forall filePaths recipients m0,
        length (FileTransferManager.sessionsCreated
                  (FileTransferManager.sendFilesToUsers disk cfg filePaths recipients m0).2)
        = (length filePaths * length recipients)%nat).
Proof.
  intros Hmissing sessionId sp label.
  unfold FileTransferManager.sendFileToUser, FileTransferManager.createTransferSession.
  unfold Sender.sendFile. rewrite Hmissing. cbn.
  assert (Hsession :
            alter (λ s, {| FileTransferManager.id := FileTransferManager.id s;
                           FileTransferManager.fileName := FileTransferManager.fileName s;
                           FileTransferManager.recipientIP :=
                             FileTransferManager.recipientIP s;
                           FileTransferManager.status := FileTransferManager.status s;
                           FileTransferManager.progress := FileTransferManager.progress s;
                           FileTransferManager.sender := Some sp |}) sessionId
              (<[sessionId := {| FileTransferManager.id := sessionId;
                                 FileTransferManager.fileName := label;
                                 FileTransferManager.recipientIP :=
                                   BroadcastDiscoveryService.ipAddress user;
                                 FileTransferManager.status := WAITING;
                                 FileTransferManager.progress := 0;
                                 FileTransferManager.sender := None |}]>
                 (FileTransferManager.sessions m)) !! sessionId
            = Some {| FileTransferManager.id := sessionId;
                      FileTransferManager.fileName := label;
                      FileTransferManager.recipientIP :=
                        BroadcastDiscoveryService.ipAddress user;
                      FileTransferManager.status := WAITING;
                      FileTransferManager.progress := 0;
                      FileTransferManager.sender := Some sp |}).
  { rewrite lookup_alter_eq, lookup_insert_eq. reflexivity. }
  split; [reflexivity|]. split; [exact Hsession|].
  split; [apply lookup_insert_eq|]. split.
  { eexists. split; [apply lookup_insert_eq|]. done. }
  split; [reflexivity|]. split.
  { intros b es.
    erewrite deliver_idle;
      [|cbn [FileTransferManager.senders]; apply lookup_insert_eq|done|done|done].
    split; [done|]. split; [done|].
    unfold FileTransferManager.statusOf, FileTransferManager.progressOf.
    cbn [FileTransferManager.sessions]. fold sessionId sp label.
    rewrite Hsession. done. }
  intros filePaths recipients m0. apply sendFilesToUsers_created.
Qed.

Lemma send_missing_file_session_witness :
  (FileTransferManager.sendFileToUser Fixtures.noFiles 5556 "/home/u/missing.txt"
     Fixtures.alice FileTransferManager.new).2
  = [FileTransferManager.transferSessionCreated 1 "missing.txt @192.168.1.10" "192.168.1.10"].
Proof.
  pose proof (send_missing_file_session Fixtures.noFiles 5556 "/home/u/missing.txt"
                Fixtures.alice FileTransferManager.new ltac:(reflexivity)) as H.
  destruct (FileTransferManager.sendFileToUser _ _ _ _ _) as [m' acts].
  destruct H as (Hacts & _). exact Hacts.
Defined.

(** C1 as stated fails: sending a file that does not exist creates a
    session for the pair and emits its session-created event. *)
Lemma send_missing_file_creates_session :
  let '(m, acts) :=
    FileTransferManager.sendFilesToUsers Fixtures.noFiles 5556 ["/home/u/missing.txt"]
      [Fixtures.alice] FileTransferManager.new in
  FileTransferManager.sessions m !! 1
  = Some {| FileTransferManager.id := 1;
            FileTransferManager.fileName := "missing.txt @192.168.1.10";
            FileTransferManager.recipientIP := "192.168.1.10";
            FileTransferManager.status := WAITING;
            FileTransferManager.progress := 0;
            FileTransferManager.sender := Some 1%positive |}
  /\ FileTransferManager.sessionsCreated acts
     = [(1, "missing.txt @192.168.1.10", "192.168.1.10")]
  /\ ~ (FileTransferManager.sessions m = ∅ /\ FileTransferManager.sessionsCreated acts = []).
Proof.
  vm_compute. split; [reflexivity|]. split; [reflexivity|].
  intros [_ H]. discriminate H.
Qed.

(** ** FileTransferManager: Sender signals and session transitions *)

Lemma statusOf_update (sessionId : Z) (st : TransferStatus)
    (m : FileTransferManager.Manager) (session : FileTransferManager.TransferSession) :
  FileTransferManager.sessions m !! sessionId = Some session ->
  FileTransferManager.statusOf sessionId
    (FileTransferManager.updateSessionStatus sessionId st m).1 = Some st
  /\ FileTransferManager.progressOf sessionId
       (FileTransferManager.updateSessionStatus sessionId st m).1
     = Some (FileTransferManager.progress session).
Proof.
  intros Hs. unfold FileTransferManager.updateSessionStatus,
    FileTransferManager.statusOf, FileTransferManager.progressOf.
  rewrite Hs. cbn. by rewrite lookup_insert_eq.
Qed.

Lemma statusOf_teardown (delay : Z) (sp : positive) (sid sessionId : Z)
    (m : FileTransferManager.Manager) :
  FileTransferManager.statusOf sessionId (FileTransferManager.teardown delay sp sid m)
  = FileTransferManager.statusOf sessionId m.
Proof. reflexivity. Qed.

(** C5. For a Sender whose signals are connected to the manager and that
    is mapped to an existing session: accepted sets the session's status
    to IN_PROGRESS, refused to CANCELLED, finished to FINISHED; a progress
    event sets the session's progress and leaves its status; an error event
    sets ERROR exactly when the status is neither FINISHED nor CANCELLED,
    and leaves a FINISHED or CANCELLED status as it is. *)
Theorem sender_signals_drive_session (sp : positive) (sessionId : Z)
    (session : FileTransferManager.TransferSession) (m : FileTransferManager.Manager) :
  sp ∈ FileTransferManager.wired m ->
  FileTransferManager.senderToSession m !! sp = Some sessionId ->
  FileTransferManager.sessions m !! sessionId = Some session ->
  let after sig := (FileTransferManager.onSenderSignal sp sig m).1 in
  let now := FileTransferManager.status session in
  FileTransferManager.statusOf sessionId (after Sender.transferAccepted) = Some IN_PROGRESS
  /\ FileTransferManager.statusOf sessionId (after Sender.transferRefused) = Some CANCELLED
  /\ FileTransferManager.statusOf sessionId (after Sender.transferFinished) = Some FINISHED
  /\ (forall p,
        FileTransferManager.progressOf sessionId (after (Sender.progressUpdated p)) = Some p
        /\ FileTransferManager.statusOf sessionId (after (Sender.progressUpdated p)) = Some now)
  /\ (FileTransferManager.statusOf sessionId (after Sender.transferError) = Some ERROR
      <-> now ≠ FINISHED /\ now ≠ CANCELLED)
  /\ (now = FINISHED \/ now = CANCELLED ->
      FileTransferManager.statusOf sessionId (after Sender.transferError) = Some now).
Proof.
  intros Hwired Hmap Hs after now. subst after.
  unfold FileTransferManager.onSenderSignal.
  rewrite (bool_decide_eq_true_2 _ Hwired).
  unfold FileTransferManager.onSenderTransferAccepted,
    FileTransferManager.onSenderTransferRefused,
    FileTransferManager.onSenderTransferFinished,
    FileTransferManager.onSenderProgressUpdated,
    FileTransferManager.onSenderTransferError.
  rewrite Hmap, Hs.
  pose proof (fun st => proj1 (statusOf_update sessionId st m session Hs)) as Hupd.
  split; [apply Hupd|].
  split.
  { pose proof (Hupd CANCELLED) as H.
    destruct (FileTransferManager.updateSessionStatus sessionId CANCELLED m). exact H. }
  split.
  { pose proof (Hupd FINISHED) as H.
    destruct (FileTransferManager.updateSessionStatus sessionId FINISHED m). exact H. }
  split.
  { intros p. unfold FileTransferManager.updateSessionProgress,
      FileTransferManager.statusOf, FileTransferManager.progressOf.
    rewrite Hs. cbn. by rewrite lookup_insert_eq. }
  assert (Hkeep : FileTransferManager.statusOf sessionId m = Some now).
  { unfold FileTransferManager.statusOf. by rewrite Hs. }
  pose proof (Hupd ERROR) as Herr.
  destruct (FileTransferManager.updateSessionStatus sessionId ERROR m) as [me ae].
  cbn [fst] in Herr. fold now.
  destruct (decide (now = FINISHED)) as [Hf|Hf];
    destruct (decide (now = CANCELLED)) as [Hc|Hc].
  - congruence.
  - rewrite (bool_decide_eq_false_2 (now ≠ FINISHED)) by tauto. cbn.
    rewrite statusOf_teardown, Hkeep.
    split; [|done]. split; [|tauto]. rewrite Hf. intros H; discriminate H.
  - rewrite (bool_decide_eq_true_2 (now ≠ FINISHED)) by done.
    rewrite (bool_decide_eq_false_2 (now ≠ CANCELLED)) by tauto. cbn.
    rewrite statusOf_teardown, Hkeep.
    split; [|done]. split; [|tauto]. rewrite Hc. intros H; discriminate H.
  - rewrite (bool_decide_eq_true_2 (now ≠ FINISHED)) by done.
    rewrite (bool_decide_eq_true_2 (now ≠ CANCELLED)) by done. cbn.
    rewrite statusOf_teardown, Herr.
    split; [tauto|]. intros [?|?]; done.
Qed.

Lemma sender_signals_drive_session_witness :
  let m := (FileTransferManager.sendFilesToUsers (λ _, Some (10, true)) 5556
              ["/home/u/a.txt"] [Fixtures.alice] FileTransferManager.new).1 in
  FileTransferManager.statusOf 1
    (FileTransferManager.onSenderSignal 1 Sender.transferAccepted m).1 = Some IN_PROGRESS
  /\ FileTransferManager.statusOf 1
       (FileTransferManager.onSenderSignal 1 Sender.transferError m).1 = Some ERROR.
Proof.
  intros m.
  pose proof (sender_signals_drive_session 1 1
                {| FileTransferManager.id := 1;
                   FileTransferManager.fileName := "a.txt @192.168.1.10";
                   FileTransferManager.recipientIP := "192.168.1.10";
                   FileTransferManager.status := WAITING;
                   FileTransferManager.progress := 0;
                   FileTransferManager.sender := Some 1%positive |} m
                ltac:(vm_compute; set_solver) ltac:(vm_compute; reflexivity)
                ltac:(vm_compute; reflexivity)) as (Ha & _ & _ & _ & He & _).
  split; [exact Ha|]. apply He. split; discriminate.
Defined.

(** ** FileTransferManager: batching of inbound offers *)

(** C9. Starting with an empty batch and a stopped timer, two offers for
    different file names, the second less than 200 ms after the first, and
    then the loop running past the timer's deadline: one batch offer is
    emitted, it holds both files with their sizes and their sockets, and
    the pending batch is empty and the timer stopped afterwards. *)
Theorem batch_two_offers (m : FileTransferManager.Manager) (t1 t2 final : Z)
    (n1 n2 sz1 sz2 : string) (s1 s2 : positive) :
  FileTransferManager.batchTimer m = None ->
  FileTransferManager.pendingBatchFiles m = ∅ ->
  FileTransferManager.pendingBatchSockets m = ∅ ->
  n1 ≠ n2 ->
  t1 <= t2 < t1 + 200 ->
  t2 + 200 <= final ->
  let '(m', acts) :=
    FileTransferManager.runUntil final
      [(t1, Receiver.fileTransferRequested n1 sz1 s1);
       (t2, Receiver.fileTransferRequested n2 sz2 s2)] m in
  (exists files sockets,
      FileTransferManager.batchOffers acts = [(files, sockets)]
      /\ files !! n1 = Some (Qt.toLongLong sz1) /\ files !! n2 = Some (Qt.toLongLong sz2)
      /\ sockets !! n1 = Some s1 /\ sockets !! n2 = Some s2
      /\ dom files = {[n1; n2]} /\ dom sockets = {[n1; n2]})
  /\ FileTransferManager.pendingBatchFiles m' = ∅
  /\ FileTransferManager.pendingBatchSockets m' = ∅
  /\ FileTransferManager.batchTimer m' = None.
Proof.
  intros Htimer Hfiles Hsockets Hne Ht Hfinal.
  cbn [FileTransferManager.runUntil].
  unfold FileTransferManager.advance at 1. rewrite Htimer.
  cbn [FileTransferManager.onReceiverAction].
  unfold FileTransferManager.onReceiverFileTransferRequested at 1.
  unfold FileTransferManager.createTransferSession,
    FileTransferManager.updateSessionStatus. cbn.
  rewrite lookup_insert_eq. cbn.
  unfold FileTransferManager.advance at 1. cbn.
  rewrite bool_decide_eq_false_2 by lia.
  unfold FileTransferManager.onReceiverFileTransferRequested.
  unfold FileTransferManager.createTransferSession,
    FileTransferManager.updateSessionStatus. cbn.
  rewrite lookup_insert_eq. cbn.
  unfold FileTransferManager.advance. cbn.
  rewrite bool_decide_eq_true_2 by lia. cbn.
  rewrite Hfiles, Hsockets.
  split; [|done].
  eexists _, _. split; [reflexivity|].
  split; [by simplify_map_eq|]. split; [by simplify_map_eq|].
  split; [by simplify_map_eq|]. split; [by simplify_map_eq|].
  split; rewrite !dom_insert_L, dom_empty_L, (right_id_L ∅ (∪)); apply (comm_L (∪)).
Qed.

Lemma batch_two_offers_witness :
  exists files sockets,
    FileTransferManager.batchOffers
      (FileTransferManager.runUntil 400
         [(0, Receiver.fileTransferRequested "a.txt" "10" 1);
          (150, Receiver.fileTransferRequested "b.txt" "20" 2)]
         FileTransferManager.new).2
    = [(files, sockets)]
    /\ files !! "a.txt" = Some 10 /\ files !! "b.txt" = Some 20
    /\ sockets !! "a.txt" = Some 1%positive /\ sockets !! "b.txt" = Some 2%positive.
Proof.
  pose proof (batch_two_offers FileTransferManager.new 0 150 400 "a.txt" "b.txt" "10" "20" 1 2
                ltac:(reflexivity) ltac:(reflexivity) ltac:(reflexivity)
                ltac:(discriminate) ltac:(lia) ltac:(lia)) as H.
  destruct (FileTransferManager.runUntil _ _ _) as [m' acts].
  destruct H as [(files & sockets & Hacts & Hf1 & Hf2 & Hs1 & Hs2 & _) _].
  exists files, sockets. cbn [snd].
  split; [exact Hacts|]. split; [exact Hf1|]. split; [exact Hf2|]. split; [exact Hs1|exact Hs2].
Defined.

(** ** The metadata line, from Sender to Receiver *)





(** ** Sender: reset, answers, first chunk *)

(** X2. [reset] leaves a Sender that has no socket, no file, no bytes
    sent and no running timer; resetting again changes nothing and calls
    nothing, and no event of the socket or of the timers does anything to
    it: until the next [sendFile] it emits no signal. *)
Theorem sender_reset_is_quiescent (b : Z) (s : Sender.Sender) (es : list Sender.event) :
  let s0 := (Sender.reset s).1 in
  s0 = {| Sender.socket := None; Sender.file := None; Sender.bytesSent := 0;
          Sender.port := Sender.port s;
          Sender.connectionTimer := false; Sender.responseTimer := false |}
  /\ Sender.reset s0 = (s0, [])
  /\ Forall (fun r => r = (s0, [])) (Sender.trace b es s0).
Proof.
  intros s0. split; [reflexivity|]. split; [reflexivity|].
  induction es as [|e es IH]; [constructor|].
  cbn [Sender.trace].
  assert (Hstep : Sender.step b e s0 = (s0, [])) by (by destruct e).
  rewrite Hstep. constructor; [done|exact IH].
Qed.

Lemma in_one {A} (x y : A) : x ∈ [y] <-> x = y.
Proof. rewrite elem_of_cons. split; [intros [?|H]; [done|by apply elem_of_nil in H]|auto]. Qed.

(** X3. The answer of the receiver decides: with a socket, the Sender
    emits [transferAccepted] exactly when the trimmed line is OK,
    [transferRefused] exactly when it is NO, and on any other line
    [transferError] and neither of the two; the response timer is stopped
    in every case, and a refusal or another line leaves file and byte count
    as they are. *)
Theorem sender_answer_decides (b : Z) (line : string) (writeOk : bool)
    (s : Sender.Sender) (sock : Sender.QTcpSocket) :
  Sender.socket s = Some sock ->
  let '(s', acts) := Sender.onReadyRead b line writeOk s in
  (Sender.Emit Sender.transferAccepted ∈ acts <-> Qt.trimmed line = "OK")
  /\ (Sender.Emit Sender.transferRefused ∈ acts <-> Qt.trimmed line = "NO")
  /\ (Qt.trimmed line ≠ "OK" -> Qt.trimmed line ≠ "NO" ->
      Sender.Emit Sender.transferError ∈ acts)
  /\ (Qt.trimmed line ≠ "OK" ->
      Sender.file s' = Sender.file s /\ Sender.bytesSent s' = Sender.bytesSent s
      /\ (Sender.state sock ≠ Sender.UnconnectedState -> Sender.disconnectFromHost ∈ acts))
  /\ Sender.responseTimer s' = false.
Proof.
  intros Hsock. unfold Sender.onReadyRead. rewrite Hsock.
  destruct (String.eqb_spec (Qt.trimmed line) "OK") as [Hok|Hok].
  - destruct (Sender.file s ≫= Sender.open) as [f|].
    + destruct (Sender.read b f) as [n f'].
      split; [split; [done|intros _; apply elem_of_cons; by left]|].
      split.
      { split; [|rewrite Hok; discriminate]. intros H.
        apply elem_of_cons in H as [H|H]; [done|].
        apply elem_of_cons in H as [H|H]; [done|].
        destruct (writeOk && bool_decide (1 <= n)).
        - by apply elem_of_nil in H.
        - by apply in_one in H. }
      split; [done|]. split; [done|]. reflexivity.
    + destruct (Sender.reset s) as [s1 a1] eqn:Hr.
      split; [split; [done|intros _; apply elem_of_cons; by left]|].
      split.
      { split; [|rewrite Hok; discriminate]. intros H.
        apply elem_of_cons in H as [H|H]; [done|].
        unfold Sender.reset in Hr. injection Hr as _ <-.
        rewrite Hsock in H. destruct (Sender.state sock);
          (by apply elem_of_nil in H) || (by apply in_one in H). }
      split; [done|]. split; [done|].
      unfold Sender.reset in Hr. by injection Hr as <- _.
  - destruct (String.eqb_spec (Qt.trimmed line) "NO") as [Hno|Hno].
    + split.
      { split; [|done]. intros H. apply elem_of_app in H as [H|H].
        - destruct (Sender.state sock); cbn in H;
            (by apply elem_of_nil in H) || (by apply in_one in H).
        - by apply in_one in H. }
      split; [split; [done|intros _; apply elem_of_app; right; by apply in_one]|].
      split; [done|]. split; [|reflexivity].
      intros _. split; [done|]. split; [done|].
      intros Hst. apply elem_of_app. left.
      destruct (Sender.state sock); cbn; (done || by apply in_one).
    + split.
      { split; [|done]. intros H. apply elem_of_app in H as [H|H].
        - destruct (Sender.state sock); cbn in H;
            (by apply elem_of_nil in H) || (by apply in_one in H).
        - by apply in_one in H. }
      split.
      { split; [|done]. intros H. apply elem_of_app in H as [H|H].
        - destruct (Sender.state sock); cbn in H;
            (by apply elem_of_nil in H) || (by apply in_one in H).
        - by apply in_one in H. }
      split; [intros _ _; apply elem_of_app; right; by apply in_one|].
      split; [|reflexivity].
      intros _. split; [done|]. split; [done|].
      intros Hst. apply elem_of_app. left.
      destruct (Sender.state sock); cbn; (done || by apply in_one).
Qed.

Lemma sender_answer_decides_witness :
  let s := (Sender.onConnected
              (Sender.sendFile "/home/u/a.txt" (Some (10, true)) "192.168.1.20" 5556
                 (Sender.new 5556)).1).1 in
  Sender.Emit Sender.transferRefused ∈ (Sender.onReadyRead 65536 " NO
" true s).2
  /\ Sender.Emit Sender.transferError ∈ (Sender.onReadyRead 65536 "ok
" true s).2.
Proof.
  intros s. split.
  - pose proof (sender_answer_decides 65536 " NO
" true s {| Sender.state := Sender.ConnectedState; Sender.streaming := false |}
       ltac:(reflexivity)) as H.
    destruct (Sender.onReadyRead 65536 " NO
" true s) as [s' acts]. destruct H as (_ & Hno & _). by apply Hno.
  - pose proof (sender_answer_decides 65536 "ok
" true s {| Sender.state := Sender.ConnectedState; Sender.streaming := false |}
       ltac:(reflexivity)) as H.
    destruct (Sender.onReadyRead 65536 "ok
" true s) as [s' acts]. destruct H as (_ & _ & Herr & _).
    apply Herr; vm_compute; discriminate.
Defined.

(** ** Sender: what is written to the socket *)

Lemma chunksWritten_cons (r : Sender.Sender * list Sender.action) tr :
  Sender.chunksWritten (r :: tr) = (r.2 ≫= Sender.chunkOf) ++ Sender.chunksWritten tr.
Proof. reflexivity. Qed.

Lemma sumZ_cons (x : Z) (l : list Z) : Sender.sumZ (x :: l) = x + Sender.sumZ l.
Proof. reflexivity. Qed.

Lemma chunks_finished (path : string) (fsz prt : Z) (n : nat) :
  Sender.chunksWritten (repeat (Sender.finishedAt path fsz prt fsz, []) n) = [].
Proof. induction n as [|n IH]; [done|]. cbn. exact IH. Qed.

Lemma chunks_stream (path : string) (fsz b prt : Z) (n : nat) :
  0 < b -> 0 < fsz -> fsz * 100 < 2 ^ 63 ->
  forall p, 0 < p <= fsz ->
    let tr := Sender.trace b (repeat Sender.BytesWritten n)
                (Sender.streamingAt path fsz prt p) in
    Forall (fun c => 0 < c <= b) (Sender.chunksWritten tr)
    /\ p + Sender.sumZ (Sender.chunksWritten tr) <= fsz
    /\ (Exists Sender.finishes tr -> p + Sender.sumZ (Sender.chunksWritten tr) = fsz).
Proof.
  intros Hb Hfsz Hrange. induction n as [|n IH]; intros p Hp.
  - cbn. split; [constructor|]. split; [lia|]. intros H. inversion H.
  - cbn [repeat Sender.trace].
    destruct (decide (p = fsz)) as [->|Hne].
    + rewrite (step_end path fsz b prt). cbn [fst].
      rewrite (trace_finished path fsz b prt n).
      rewrite chunksWritten_cons, chunks_finished. cbn.
      split; [constructor|]. split; lia.
    + rewrite (step_more path fsz b prt Hb Hfsz Hrange p) by lia. cbn [fst].
      set (q := p + Z.min b (fsz - p)).
      assert (Hq : 0 < q <= fsz) by (unfold q; lia).
      destruct (IH q Hq) as (Hall & Hle & Hfin).
      rewrite chunksWritten_cons. cbn [snd mbind list_bind Sender.chunkOf app].
      fold (@mbind list _).
      change ([Sender.Emit (Sender.progressUpdated (q * 100 / fsz));
               Sender.writeChunk (Z.min b (fsz - p))] ≫= Sender.chunkOf)
        with [Z.min b (fsz - p)].
      set (cs := Sender.chunksWritten _) in *.
      cbn [app]. rewrite sumZ_cons.
      split; [constructor; [lia|exact Hall]|].
      split; [unfold q in Hle; lia|].
      intros Hex. apply Exists_cons in Hex as [Hex|Hex].
      * unfold Sender.finishes in Hex. cbn in Hex.
        apply elem_of_cons in Hex as [Hv|Hv]; [done|].
        apply elem_of_cons in Hv as [Hv|Hv]; [done|]. by apply elem_of_nil in Hv.
      * specialize (Hfin Hex). unfold q in Hfin. lia.
Qed.

(** X10. What an accepted transfer writes: every chunk handed to the
    socket is at least one byte and at most one buffer long, together they
    never exceed the size of the file, and when [transferFinished] has been
    emitted (as it is after [ceil (fileSize / bufferSize)] bytes-written
    notifications) they add up to exactly the size of the file. *)
Theorem sender_chunks_add_up (b : Z) (path ip : string) (fsz cfg prt : Z) (n : nat) :
  0 < b -> 0 < fsz -> fsz * 100 < 2 ^ 63 ->
  let tr := Sender.acceptedRun b path ip fsz cfg prt n in
  Forall (fun c => 0 < c <= b) (Sender.chunksWritten tr)
  /\ Sender.sumZ (Sender.chunksWritten tr) <= fsz
  /\ (Exists Sender.finishes tr -> Sender.sumZ (Sender.chunksWritten tr) = fsz)
  /\ (fsz <= b * Z.of_nat n -> Sender.sumZ (Sender.chunksWritten tr) = fsz).
Proof.
  intros Hb Hfsz Hrange tr.
  destruct (acceptedRun_unfold b path ip fsz cfg prt n Hb Hfsz ltac:(lia))
    as (r1 & r2 & Htr & _ & _ & Hf1 & Hf2).
  set (tr' := Sender.trace b (repeat Sender.BytesWritten n)
                (Sender.streamingAt path fsz prt (Z.min b fsz))) in *.
  destruct (chunks_stream path fsz b prt n Hb Hfsz Hrange (Z.min b fsz) ltac:(lia))
    as (Hall & Hle & Hfin). fold tr' in Hall, Hle, Hfin.
  assert (Hch : Sender.chunksWritten tr = Z.min b fsz :: Sender.chunksWritten tr').
  { unfold tr, Sender.acceptedRun. cbn [Sender.trace].
    rewrite !chunksWritten_cons.
    assert (Hst : (Sender.step b (Sender.ReadyRead "OK
" true) (Sender.step b Sender.Connected
            (Sender.sendFile path (Some (fsz, true)) ip prt (Sender.new cfg)).1).1).1
                  = Sender.streamingAt path fsz prt (Z.min b fsz)).
    { cbn. unfold Sender.size; cbn.
      rewrite Z.sub_0_r, (Z.max_r 0 (Z.min b fsz)) by lia.
      rewrite Qt_wrap64_id by lia. reflexivity. }
    rewrite Hst. fold tr'.
    cbn. unfold Sender.size; cbn.
    rewrite Z.sub_0_r, (Z.max_r 0 (Z.min b fsz)) by lia.
    rewrite bool_decide_eq_true_2 by lia. reflexivity. }
  assert (Hex : Exists Sender.finishes tr -> Exists Sender.finishes tr').
  { unfold tr. rewrite Htr. intros H.
    apply Exists_cons in H as [H|H]; [done|].
    apply Exists_cons in H as [H|H]; [done|exact H]. }
  rewrite Hch, sumZ_cons.
  split; [constructor; [lia|exact Hall]|]. split; [lia|].
  split; [intros H; apply Hfin; by apply Hex|].
  intros Hn. apply Hfin.
  destruct (stream_trace path fsz b prt Hb Hfsz Hrange n (Z.min b fsz) ltac:(lia))
    as (_ & _ & _ & _ & _ & _ & Hlive).
  apply Hlive.
  destruct (Z.min_spec b fsz) as [[? ->]|[? ->]]; [nia|].
  assert (1 <= Z.of_nat n); [|nia].
  destruct (decide (Z.of_nat n = 0)) as [Hz|]; [rewrite Hz in Hn|]; lia.
Qed.

Lemma sender_chunks_add_up_witness :
  Sender.chunksWritten (Sender.acceptedRun 4 "/tmp/a.txt" "192.168.1.10" 10 5556 5556 3)
  = [4; 4; 2]
  /\ Sender.sumZ
       (Sender.chunksWritten (Sender.acceptedRun 4 "/tmp/a.txt" "192.168.1.10" 10 5556 5556 3))
     = 10.
Proof.
  split; [vm_compute; reflexivity|].
  apply (sender_chunks_add_up 4 "/tmp/a.txt" "192.168.1.10" 10 5556 5556 3); lia.
Defined.

(** ** FileTransferManager: the end of an outbound session *)

Lemma updateSessionStatus_fields (sessionId : Z) (st : TransferStatus)
    (m : FileTransferManager.Manager) :
  let m' := (FileTransferManager.updateSessionStatus sessionId st m).1 in
  FileTransferManager.senderToSession m' = FileTransferManager.senderToSession m
  /\ FileTransferManager.senders m' = FileTransferManager.senders m
  /\ FileTransferManager.wired m' = FileTransferManager.wired m
  /\ FileTransferManager.cleanups m' = FileTransferManager.cleanups m
  /\ FileTransferManager.nextSessionId m' = FileTransferManager.nextSessionId m
  /\ FileTransferManager.nextSender m' = FileTransferManager.nextSender m
  /\ FileTransferManager.receivedFileToSession m' = FileTransferManager.receivedFileToSession m
  /\ (forall i, i ≠ sessionId ->
        FileTransferManager.sessions m' !! i = FileTransferManager.sessions m !! i)
  /\ (is_Some (FileTransferManager.sessions m' !! sessionId)
      <-> is_Some (FileTransferManager.sessions m !! sessionId)).
Proof.
  unfold FileTransferManager.updateSessionStatus.
  destruct (FileTransferManager.sessions m !! sessionId) as [s|] eqn:Hs; cbn.
  - repeat split; try done.
    + intros i Hi. by rewrite lookup_insert_ne.
    + rewrite lookup_insert_eq. by eexists.
  - repeat split; try done; rewrite Hs; done.
Qed.

(** X4. A refusal, a completion or an error of a connected Sender is the
    last of its signals the manager acts on: the slot disconnects the
    Sender's signals and schedules one deferred cleanup for the Sender and
    its session (after 500 ms for a refusal, 100 ms otherwise), and every
    later signal of that Sender leaves the manager as it is and emits
    nothing. *)
Theorem terminal_signal_is_final (sp : positive) (sessionId : Z) (sig : Sender.signal)
    (m : FileTransferManager.Manager) :
  sp ∈ FileTransferManager.wired m ->
  FileTransferManager.senderToSession m !! sp = Some sessionId ->
  FileTransferManager.isTerminal sig ->
  let m1 := (FileTransferManager.onSenderSignal sp sig m).1 in
  (sp ∉ FileTransferManager.wired m1)
  /\ FileTransferManager.cleanups m1
     = FileTransferManager.cleanups m
       ++ [(if decide (sig = Sender.transferRefused) then 500 else 100, sp, sessionId)]
  /\ (forall sig', FileTransferManager.onSenderSignal sp sig' m1 = (m1, []))
  /\ (forall sp', sp' ≠ sp ->
        (sp' ∈ FileTransferManager.wired m1 <-> sp' ∈ FileTransferManager.wired m)).
Proof.
  intros Hwired Hmap Hterm m1.
  assert (Hm1 : exists m0,
             m1 = FileTransferManager.teardown
                    (if decide (sig = Sender.transferRefused) then 500 else 100)
                    sp sessionId m0
             /\ FileTransferManager.wired m0 = FileTransferManager.wired m
             /\ FileTransferManager.cleanups m0 = FileTransferManager.cleanups m).
  { subst m1. unfold FileTransferManager.onSenderSignal.
    rewrite (bool_decide_eq_true_2 _ Hwired).
    destruct Hterm as [->|[->| ->]]; cbn.
    - unfold FileTransferManager.onSenderTransferRefused. rewrite Hmap.
      pose proof (updateSessionStatus_fields sessionId CANCELLED m) as H.
      destruct (FileTransferManager.updateSessionStatus sessionId CANCELLED m) as [m0 a0].
      cbn in *. exists m0. tauto.
    - unfold FileTransferManager.onSenderTransferFinished. rewrite Hmap.
      pose proof (updateSessionStatus_fields sessionId FINISHED m) as H.
      destruct (FileTransferManager.updateSessionStatus sessionId FINISHED m) as [m0 a0].
      cbn in *. exists m0. tauto.
    - unfold FileTransferManager.onSenderTransferError. rewrite Hmap.
      pose proof (updateSessionStatus_fields sessionId ERROR m) as H.
      destruct (FileTransferManager.sessions m !! sessionId) as [session|];
        [|exists m; done].
      destruct (bool_decide _ && bool_decide _); [|exists m; done].
      destruct (FileTransferManager.updateSessionStatus sessionId ERROR m) as [m0 a0].
      cbn in *. exists m0. tauto. }
  destruct Hm1 as (m0 & -> & Hw & Hc).
  assert (Hout : sp ∉ FileTransferManager.wired m0 ∖ {[sp]}).
  { intros [_ H]%elem_of_difference. apply H. by apply elem_of_singleton. }
  split; [exact Hout|]. split; [cbn; by rewrite Hc|]. split.
  - intros sig'. unfold FileTransferManager.onSenderSignal.
    rewrite bool_decide_eq_false_2; [done|exact Hout].
  - intros sp' Hne. cbn. rewrite Hw, elem_of_difference, elem_of_singleton. tauto.
Qed.

Lemma terminal_signal_is_final_witness :
  let m := (FileTransferManager.sendFilesToUsers (λ _, Some (10, true)) 5556
              ["/home/u/a.txt"] [Fixtures.alice] FileTransferManager.new).1 in
  let m1 := (FileTransferManager.onSenderSignal 1 Sender.transferFinished m).1 in
  FileTransferManager.cleanups m1 = [(100, 1%positive, 1)]
  /\ FileTransferManager.onSenderSignal 1 Sender.transferError m1 = (m1, []).
Proof.
  intros m m1.
  destruct (terminal_signal_is_final 1 1 Sender.transferFinished m
              ltac:(apply (bool_decide_unpack _); vm_compute; exact I)
              ltac:(vm_compute; reflexivity) ltac:(right; left; reflexivity)) as (_ & Hc & Hfinal & _).
  split; [exact Hc|apply Hfinal].
Defined.

(** The manager after the body of the loop of [sendFilesToUsers]. *)
Lemma sendFileToUser_state (disk : string -> option (Z * bool)) (cfg : Z)
    (filePath : string) (user : BroadcastDiscoveryService.LANDropUser)
    (m : FileTransferManager.Manager) :
  let sessionId := FileTransferManager.nextSessionId m in
  let sp := FileTransferManager.nextSender m in
  let ip := BroadcastDiscoveryService.ipAddress user in
  (FileTransferManager.sendFileToUser disk cfg filePath user m).1
  = {| FileTransferManager.sessions :=
         <[sessionId := {| FileTransferManager.id := sessionId;
                           FileTransferManager.fileName := Qt.fileName filePath +:+ " @" +:+ ip;
                           FileTransferManager.recipientIP := ip;
                           FileTransferManager.status := WAITING;
                           FileTransferManager.progress := 0;
                           FileTransferManager.sender := Some sp |}]>
           (FileTransferManager.sessions m);
       FileTransferManager.senderToSession :=
         <[sp := sessionId]> (FileTransferManager.senderToSession m);
       FileTransferManager.receivedFileToSession := FileTransferManager.receivedFileToSession m;
       FileTransferManager.batchTimer := FileTransferManager.batchTimer m;
       FileTransferManager.pendingBatchFiles := FileTransferManager.pendingBatchFiles m;
       FileTransferManager.pendingBatchSockets := FileTransferManager.pendingBatchSockets m;
       FileTransferManager.nextSessionId := Qt.wrap32 (sessionId + 1);
       FileTransferManager.senders :=
         <[sp := (Sender.sendFile filePath (disk filePath) ip
                    (BroadcastDiscoveryService.transferPort user) (Sender.new cfg)).1]>
           (FileTransferManager.senders m);
       FileTransferManager.nextSender := Pos.succ sp;
       FileTransferManager.wired := {[sp]} ∪ FileTransferManager.wired m;
       FileTransferManager.cleanups := FileTransferManager.cleanups m |}.
Proof.
  unfold FileTransferManager.sendFileToUser, FileTransferManager.createTransferSession.
  destruct (Sender.sendFile _ _ _ _ _) as [sender' a2]. cbn.
  by rewrite alter_insert_eq.
Qed.

Lemma fresh_next (m : FileTransferManager.Manager) :
  FileTransferManager.fresh m ->
  FileTransferManager.sessions m !! FileTransferManager.nextSessionId m = None
  /\ FileTransferManager.senderToSession m !! FileTransferManager.nextSender m = None
  /\ FileTransferManager.senders m !! FileTransferManager.nextSender m = None
  /\ FileTransferManager.nextSender m ∉ FileTransferManager.wired m.
Proof.
  intros [Hs Hp].
  split; [|split; [|split]].
  - apply eq_None_not_Some. intros H. specialize (Hs _ H). lia.
  - apply eq_None_not_Some. intros H. specialize (Hp _ (or_introl H)). lia.
  - apply eq_None_not_Some. intros H. specialize (Hp _ (or_intror (or_introl H))). lia.
  - intros H. specialize (Hp _ (or_intror (or_intror H))). lia.
Qed.

Lemma fireCleanup_teardown (n : nat) (delay : Z) (sp : positive) (sessionId : Z)
    (m : FileTransferManager.Manager) :
  n = length (FileTransferManager.cleanups m) ->
  FileTransferManager.fireCleanup n (FileTransferManager.teardown delay sp sessionId m)
  = FileTransferManager.cleanup sp sessionId
      {| FileTransferManager.sessions := FileTransferManager.sessions m;
         FileTransferManager.senderToSession := FileTransferManager.senderToSession m;
         FileTransferManager.receivedFileToSession :=
           FileTransferManager.receivedFileToSession m;
         FileTransferManager.batchTimer := FileTransferManager.batchTimer m;
         FileTransferManager.pendingBatchFiles := FileTransferManager.pendingBatchFiles m;
         FileTransferManager.pendingBatchSockets := FileTransferManager.pendingBatchSockets m;
         FileTransferManager.nextSessionId := FileTransferManager.nextSessionId m;
         FileTransferManager.senders := FileTransferManager.senders m;
         FileTransferManager.nextSender := FileTransferManager.nextSender m;
         FileTransferManager.wired := FileTransferManager.wired m ∖ {[sp]};
         FileTransferManager.cleanups := FileTransferManager.cleanups m |}.
Proof.
  intros ->. unfold FileTransferManager.fireCleanup, FileTransferManager.teardown.
  cbn [FileTransferManager.cleanups FileTransferManager.sessions
       FileTransferManager.senderToSession FileTransferManager.receivedFileToSession
       FileTransferManager.batchTimer FileTransferManager.pendingBatchFiles
       FileTransferManager.pendingBatchSockets FileTransferManager.nextSessionId
       FileTransferManager.senders FileTransferManager.nextSender FileTransferManager.wired].
  rewrite list_lookup_middle by done.
  by rewrite delete_middle, app_nil_r.
Qed.

(** X5. An outbound session from its creation to its removal: on a manager
    whose identifiers still to be handed out are unused, one (file,
    recipient) pair is sent, the Sender reports a refusal, a completion or
    an error, the session takes the status CANCELLED, FINISHED or ERROR, and
    when the deferred cleanup runs the session, the entry of the Sender and
    the Sender itself are removed: the session table, the Sender table and
    the set of connected Senders are again what they were before the send,
    and no cleanup is left. *)
Theorem outbound_session_round_trip (disk : string -> option (Z * bool)) (cfg : Z)
    (filePath : string) (user : BroadcastDiscoveryService.LANDropUser)
    (sig : Sender.signal) (m : FileTransferManager.Manager) :
  FileTransferManager.fresh m ->
  FileTransferManager.isTerminal sig ->
  let sessionId := FileTransferManager.nextSessionId m in
  let sp := FileTransferManager.nextSender m in
  let m1 := (FileTransferManager.sendFileToUser disk cfg filePath user m).1 in
  let m2 := (FileTransferManager.onSenderSignal sp sig m1).1 in
  let m3 := (FileTransferManager.fireCleanup (length (FileTransferManager.cleanups m)) m2).1 in
  FileTransferManager.statusOf sessionId m1 = Some WAITING
  /\ FileTransferManager.statusOf sessionId m2
     = Some (match sig with
             | Sender.transferRefused => CANCELLED
             | Sender.transferFinished => FINISHED
             | _ => ERROR
             end)
  /\ FileTransferManager.sessions m3 = FileTransferManager.sessions m
  /\ FileTransferManager.senderToSession m3 = FileTransferManager.senderToSession m
  /\ FileTransferManager.senders m3 = FileTransferManager.senders m
  /\ FileTransferManager.wired m3 = FileTransferManager.wired m
  /\ FileTransferManager.cleanups m3 = FileTransferManager.cleanups m.
Proof.
  intros Hfresh Hterm sessionId sp m1 m2 m3.
  destruct (fresh_next m Hfresh) as (Hs & Hmap & Hsnd & Hw).
  fold sessionId in Hs. fold sp in Hmap, Hsnd, Hw.
  subst m3 m2 m1. rewrite sendFileToUser_state. fold sessionId sp.
  set (sender' := (Sender.sendFile _ _ _ _ _).1).
  set (session := FileTransferManager.Build_TransferSession _ _ _ _ _ _).
  split.
  { unfold FileTransferManager.statusOf. cbn. by rewrite lookup_insert_eq. }
  unfold FileTransferManager.onSenderSignal. cbn [FileTransferManager.wired].
  rewrite bool_decide_eq_true_2
    by (apply elem_of_union; left; by apply elem_of_singleton).
  assert (Hsets : (({[sp]} ∪ FileTransferManager.wired m) ∖ {[sp]}) ∖ {[sp]}
                  = FileTransferManager.wired m).
  { apply set_eq. intros x.
    rewrite !elem_of_difference, elem_of_union, elem_of_singleton.
    destruct (decide (x = sp)) as [->|]; tauto. }
  destruct Hterm as [->|[->| ->]].
  - unfold FileTransferManager.onSenderTransferRefused,
      FileTransferManager.updateSessionStatus.
    cbn [FileTransferManager.senderToSession FileTransferManager.sessions].
    rewrite !lookup_insert_eq. cbn [fst snd].
    rewrite fireCleanup_teardown by reflexivity.
    split; [unfold FileTransferManager.statusOf; cbn; by rewrite lookup_insert_eq|].
    unfold FileTransferManager.cleanup. cbn. rewrite lookup_insert_eq. cbn.
    rewrite Hsets, !delete_insert_eq, !delete_id by done. done.
  - unfold FileTransferManager.onSenderTransferFinished,
      FileTransferManager.updateSessionStatus.
    cbn [FileTransferManager.senderToSession FileTransferManager.sessions].
    rewrite !lookup_insert_eq. cbn [fst snd].
    rewrite fireCleanup_teardown by reflexivity.
    split; [unfold FileTransferManager.statusOf; cbn; by rewrite lookup_insert_eq|].
    unfold FileTransferManager.cleanup. cbn. rewrite lookup_insert_eq. cbn.
    rewrite Hsets, !delete_insert_eq, !delete_id by done. done.
  - unfold FileTransferManager.onSenderTransferError,
      FileTransferManager.updateSessionStatus.
    cbn [FileTransferManager.senderToSession FileTransferManager.sessions].
    rewrite !lookup_insert_eq.
    change (FileTransferManager.status session) with WAITING.
    rewrite !bool_decide_eq_true_2 by done. cbn [andb].
    rewrite ?lookup_insert_eq. cbn [fst snd].
    rewrite fireCleanup_teardown by reflexivity.
    split; [unfold FileTransferManager.statusOf; cbn; by rewrite lookup_insert_eq|].
    unfold FileTransferManager.cleanup. cbn. rewrite lookup_insert_eq. cbn.
    rewrite Hsets, !delete_insert_eq, !delete_id by done. done.
Qed.

Lemma fresh_new : FileTransferManager.fresh FileTransferManager.new.
Proof.
  unfold FileTransferManager.fresh, FileTransferManager.new. cbn. split.
  - intros i [x Hx]. by rewrite lookup_empty in Hx.
  - intros sp [[x Hx]|[[x Hx]|Hx]].
    + by rewrite lookup_empty in Hx.
    + by rewrite lookup_empty in Hx.
    + by apply not_elem_of_empty in Hx.
Defined.

Lemma outbound_session_round_trip_witness :
  let m1 := (FileTransferManager.sendFileToUser (λ _, Some (10, true)) 5556 "/home/u/a.txt"
               Fixtures.alice FileTransferManager.new).1 in
  let m2 := (FileTransferManager.onSenderSignal 1 Sender.transferFinished m1).1 in
  FileTransferManager.statusOf 1 m2 = Some FINISHED
  /\ FileTransferManager.sessions (FileTransferManager.fireCleanup 0 m2).1 = ∅.
Proof.
  pose proof fresh_new as Hfresh.
  destruct (outbound_session_round_trip (λ _, Some (10, true)) 5556 "/home/u/a.txt"
              Fixtures.alice Sender.transferFinished FileTransferManager.new Hfresh
              ltac:(right; left; reflexivity)) as (_ & Hst & Hs & _).
  split; [exact Hst|exact Hs].
Defined.

(** ** FileTransferManager: session identifiers *)

Lemma createdIds_app (a b : list FileTransferManager.action) :
  FileTransferManager.createdIds (a ++ b)
  = FileTransferManager.createdIds a ++ FileTransferManager.createdIds b.
Proof.
  unfold FileTransferManager.createdIds. by rewrite sessionsCreated_app, fmap_app.
Qed.

Lemma sent_nil (m : FileTransferManager.Manager) :
  FileTransferManager.fresh m -> FileTransferManager.sent m m [] 0.
Proof.
  intros Hfresh. unfold FileTransferManager.sent.
  split; [done|]. split; [done|]. split; [intros i Hi; lia|]. split; [done|lia].
Qed.

Lemma sent_app (m m1 m2 : FileTransferManager.Manager)
    (a1 a2 : list FileTransferManager.action) (k1 k2 : Z) :
  0 <= k1 -> 0 <= k2 ->
  FileTransferManager.sent m m1 a1 k1 -> FileTransferManager.sent m1 m2 a2 k2 ->
  FileTransferManager.sent m m2 (a1 ++ a2) (k1 + k2).
Proof.
  intros Hk1 Hk2 (Hid1 & Hkeep1 & Hnew1 & Hf1 & Hn1) (Hid2 & Hkeep2 & Hnew2 & Hf2 & Hn2).
  unfold FileTransferManager.sent.
  split; [|split; [|split; [|split]]].
  - rewrite createdIds_app, Hid1, Hid2, Hn1. by rewrite seqZ_app.
  - intros i s Hs. by apply Hkeep2, Hkeep1.
  - intros i Hi.
    destruct (decide (i < FileTransferManager.nextSessionId m + k1)) as [Hlt|Hge].
    + specialize (Hnew1 i ltac:(lia)). unfold FileTransferManager.statusOf in *.
      destruct (FileTransferManager.sessions m1 !! i) as [s|] eqn:Hs; [|done].
      by rewrite (Hkeep2 _ _ Hs).
    + apply Hnew2. lia.
  - done.
  - lia.
Qed.

Lemma sendFileToUser_sent (disk : string -> option (Z * bool)) (cfg : Z)
    (filePath : string) (user : BroadcastDiscoveryService.LANDropUser)
    (m : FileTransferManager.Manager) :
  FileTransferManager.fresh m ->
  - 2 ^ 31 <= FileTransferManager.nextSessionId m + 1 < 2 ^ 31 ->
  FileTransferManager.sent m
    (FileTransferManager.sendFileToUser disk cfg filePath user m).1
    (FileTransferManager.sendFileToUser disk cfg filePath user m).2 1.
Proof.
  intros Hfresh Hrange.
  destruct (fresh_next m Hfresh) as (Hs & Hmap & Hsnd & Hw).
  destruct Hfresh as [Hfs Hfp].
  unfold FileTransferManager.sent.
  split.
  { unfold FileTransferManager.createdIds. by rewrite sendFileToUser_created. }
  rewrite sendFileToUser_state. cbn.
  rewrite Qt_wrap32_id by lia.
  split; [|split; [|split; [|done]]].
  - intros i s Hi. rewrite lookup_insert_ne; [done|]. intros <-. congruence.
  - intros i Hi. assert (i = FileTransferManager.nextSessionId m) as -> by lia.
    unfold FileTransferManager.statusOf. cbn. by rewrite lookup_insert_eq.
  - split; cbn.
    + intros i [s Hi]. destruct (decide (i = FileTransferManager.nextSessionId m)) as [->|Hne].
      * lia.
      * rewrite lookup_insert_ne in Hi by done. specialize (Hfs i ltac:(by eexists)). lia.
    + intros sp Hsp.
      destruct (decide (sp = FileTransferManager.nextSender m)) as [->|Hne]; [lia|].
      rewrite !lookup_insert_ne, elem_of_union, elem_of_singleton in Hsp by done.
      assert ((sp < FileTransferManager.nextSender m)%positive); [|lia].
      apply Hfp. tauto.
Qed.

Lemma sendFileToUsers_sent (disk : string -> option (Z * bool)) (cfg : Z)
    (filePath : string) (recipients : list BroadcastDiscoveryService.LANDropUser) :
  forall m,
    FileTransferManager.fresh m ->
    - 2 ^ 31 <= FileTransferManager.nextSessionId m + 1 ->
    FileTransferManager.nextSessionId m + Z.of_nat (length recipients) < 2 ^ 31 ->
    FileTransferManager.sent m
      (FileTransferManager.sendFileToUsers disk cfg filePath recipients m).1
      (FileTransferManager.sendFileToUsers disk cfg filePath recipients m).2
      (Z.of_nat (length recipients)).
Proof.
  induction recipients as [|user rest IH]; intros m Hfresh Hlo Hhi.
  - cbn. by apply sent_nil.
  - cbn [FileTransferManager.sendFileToUsers length] in *. rewrite Nat2Z.inj_succ in *.
    pose proof (sendFileToUser_sent disk cfg filePath user m Hfresh ltac:(lia)) as H1.
    destruct (FileTransferManager.sendFileToUser disk cfg filePath user m) as [m1 a1].
    cbn [fst snd] in H1.
    pose proof H1 as (_ & _ & _ & Hf1 & Hn1).
    pose proof (IH m1 Hf1 ltac:(lia) ltac:(lia)) as H2.
    destruct (FileTransferManager.sendFileToUsers disk cfg filePath rest m1) as [m2 a2].
    cbn [fst snd] in *.
    replace (Z.succ (Z.of_nat (length rest))) with (1 + Z.of_nat (length rest)) by lia.
    eapply sent_app; [lia|lia|exact H1|exact H2].
Qed.

(** X6. On a manager whose identifiers still to be handed out are unused
    (and far from the end of [int]), [sendFilesToUsers] gives the sessions
    it creates the next identifiers in order, one per (file, recipient)
    pair; every session that was there is still there, unchanged; every new
    session is in the table with status WAITING; and the identifiers still
    to be handed out are unused again. *)
Theorem sendFilesToUsers_fresh_ids (disk : string -> option (Z * bool)) (cfg : Z)
    (filePaths : list string) (recipients : list BroadcastDiscoveryService.LANDropUser)
    (m : FileTransferManager.Manager) :
  FileTransferManager.fresh m ->
  - 2 ^ 31 <= FileTransferManager.nextSessionId m + 1 ->
  FileTransferManager.nextSessionId m
    + Z.of_nat (length filePaths * length recipients) < 2 ^ 31 ->
  FileTransferManager.sent m
    (FileTransferManager.sendFilesToUsers disk cfg filePaths recipients m).1
    (FileTransferManager.sendFilesToUsers disk cfg filePaths recipients m).2
    (Z.of_nat (length filePaths * length recipients)).
Proof.
  revert m. induction filePaths as [|filePath rest IH]; intros m Hfresh Hlo Hhi.
  - cbn. by apply sent_nil.
  - cbn [FileTransferManager.sendFilesToUsers length Nat.mul] in *.
    rewrite Nat2Z.inj_add in *.
    pose proof (sendFileToUsers_sent disk cfg filePath recipients m Hfresh Hlo ltac:(lia))
      as H1.
    destruct (FileTransferManager.sendFileToUsers disk cfg filePath recipients m) as [m1 a1].
    cbn [fst snd] in H1.
    pose proof H1 as (_ & _ & _ & Hf1 & Hn1).
    pose proof (IH m1 Hf1 ltac:(lia) ltac:(lia)) as H2.
    destruct (FileTransferManager.sendFilesToUsers disk cfg rest recipients m1) as [m2 a2].
    cbn [fst snd] in *.
    eapply sent_app; [lia|lia|exact H1|exact H2].
Qed.

Lemma sendFilesToUsers_fresh_ids_witness :
  FileTransferManager.createdIds
    (FileTransferManager.sendFilesToUsers Fixtures.noFiles 5556 ["/a/x.txt"; "/a/y.txt"]
       [Fixtures.alice; Fixtures.bob] FileTransferManager.new).2
  = [1; 2; 3; 4].
Proof.
  destruct (sendFilesToUsers_fresh_ids Fixtures.noFiles 5556 ["/a/x.txt"; "/a/y.txt"]
              [Fixtures.alice; Fixtures.bob] FileTransferManager.new fresh_new
              ltac:(cbn; lia) ltac:(cbn; lia)) as (Hids & _).
  exact Hids.
Defined.

(** ** An accepted transfer, seen from the session table *)

Lemma setSender_id (sp : positive) (s : Sender.Sender) (m : FileTransferManager.Manager) :
  FileTransferManager.senders m !! sp = Some s -> FileTransferManager.setSender sp s m = m.
Proof.
  intros H. destruct m. unfold FileTransferManager.setSender. cbn in *.
  by rewrite insert_id.
Qed.

Lemma statusChanges_app (a b : list FileTransferManager.action) :
  FileTransferManager.statusChanges (a ++ b)
  = FileTransferManager.statusChanges a ++ FileTransferManager.statusChanges b.
Proof. apply bind_app. Qed.

Section Outbound.

Variables (path : string) (fsz b prt : Z) (sp : positive) (sessionId : Z).
Variable cleanups0 : list (Z * positive * Z).
Hypothesis Hb : 0 < b.
Hypothesis Hfsz : 0 < fsz.
Hypothesis Hrange : fsz * 100 < 2 ^ 63.

Local Abbreviation live := (FileTransferManager.live path fsz prt sp sessionId cleanups0).

Lemma deliver_more (p pr : Z) (m : FileTransferManager.Manager) :
  0 <= p < fsz -> live p pr m ->
  let q := p + Z.min b (fsz - p) in
  live q (q * 100 / fsz) (FileTransferManager.deliver b sp Sender.BytesWritten m).1
  /\ FileTransferManager.statusChanges
       (FileTransferManager.deliver b sp Sender.BytesWritten m).2 = [].
Proof using Hb Hfsz Hrange.
  intros Hp (Hsnd & Hw & Hmap & Hst & Hpr & Hc) q.
  unfold FileTransferManager.deliver. rewrite Hsnd.
  rewrite (step_more path fsz b prt Hb Hfsz Hrange p Hp). fold q.
  cbn [FileTransferManager.onSenderActions FileTransferManager.onSenderAction].
  unfold FileTransferManager.onSenderSignal, FileTransferManager.setSender.
  cbn [FileTransferManager.wired].
  rewrite (bool_decide_eq_true_2 _ Hw).
  unfold FileTransferManager.onSenderProgressUpdated.
  cbn [FileTransferManager.senderToSession]. rewrite Hmap.
  unfold FileTransferManager.updateSessionProgress.
  cbn [FileTransferManager.sessions].
  unfold FileTransferManager.statusOf in Hst.
  destruct (FileTransferManager.sessions m !! sessionId) as [session|] eqn:Hs; [|done].
  cbn in Hst. injection Hst as Hst. cbn.
  unfold FileTransferManager.live, FileTransferManager.statusOf, FileTransferManager.progressOf. cbn.
  rewrite !lookup_insert_eq. cbn. rewrite Hst. done.
Qed.

Lemma deliver_end (pr : Z) (m : FileTransferManager.Manager) :
  live fsz pr m ->
  let r := FileTransferManager.deliver b sp Sender.BytesWritten m in
  FileTransferManager.senders r.1 !! sp = Some (Sender.finishedAt path fsz prt fsz)
  /\ FileTransferManager.statusOf sessionId r.1 = Some FINISHED
  /\ FileTransferManager.progressOf sessionId r.1 = Some pr
  /\ FileTransferManager.cleanups r.1 = cleanups0 ++ [(100, sp, sessionId)]
  /\ (sp ∉ FileTransferManager.wired r.1)
  /\ FileTransferManager.statusChanges r.2 = [(sessionId, FINISHED)].
Proof using Type.
  intros (Hsnd & Hw & Hmap & Hst & Hpr & Hc) r. subst r.
  unfold FileTransferManager.deliver. rewrite Hsnd.
  rewrite (step_end path fsz b prt).
  cbn [FileTransferManager.onSenderActions FileTransferManager.onSenderAction].
  unfold FileTransferManager.onSenderSignal, FileTransferManager.setSender.
  cbn [FileTransferManager.wired].
  rewrite (bool_decide_eq_true_2 _ Hw).
  unfold FileTransferManager.onSenderTransferFinished.
  cbn [FileTransferManager.senderToSession]. rewrite Hmap.
  unfold FileTransferManager.updateSessionStatus.
  cbn [FileTransferManager.sessions].
  unfold FileTransferManager.statusOf in Hst.
  unfold FileTransferManager.progressOf in Hpr.
  destruct (FileTransferManager.sessions m !! sessionId) as [session|] eqn:Hs; [|done].
  cbn in Hst, Hpr. injection Hpr as Hpr. cbn.
  unfold FileTransferManager.statusOf, FileTransferManager.progressOf. cbn.
  rewrite !lookup_insert_eq, Hc. cbn. rewrite Hpr.
  repeat split; try done.
  intros [_ H]%elem_of_difference. apply H. by apply elem_of_singleton.
Qed.

Lemma deliver_finished (n : nat) :
  forall m,
    FileTransferManager.senders m !! sp = Some (Sender.finishedAt path fsz prt fsz) ->
    FileTransferManager.deliverAll b sp (repeat Sender.BytesWritten n) m = (m, []).
Proof using Type.
  induction n as [|n IH]; intros m Hsnd; [done|].
  cbn [repeat FileTransferManager.deliverAll].
  unfold FileTransferManager.deliver. rewrite Hsnd.
  rewrite (step_finished path fsz b prt fsz).
  cbn [FileTransferManager.onSenderActions].
  rewrite (setSender_id _ _ _ Hsnd), (IH m Hsnd). done.
Qed.

Lemma deliver_stream (n : nat) :
  forall p pr m,
    0 < p <= fsz -> live p pr m -> fsz - p <= b * (Z.of_nat n - 1) ->
    let r := FileTransferManager.deliverAll b sp (repeat Sender.BytesWritten n) m in
    FileTransferManager.statusOf sessionId r.1 = Some FINISHED
    /\ FileTransferManager.progressOf sessionId r.1 = Some (if decide (p < fsz) then 100 else pr)
    /\ FileTransferManager.cleanups r.1 = cleanups0 ++ [(100, sp, sessionId)]
    /\ (sp ∉ FileTransferManager.wired r.1)
    /\ FileTransferManager.statusChanges r.2 = [(sessionId, FINISHED)].
Proof using Hb Hfsz Hrange.
  induction n as [|n IH]; intros p pr m Hp Hlive Hn.
  { cbn in Hn. lia. }
  cbn [repeat FileTransferManager.deliverAll].
  destruct (decide (p = fsz)) as [->|Hne].
  - destruct (deliver_end pr m Hlive) as (Hsnd & Hst & Hpr & Hc & Hw & Hch).
    destruct (FileTransferManager.deliver b sp Sender.BytesWritten m) as [m1 a1].
    cbn [fst snd] in *. rewrite (deliver_finished n m1 Hsnd). cbn [fst snd].
    rewrite app_nil_r, decide_False by lia. done.
  - destruct (deliver_more p pr m ltac:(lia) Hlive) as (Hlive' & Hch).
    destruct (FileTransferManager.deliver b sp Sender.BytesWritten m) as [m1 a1].
    cbn [fst snd] in *.
    set (q := p + Z.min b (fsz - p)) in *.
    assert (Hq : 0 < q <= fsz) by (unfold q; lia).
    assert (Hnq : fsz - q <= b * (Z.of_nat n - 1)).
    { rewrite Nat2Z.inj_succ in Hn.
      assert (1 <= Z.of_nat n).
      { destruct (decide (Z.of_nat n = 0)) as [Hz|]; [rewrite Hz in Hn|]; lia. }
      unfold q. destruct (Z.min_spec b (fsz - p)) as [[? ->]|[? ->]]; nia. }
    destruct (IH q (q * 100 / fsz) m1 Hq Hlive' Hnq) as (Hst & Hpr & Hc & Hw & Hch').
    destruct (FileTransferManager.deliverAll b sp (repeat Sender.BytesWritten n) m1)
      as [m2 a2].
    cbn [fst snd] in *. rewrite statusChanges_app, Hch, Hch'.
    rewrite decide_True by lia.
    split; [done|]. split; [|done].
    rewrite Hpr. case_decide as Hlt; [done|].
    assert (q = fsz) as -> by lia. f_equal.
    rewrite Z.mul_comm. apply Z.div_mul. lia.
Qed.

End Outbound.

(** X7. An accepted transfer, end to end on the sending side: for a Sender
    created by the manager for a readable, non-empty file, the connection,
    the receiver's OK and enough bytes-written notifications take the
    session to IN_PROGRESS and then to FINISHED, with no other status
    change; the Sender's signals are disconnected and one cleanup is
    scheduled after 100 ms. The session's progress ends at 100 when the
    file is larger than one buffer, and is never touched when the file fits
    one buffer. *)
Theorem accepted_transfer_finishes (b : Z) (path ip : string) (fsz cfg prt : Z) (n : nat)
    (sp : positive) (sessionId : Z) (session : FileTransferManager.TransferSession)
    (m : FileTransferManager.Manager) :
  0 < b -> 0 < fsz -> fsz * 100 < 2 ^ 63 -> fsz <= b * Z.of_nat n ->
  FileTransferManager.senders m !! sp
    = Some (Sender.sendFile path (Some (fsz, true)) ip prt (Sender.new cfg)).1 ->
  sp ∈ FileTransferManager.wired m ->
  FileTransferManager.senderToSession m !! sp = Some sessionId ->
  FileTransferManager.sessions m !! sessionId = Some session ->
  let '(m', acts) :=
    FileTransferManager.deliverAll b sp
      (Sender.Connected :: Sender.ReadyRead "OK
" true :: repeat Sender.BytesWritten n) m in
  FileTransferManager.statusChanges acts = [(sessionId, IN_PROGRESS); (sessionId, FINISHED)]
  /\ FileTransferManager.statusOf sessionId m' = Some FINISHED
  /\ FileTransferManager.progressOf sessionId m'
     = Some (if decide (b < fsz) then 100 else FileTransferManager.progress session)
  /\ FileTransferManager.cleanups m'
     = FileTransferManager.cleanups m ++ [(100, sp, sessionId)]
  /\ (sp ∉ FileTransferManager.wired m').
Proof.
  intros Hb Hfsz Hrange Hn Hsnd Hw Hmap Hs.
  cbn [FileTransferManager.deliverAll].
  (* the connection *)
  unfold FileTransferManager.deliver at 1. rewrite Hsnd. cbn [Sender.step Sender.sendFile].
  cbn [Sender.reset Sender.new Sender.socket Sender.exists_ Sender.onDisk fst snd].
  cbn. 
  (* the answer *)
  unfold FileTransferManager.deliver at 1. cbn [FileTransferManager.senders
    FileTransferManager.setSender]. unfold FileTransferManager.setSender at 1.
  cbn [FileTransferManager.senders]. rewrite lookup_insert_eq.
  cbn. unfold Sender.size. cbn.
  rewrite Z.sub_0_r, (Z.max_r 0 (Z.min b fsz)) by lia.
  rewrite Qt_wrap64_id by lia.
  rewrite (bool_decide_eq_true_2 (1 <= Z.min b fsz)) by lia. cbn.
  unfold FileTransferManager.onSenderSignal. cbn.
  rewrite (bool_decide_eq_true_2 _ Hw).
  unfold FileTransferManager.onSenderTransferAccepted. cbn. rewrite Hmap.
  unfold FileTransferManager.updateSessionStatus. cbn. rewrite Hs. cbn.
  (* the stream *)
  rewrite !Z.add_0_l.
  match goal with
  | |- context [FileTransferManager.deliverAll b sp (repeat _ n) ?mm] => set (m2 := mm)
  end.
  assert (Hlive : FileTransferManager.live path fsz prt sp sessionId
                    (FileTransferManager.cleanups m) (Z.min b fsz)
                    (FileTransferManager.progress session) m2).
  { unfold FileTransferManager.live, FileTransferManager.statusOf,
      FileTransferManager.progressOf. subst m2. cbn.
    rewrite !lookup_insert_eq. done. }
  assert (Hlen : fsz - Z.min b fsz <= b * (Z.of_nat n - 1)).
  { destruct (Z.min_spec b fsz) as [[? ->]|[? ->]]; [nia|].
    assert (1 <= Z.of_nat n); [|nia].
    destruct (decide (Z.of_nat n = 0)) as [Hz|]; [rewrite Hz in Hn|]; lia. }
  destruct (deliver_stream path fsz b prt sp sessionId (FileTransferManager.cleanups m)
              Hb Hfsz Hrange n (Z.min b fsz) (FileTransferManager.progress session) m2
              ltac:(lia) Hlive Hlen) as (Hst & Hpr & Hc & Hw' & Hch).
  destruct (FileTransferManager.deliverAll b sp (repeat Sender.BytesWritten n) m2)
    as [m3 a3].
  cbn [fst snd] in *.
  split.
  { change (FileTransferManager.statusChanges
              ([FileTransferManager.senderDid sp (Sender.writeLine
                  (Qt.fileName path +:+ "|" +:+ Qt.number fsz +:+ "
"))] ++ ([FileTransferManager.senderDid sp (Sender.Emit Sender.transferAccepted);
          FileTransferManager.transferStatusChanged sessionId IN_PROGRESS;
          FileTransferManager.senderDid sp (Sender.writeChunk (Z.min b fsz))] ++ a3))
            = [(sessionId, IN_PROGRESS); (sessionId, FINISHED)]).
    rewrite !statusChanges_app, Hch. reflexivity. }
  split; [done|]. split; [|done].
  rewrite Hpr. destruct (decide (b < fsz)), (decide (Z.min b fsz < fsz)); try done; lia.
Qed.

Lemma accepted_transfer_finishes_witness :
  let m := (FileTransferManager.sendFilesToUsers (λ _, Some (10, true)) 5556
              ["/home/u/a.txt"] [Fixtures.alice] FileTransferManager.new).1 in
  let r := FileTransferManager.deliverAll 4 1
             (Sender.Connected :: Sender.ReadyRead "OK
" true :: repeat Sender.BytesWritten 3) m in
  FileTransferManager.statusChanges r.2 = [(1, IN_PROGRESS); (1, FINISHED)]
  /\ FileTransferManager.progressOf 1 r.1 = Some 100.
Proof.
  intros m r.
  pose proof (accepted_transfer_finishes 4 "/home/u/a.txt" "192.168.1.10" 10 5556 5556 3 1 1
                {| FileTransferManager.id := 1;
                   FileTransferManager.fileName := "a.txt @192.168.1.10";
                   FileTransferManager.recipientIP := "192.168.1.10";
                   FileTransferManager.status := WAITING;
                   FileTransferManager.progress := 0;
                   FileTransferManager.sender := Some 1%positive |} m
                ltac:(lia) ltac:(lia) ltac:(lia) ltac:(lia)
                ltac:(vm_compute; reflexivity)
                ltac:(apply (bool_decide_unpack _); vm_compute; exact I)
                ltac:(vm_compute; reflexivity) ltac:(vm_compute; reflexivity)) as H.
  subst r. destruct (FileTransferManager.deliverAll _ _ _ _) as [m' acts].
  destruct H as (Hch & _ & Hpr & _). split; [exact Hch|exact Hpr].
Defined.

Lemma step_after_reset (b : Z) (e : Sender.event) (s : Sender.Sender) :
  Sender.step b e (Sender.reset s).1 = ((Sender.reset s).1, []).
Proof. by destruct e. Qed.

Lemma deliver_quiescent (b : Z) (sp : positive) (s : Sender.Sender) (es : list Sender.event) :
  forall m,
    FileTransferManager.senders m !! sp = Some (Sender.reset s).1 ->
    FileTransferManager.deliverAll b sp es m = (m, []).
Proof.
  induction es as [|e es IH]; intros m Hsnd; [done|].
  cbn [FileTransferManager.deliverAll].
  unfold FileTransferManager.deliver. rewrite Hsnd, step_after_reset.
  cbn [FileTransferManager.onSenderActions].
  rewrite (setSender_id _ _ _ Hsnd), (IH m Hsnd). done.
Qed.

(** X8. The receiver accepts, but the source file cannot be opened (it is
    unreadable, or the handle is already open): the session goes to
    IN_PROGRESS and stays there. The Sender resets itself without an error
    signal, so whatever its socket or timers do afterwards, the session's
    status never changes again, no cleanup is scheduled and the Sender stays
    connected to the manager. *)
Theorem accepted_unreadable_file_stalls (b : Z) (line : string) (writeOk : bool)
    (es : list Sender.event) (sp : positive) (sessionId : Z)
    (sender0 : Sender.Sender) (sock : Sender.QTcpSocket)
    (session : FileTransferManager.TransferSession) (m : FileTransferManager.Manager) :
  FileTransferManager.senders m !! sp = Some sender0 ->
  Sender.socket sender0 = Some sock ->
  Sender.file sender0 ≫= Sender.open = None ->
  Qt.trimmed line = "OK" ->
  sp ∈ FileTransferManager.wired m ->
  FileTransferManager.senderToSession m !! sp = Some sessionId ->
  FileTransferManager.sessions m !! sessionId = Some session ->
  let '(m', acts) :=
    FileTransferManager.deliverAll b sp (Sender.ReadyRead line writeOk :: es) m in
  FileTransferManager.statusChanges acts = [(sessionId, IN_PROGRESS)]
  /\ FileTransferManager.statusOf sessionId m' = Some IN_PROGRESS
  /\ FileTransferManager.cleanups m' = FileTransferManager.cleanups m
  /\ sp ∈ FileTransferManager.wired m'
  /\ FileTransferManager.senders m' !! sp = Some (Sender.reset sender0).1.
Proof.
  intros Hsnd Hsock Hopen Hok Hw Hmap Hs.
  cbn [FileTransferManager.deliverAll].
  unfold FileTransferManager.deliver at 1. rewrite Hsnd.
  unfold Sender.step. rewrite Hsock. unfold Sender.onReadyRead.
  rewrite Hsock, Hok, Hopen. cbn [String.eqb Ascii.eqb Bool.eqb].
  change (("OK" =? "OK")%string) with true. cbn iota.
  destruct (Sender.reset sender0) as [s1 a1] eqn:Hreset.
  assert (Ha1 : a1 = [] \/ a1 = [Sender.disconnectFromHost]).
  { unfold Sender.reset in Hreset. injection Hreset as _ <-.
    rewrite Hsock. destruct (Sender.state sock); auto. }
  assert (Hs1 : s1 = (Sender.reset sender0).1) by (by rewrite Hreset).
  cbn [FileTransferManager.onSenderActions FileTransferManager.onSenderAction].
  unfold FileTransferManager.onSenderSignal, FileTransferManager.setSender.
  cbn [FileTransferManager.wired]. rewrite (bool_decide_eq_true_2 _ Hw).
  unfold FileTransferManager.onSenderTransferAccepted.
  cbn [FileTransferManager.senderToSession]. rewrite Hmap.
  unfold FileTransferManager.updateSessionStatus.
  cbn [FileTransferManager.sessions]. rewrite Hs.
  unfold FileTransferManager.setSessions.
  cbn [FileTransferManager.sessions FileTransferManager.senderToSession
       FileTransferManager.receivedFileToSession FileTransferManager.batchTimer
       FileTransferManager.pendingBatchFiles FileTransferManager.pendingBatchSockets
       FileTransferManager.nextSessionId FileTransferManager.senders
       FileTransferManager.nextSender FileTransferManager.wired
       FileTransferManager.cleanups].
  set (m1 := FileTransferManager.Build_Manager _ _ _ _ _ _ _ _ _ _ _).
  assert (Hrest : FileTransferManager.onSenderActions sp a1 m1
                  = (m1, FileTransferManager.senderDid sp <$> a1)).
  { destruct Ha1 as [-> | ->]; reflexivity. }
  rewrite Hrest.
  rewrite (deliver_quiescent b sp sender0 es m1)
    by (subst m1; cbn; rewrite lookup_insert_eq; by rewrite Hs1).
  split.
  { rewrite app_nil_r. cbn. destruct Ha1 as [-> | ->]; reflexivity. }
  subst m1. unfold FileTransferManager.statusOf. cbn.
  rewrite !lookup_insert_eq, Hs1. done.
Qed.

Lemma accepted_unreadable_file_stalls_witness :
  let m := (FileTransferManager.deliver 65536 1 Sender.Connected
              (FileTransferManager.sendFilesToUsers (λ _, Some (10, false)) 5556
                 ["/home/u/a.txt"] [Fixtures.alice] FileTransferManager.new).1).1 in
  let r := FileTransferManager.deliverAll 65536 1
             [Sender.ReadyRead "OK
" true; Sender.BytesWritten; Sender.TimerExpired; Sender.Disconnected] m in
  FileTransferManager.statusChanges r.2 = [(1, IN_PROGRESS)]
  /\ FileTransferManager.statusOf 1 r.1 = Some IN_PROGRESS.
Proof.
  intros m r.
  pose proof (accepted_unreadable_file_stalls 65536 "OK
" true [Sender.BytesWritten; Sender.TimerExpired; Sender.Disconnected] 1 1
     {| Sender.socket := Some {| Sender.state := Sender.ConnectedState;
                                 Sender.streaming := false |};
        Sender.file := Some {| Sender.fileName := "/home/u/a.txt";
                               Sender.onDisk := Some (10, false);
                               Sender.isOpen := false; Sender.pos := 0 |};
        Sender.bytesSent := 0; Sender.port := 5556;
        Sender.connectionTimer := false; Sender.responseTimer := true |}
     {| Sender.state := Sender.ConnectedState; Sender.streaming := false |}
     {| FileTransferManager.id := 1;
        FileTransferManager.fileName := "a.txt @192.168.1.10";
        FileTransferManager.recipientIP := "192.168.1.10";
        FileTransferManager.status := WAITING;
        FileTransferManager.progress := 0;
        FileTransferManager.sender := Some 1%positive |} m
     ltac:(vm_compute; reflexivity) ltac:(reflexivity) ltac:(reflexivity)
     ltac:(vm_compute; reflexivity)
     ltac:(apply (bool_decide_unpack _); vm_compute; exact I)
     ltac:(vm_compute; reflexivity) ltac:(vm_compute; reflexivity)) as H.
  subst r. destruct (FileTransferManager.deliverAll _ _ _ _) as [m' acts].
  destruct H as (Hch & Hst & _). split; [exact Hch|exact Hst].
Defined.

(** X9. An empty file, or a buffer size that is not positive: the first
    chunk read on the receiver's OK is empty, the socket takes nothing, and
    the Sender reports an error right after the acceptance. The session
    goes to IN_PROGRESS and at once to ERROR, the Sender's signals are
    disconnected and its cleanup is scheduled. *)
Theorem empty_first_chunk_is_an_error (b : Z) (line : string) (writeOk : bool)
    (sp : positive) (sessionId : Z) (sender0 : Sender.Sender) (sock : Sender.QTcpSocket)
    (f : Sender.QFile) (session : FileTransferManager.TransferSession)
    (m : FileTransferManager.Manager) :
  FileTransferManager.senders m !! sp = Some sender0 ->
  Sender.socket sender0 = Some sock ->
  Sender.file sender0 = Some f ->
  Sender.isOpen f = false -> Sender.readable f = true ->
  Z.min b (Sender.size f) <= 0 ->
  Qt.trimmed line = "OK" ->
  sp ∈ FileTransferManager.wired m ->
  FileTransferManager.senderToSession m !! sp = Some sessionId ->
  FileTransferManager.sessions m !! sessionId = Some session ->
  let '(m', acts) := FileTransferManager.deliver b sp (Sender.ReadyRead line writeOk) m in
  FileTransferManager.statusChanges acts = [(sessionId, IN_PROGRESS); (sessionId, ERROR)]
  /\ FileTransferManager.statusOf sessionId m' = Some ERROR
  /\ FileTransferManager.cleanups m'
     = FileTransferManager.cleanups m ++ [(100, sp, sessionId)]
  /\ (sp ∉ FileTransferManager.wired m')
  /\ (Sender.bytesSent <$> FileTransferManager.senders m' !! sp) = Some 0.
Proof.
  intros Hsnd Hsock Hfile Hclosed Hread Hmin Hok Hw Hmap Hs.
  unfold FileTransferManager.deliver. rewrite Hsnd.
  unfold Sender.step. rewrite Hsock. unfold Sender.onReadyRead.
  rewrite Hsock, Hok, Hfile.
  change (("OK" =? "OK")%string) with true. cbn iota.
  cbn [mbind option_bind]. unfold Sender.open. rewrite Hclosed, Hread.
  unfold Sender.read, Sender.size in *. cbn [Sender.onDisk Sender.pos].
  rewrite Z.sub_0_r, (Z.max_l 0 (Z.min b _)) by lia.
  rewrite (bool_decide_eq_false_2 (1 <= 0)) by lia. rewrite andb_false_r.
  cbn [FileTransferManager.onSenderActions FileTransferManager.onSenderAction].
  unfold FileTransferManager.onSenderSignal at 1, FileTransferManager.setSender.
  cbn [FileTransferManager.wired]. rewrite (bool_decide_eq_true_2 _ Hw).
  unfold FileTransferManager.onSenderTransferAccepted.
  cbn [FileTransferManager.senderToSession]. rewrite Hmap.
  unfold FileTransferManager.updateSessionStatus at 1.
  cbn [FileTransferManager.sessions]. rewrite Hs.
  unfold FileTransferManager.setSessions.
  cbn [FileTransferManager.sessions FileTransferManager.senderToSession
       FileTransferManager.receivedFileToSession FileTransferManager.batchTimer
       FileTransferManager.pendingBatchFiles FileTransferManager.pendingBatchSockets
       FileTransferManager.nextSessionId FileTransferManager.senders
       FileTransferManager.nextSender FileTransferManager.wired
       FileTransferManager.cleanups].
  unfold FileTransferManager.onSenderSignal.
  cbn [FileTransferManager.wired]. rewrite (bool_decide_eq_true_2 _ Hw).
  unfold FileTransferManager.onSenderTransferError.
  cbn [FileTransferManager.senderToSession FileTransferManager.sessions]. rewrite Hmap.
  rewrite lookup_insert_eq. cbn [FileTransferManager.status].
  rewrite !bool_decide_eq_true_2 by done. cbn [andb].
  unfold FileTransferManager.updateSessionStatus.
  cbn [FileTransferManager.sessions]. rewrite lookup_insert_eq.
  unfold FileTransferManager.statusOf. cbn.
  rewrite !lookup_insert_eq. cbn.
  split; [reflexivity|]. split; [reflexivity|]. split; [reflexivity|]. split.
  - intros [_ H]%elem_of_difference. apply H. by apply elem_of_singleton.
  - reflexivity.
Qed.

Lemma empty_first_chunk_is_an_error_witness :
  let m := (FileTransferManager.deliver 65536 1 Sender.Connected
              (FileTransferManager.sendFilesToUsers (λ _, Some (0, true)) 5556
                 ["/home/u/empty.txt"] [Fixtures.alice] FileTransferManager.new).1).1 in
  let r := FileTransferManager.deliver 65536 1 (Sender.ReadyRead "OK
" true) m in
  FileTransferManager.statusChanges r.2 = [(1, IN_PROGRESS); (1, ERROR)].
Proof.
  intros m r.
  pose proof (empty_first_chunk_is_an_error 65536 "OK
" true 1 1
     {| Sender.socket := Some {| Sender.state := Sender.ConnectedState;
                                 Sender.streaming := false |};
        Sender.file := Some {| Sender.fileName := "/home/u/empty.txt";
                               Sender.onDisk := Some (0, true);
                               Sender.isOpen := false; Sender.pos := 0 |};
        Sender.bytesSent := 0; Sender.port := 5556;
        Sender.connectionTimer := false; Sender.responseTimer := true |}
     {| Sender.state := Sender.ConnectedState; Sender.streaming := false |}
     {| Sender.fileName := "/home/u/empty.txt"; Sender.onDisk := Some (0, true);
        Sender.isOpen := false; Sender.pos := 0 |}
     {| FileTransferManager.id := 1;
        FileTransferManager.fileName := "empty.txt @192.168.1.10";
        FileTransferManager.recipientIP := "192.168.1.10";
        FileTransferManager.status := WAITING;
        FileTransferManager.progress := 0;
        FileTransferManager.sender := Some 1%positive |} m
     ltac:(vm_compute; reflexivity) ltac:(reflexivity) ltac:(reflexivity)
     ltac:(reflexivity) ltac:(reflexivity) ltac:(cbn; lia)
     ltac:(vm_compute; reflexivity)
     ltac:(apply (bool_decide_unpack _); vm_compute; exact I)
     ltac:(vm_compute; reflexivity) ltac:(vm_compute; reflexivity)) as H.
  subst r.
  destruct (FileTransferManager.deliver 65536 1 (Sender.ReadyRead _ _) m) as [m' acts].
  destruct H as (Hch & _). exact Hch.
Defined.

(** ** Receiver: payload with a handle attached *)

Lemma string_app_empty (a b : string) :
  a +:+ b = EmptyString -> a = EmptyString /\ b = EmptyString.
Proof. destruct a; [done|discriminate]. Qed.

Lemma attached_receive (env : Receiver.Env) (s f : positive) (nm : string) (sz : Z)
    (w b0 d : string) (r : Receiver.Receiver) :
  Receiver.attached s f nm sz w b0 r ->
  Qt.size w + Qt.size b0 + Qt.size d < 2 ^ 63 ->
  let res := Receiver.receive env s d r in
  Receiver.attached s f nm sz (w +:+ b0 +:+ d) EmptyString res.1
  /\ res.2 = (if decide (b0 +:+ d = EmptyString) then []
              else Receiver.transferProgressUpdated nm
                     (Receiver.percentage env (Qt.size (w +:+ b0 +:+ d)) sz)
                   :: (if bool_decide (sz <= Qt.size (w +:+ b0 +:+ d))
                       then [Receiver.disconnectFromHost s] else [])).
Proof.
  intros (Hpend & Hfile & Hbuf) Hlt res. subst res.
  pose proof (size_nonneg w). pose proof (size_nonneg b0). pose proof (size_nonneg d).
  unfold Receiver.receive. rewrite Hbuf. unfold Receiver.onReadyRead.
  cbn [Receiver.setBuffer Receiver.buffers Receiver.pendingFiles].
  rewrite lookup_insert_eq, Hpend. unfold Receiver.readPayload, Receiver.setBuffer.
  cbn [Receiver.file mbind option_bind Receiver.files Receiver.pendingFiles
       Receiver.buffers]. rewrite Hfile.
  cbn [fmap option_fmap option_map Receiver.isOpen negb Receiver.writeFails
       Receiver.totalReceived Receiver.name Receiver.size Receiver.written].
  destruct (String.eqb_spec (b0 +:+ d) EmptyString) as [Hempty|Hne].
  - rewrite decide_True by done. cbn [fst snd].
    split; [|done]. unfold Receiver.attached. cbn.
    rewrite lookup_insert_eq, Hempty, string_app_nil_r. done.
  - rewrite decide_False by done. cbn [fst snd].
    assert (Htot : Qt.wrap64 (Qt.size w + Qt.size (b0 +:+ d)) = Qt.size (w +:+ b0 +:+ d)).
    { rewrite !size_app. apply Qt_wrap64_id. lia. }
    rewrite Htot. split; [|done].
    unfold Receiver.attached. cbn. rewrite !lookup_insert_eq. done.
Qed.

Lemma attached_run (env : Receiver.Env) (s f : positive) (nm : string) (sz : Z)
    (ds : list string) :
  forall (w b0 : string) (r : Receiver.Receiver),
    Receiver.attached s f nm sz w b0 r ->
    Qt.size w + Qt.size b0 + Qt.size (Receiver.concat ds) < 2 ^ 63 ->
    ds ≠ [] ->
    let res := Receiver.payloadRun env s (Receiver.Data <$> ds) r in
    Receiver.attached s f nm sz (w +:+ b0 +:+ Receiver.concat ds) EmptyString res.1
    /\ (Receiver.disconnectFromHost s ∈ res.2 ->
        sz <= Qt.size (w +:+ b0 +:+ Receiver.concat ds)
        /\ b0 +:+ Receiver.concat ds ≠ EmptyString)
    /\ (sz <= Qt.size (w +:+ b0 +:+ Receiver.concat ds) ->
        b0 +:+ Receiver.concat ds ≠ EmptyString ->
        Receiver.disconnectFromHost s ∈ res.2).
Proof.
  induction ds as [|d ds IH]; intros w b0 r Hatt Hlt Hne; [done|].
  cbn [fmap list_fmap Receiver.payloadRun Receiver.payloadStep Receiver.concat foldr] in *.
  fold (Receiver.concat ds) in *.
  pose proof (size_nonneg w). pose proof (size_nonneg b0). pose proof (size_nonneg d).
  pose proof (size_nonneg (Receiver.concat ds)).
  rewrite size_app in Hlt.
  destruct (attached_receive env s f nm sz w b0 d r Hatt ltac:(lia)) as [Hatt1 Hacts1].
  destruct (Receiver.receive env s d r) as [r1 a1]. cbn [fst snd] in *.
  destruct ds as [|d' ds'].
  - cbn. rewrite app_nil_r, !string_app_nil_r.
    split; [exact Hatt1|]. rewrite Hacts1. split.
    + intros Hin. case_decide as Hbd; [by apply elem_of_nil in Hin|].
      apply elem_of_cons in Hin as [Hin|Hin]; [done|].
      case_bool_decide; [done|by apply elem_of_nil in Hin].
    + intros Hsz Hbd. rewrite decide_False by done.
      apply elem_of_cons. right. rewrite bool_decide_eq_true_2 by done.
      apply elem_of_cons. by left.
  - set (rest := Receiver.concat (d' :: ds')) in *.
    assert (Hw1 : Qt.size (w +:+ b0 +:+ d) = Qt.size w + Qt.size b0 + Qt.size d).
    { rewrite !size_app. lia. }
    destruct (IH (w +:+ b0 +:+ d) EmptyString r1 Hatt1) as (Hatt2 & Hd1 & Hd2).
    { change (Qt.size EmptyString) with 0. lia. }
    { done. }
    change (Receiver.Data <$> d' :: ds') with (Receiver.Data <$> (d' :: ds')) in *.
    destruct (Receiver.payloadRun env s (Receiver.Data <$> (d' :: ds')) r1) as [r2 a2].
    cbn [fst snd] in *.
    change (EmptyString +:+ rest) with rest in *.
    assert (Heq : (w +:+ b0 +:+ d) +:+ rest = w +:+ b0 +:+ d +:+ rest).
    { by rewrite !string_app_assoc. }
    rewrite Heq in *.
    split; [exact Hatt2|]. split.
    + intros Hin. apply elem_of_app in Hin as [Hin|Hin].
      * rewrite Hacts1 in Hin. case_decide as Hbd; [by apply elem_of_nil in Hin|].
        apply elem_of_cons in Hin as [Hin|Hin]; [done|].
        case_bool_decide as Hsz; [|by apply elem_of_nil in Hin].
        split; [rewrite !size_app in *; pose proof (size_nonneg rest); lia|].
        intros Hall. apply Hbd. rewrite <- string_app_assoc in Hall.
        by apply string_app_empty in Hall as [? _].
      * destruct (Hd1 Hin) as [Hsz Hrest]. split; [done|].
        intros Hall. apply Hrest. rewrite <- string_app_assoc in Hall.
        by apply string_app_empty in Hall as [_ ?].
    + intros Hsz Hbd. apply elem_of_app.
      destruct (decide (rest = EmptyString)) as [Hr|Hr].
      * left. rewrite Hr, !string_app_nil_r in *. rewrite Hacts1, decide_False by done.
        apply elem_of_cons. right. rewrite bool_decide_eq_true_2 by done.
        apply elem_of_cons. by left.
      * right. by apply Hd2.
Qed.

(** X11. Payload with a handle attached is written verbatim and counted
    byte for byte: when the caller attaches an open, writable file to a
    socket whose entry has received nothing, and data then arrives in any
    number of pieces (fewer than 2^63 bytes in all), the file holds exactly
    what was still buffered on the socket followed by the pieces in order,
    [totalReceived] is the length of that, nothing stays buffered, and the
    Receiver has asked for the disconnect exactly when something was
    written and the declared size is reached. *)
Theorem receiver_payload_is_written_verbatim (env : Receiver.Env) (s f : positive)
    (info : Receiver.FileDefinition) (b0 : string) (ds : list string)
    (r : Receiver.Receiver) :
  Receiver.pendingFiles r !! s = Some info ->
  Receiver.file info = None ->
  Receiver.totalReceived info = 0 ->
  Receiver.buffers r !! s = Some b0 ->
  Qt.size b0 + Qt.size (Receiver.concat ds) < 2 ^ 63 ->
  ds ≠ [] ->
  let '(r', acts) :=
    Receiver.payloadRun env s (Receiver.Attach f :: (Receiver.Data <$> ds)) r in
  let all := b0 +:+ Receiver.concat ds in
  Receiver.written <$> Receiver.files r' !! f = Some all
  /\ Receiver.pendingFiles r' !! s
     = Some {| Receiver.file := Some f; Receiver.name := Receiver.name info;
               Receiver.size := Receiver.size info;
               Receiver.totalReceived := Qt.size all |}
  /\ Receiver.buffers r' !! s = Some EmptyString
  /\ (Receiver.disconnectFromHost s ∈ acts
      <-> Receiver.size info <= Qt.size all /\ all ≠ EmptyString).
Proof.
  intros Hpend Hfile Htot Hbuf Hlt Hne.
  cbn [Receiver.payloadRun Receiver.payloadStep].
  rewrite (attach_state s f r info Hpend Hfile).
  set (r1 := Receiver.Build_Receiver _ _ _).
  assert (Hatt : Receiver.attached s f (Receiver.name info) (Receiver.size info)
                   EmptyString b0 r1).
  { unfold Receiver.attached. subst r1. cbn. rewrite !lookup_insert_eq, Htot. done. }
  destruct (attached_run env s f (Receiver.name info) (Receiver.size info) ds
              EmptyString b0 r1 Hatt) as (Hatt2 & Hd1 & Hd2).
  { change (Qt.size EmptyString) with 0. lia. }
  { done. }
  destruct (Receiver.payloadRun env s (Receiver.Data <$> ds) r1) as [r2 a2].
  cbn [fst snd app] in *.
  change (EmptyString +:+ b0 +:+ Receiver.concat ds) with (b0 +:+ Receiver.concat ds) in *.
  destruct Hatt2 as (Hp2 & Hf2 & Hb2).
  split; [by rewrite Hf2|]. split; [exact Hp2|]. split; [exact Hb2|].
  split.
  - intros Hin. by apply Hd1.
  - intros [Hsz Hall]. by apply Hd2.
Qed.

Lemma receiver_payload_is_written_verbatim_witness :
  let r := (Receiver.receive Fixtures.receiverEnv 1 "a.txt|4
" (Receiver.onNewConnection 1 Receiver.new)).1 in
  let res := Receiver.payloadRun Fixtures.receiverEnv 1
               (Receiver.Attach 7 :: (Receiver.Data <$> ["AB"; "CD"])) r in
  Receiver.written <$> Receiver.files res.1 !! 7%positive = Some "ABCD"
  /\ Receiver.disconnectFromHost 1 ∈ res.2.
Proof.
  intros r res.
  pose proof (receiver_payload_is_written_verbatim Fixtures.receiverEnv 1 7
                {| Receiver.file := None; Receiver.name := "a.txt"; Receiver.size := 4;
                   Receiver.totalReceived := 0 |} "" ["AB"; "CD"] r
                ltac:(vm_compute; reflexivity) ltac:(reflexivity) ltac:(reflexivity)
                ltac:(vm_compute; reflexivity) ltac:(vm_compute; reflexivity)
                ltac:(discriminate)) as H.
  subst res. destruct (Receiver.payloadRun _ _ _ r) as [r' acts].
  destruct H as (Hw & _ & _ & Hd).
  split; [exact Hw|]. apply Hd. split; [vm_compute; discriminate|discriminate].
Defined.

(** X12. A write error on the attached file: the bytes that were read are
    neither written nor counted, the Receiver signals CANCELLED for the
    file and asks for the disconnect, and the entry stays until the socket
    is disconnected. The disconnect then reports once more by the byte
    count: CANCELLED again when fewer bytes than declared were counted,
    received and FINISHED otherwise. *)
Theorem receiver_write_error (env : Receiver.Env) (s f : positive)
    (info : Receiver.FileDefinition) (q : Receiver.QFile) (b0 d : string)
    (r : Receiver.Receiver) :
  Receiver.pendingFiles r !! s = Some info ->
  Receiver.file info = Some f ->
  Receiver.files r !! f = Some q ->
  Receiver.isOpen q = true -> Receiver.writeFails q = true ->
  Receiver.buffers r !! s = Some b0 ->
  b0 +:+ d ≠ EmptyString ->
  let '(r', acts) := Receiver.receive env s d r in
  acts = [Receiver.transferStatusUpdated (Receiver.name info) CANCELLED;
          Receiver.disconnectFromHost s]
  /\ Receiver.pendingFiles r' = Receiver.pendingFiles r
  /\ Receiver.files r' = Receiver.files r
  /\ Receiver.buffers r' !! s = Some EmptyString
  /\ (Receiver.onDisconnected s r').2
     = (if bool_decide (Receiver.totalReceived info < Receiver.size info)
        then [Receiver.transferStatusUpdated (Receiver.name info) CANCELLED]
        else [Receiver.fileReceivedSuccessfully (Qt.fileName (Receiver.name info));
              Receiver.transferStatusUpdated (Receiver.name info) FINISHED])
       ++ [Receiver.deleteLater s].
Proof.
  intros Hpend Hfile Hq Hopen Hfail Hbuf Hne.
  unfold Receiver.receive. rewrite Hbuf. unfold Receiver.onReadyRead.
  cbn [Receiver.setBuffer Receiver.buffers Receiver.pendingFiles].
  rewrite lookup_insert_eq, Hpend. unfold Receiver.readPayload, Receiver.setBuffer.
  cbn [Receiver.files Receiver.pendingFiles Receiver.buffers].
  rewrite Hfile. cbn [mbind option_bind]. rewrite Hq.
  cbn [fmap option_fmap option_map]. rewrite Hopen, Hfail. cbn [negb].
  destruct (String.eqb_spec (b0 +:+ d) EmptyString) as [|_]; [done|].
  split; [done|]. split; [done|]. split; [done|]. split; [cbn; apply lookup_insert_eq|].
  unfold Receiver.onDisconnected. cbn. rewrite lookup_insert_eq, Hpend. reflexivity.
Qed.

Lemma receiver_write_error_witness :
  let r0 := (Receiver.receive Fixtures.receiverEnv 1 "a.txt|4
" (Receiver.onNewConnection 1 Receiver.new)).1 in
  let r := Receiver.setFile (Some 1%positive) (Some 7%positive)
             {| Receiver.pendingFiles := Receiver.pendingFiles r0;
                Receiver.buffers := Receiver.buffers r0;
                Receiver.files := {[7%positive := {| Receiver.isOpen := true;
                                                     Receiver.writeFails := true;
                                                     Receiver.written := "" |}]} |} in
  (Receiver.receive Fixtures.receiverEnv 1 "AB" r).2
  = [Receiver.transferStatusUpdated "a.txt" CANCELLED; Receiver.disconnectFromHost 1].
Proof.
  intros r0 r.
  pose proof (receiver_write_error Fixtures.receiverEnv 1 7
                {| Receiver.file := Some 7%positive; Receiver.name := "a.txt";
                   Receiver.size := 4; Receiver.totalReceived := 0 |}
                {| Receiver.isOpen := true; Receiver.writeFails := true;
                   Receiver.written := "" |} "" "AB" r
                ltac:(vm_compute; reflexivity) ltac:(reflexivity)
                ltac:(vm_compute; reflexivity) ltac:(reflexivity) ltac:(reflexivity)
                ltac:(vm_compute; reflexivity) ltac:(discriminate)) as H.
  destruct (Receiver.receive Fixtures.receiverEnv 1 "AB" r) as [r' acts].
  destruct H as (Hacts & _). exact Hacts.
Defined.

(** X13. [setFile] never creates and never removes a pending entry. On a
    socket that has one it replaces the handle and leaves name, size and
    byte count alone, destroying the handle that was attached before; on a
    null socket or a socket without entry it destroys the handle it was
    given and changes nothing else. *)
Theorem setFile_keeps_the_entries (s : option positive) (f : positive)
    (r : Receiver.Receiver) :
  let r' := Receiver.setFile s (Some f) r in
  (forall s0, is_Some (Receiver.pendingFiles r' !! s0)
              <-> is_Some (Receiver.pendingFiles r !! s0))
  /\ Receiver.buffers r' = Receiver.buffers r
  /\ (forall s0 info,
        s = Some s0 -> Receiver.pendingFiles r !! s0 = Some info ->
        Receiver.pendingFiles r' !! s0
        = Some {| Receiver.file := Some f; Receiver.name := Receiver.name info;
                  Receiver.size := Receiver.size info;
                  Receiver.totalReceived := Receiver.totalReceived info |}
        /\ (forall s1, s1 ≠ s0 ->
              Receiver.pendingFiles r' !! s1 = Receiver.pendingFiles r !! s1)
        /\ (forall old, Receiver.file info = Some old -> Receiver.files r' !! old = None)
        /\ (Receiver.file info ≠ Some f -> Receiver.files r' !! f = Receiver.files r !! f))
  /\ ((forall s0, s = Some s0 -> Receiver.pendingFiles r !! s0 = None) ->
      Receiver.pendingFiles r' = Receiver.pendingFiles r
      /\ Receiver.files r' = delete f (Receiver.files r)).
Proof.
  intros r'. subst r'. unfold Receiver.setFile.
  destruct s as [s0|].
  - destruct (Receiver.pendingFiles r !! s0) as [info|] eqn:Hpend.
    + split.
      { intros s1. cbn. destruct (decide (s1 = s0)) as [->|Hne].
        - rewrite lookup_insert_eq, Hpend. split; intros _; by eexists.
        - by rewrite lookup_insert_ne. }
      split; [done|]. split.
      { intros s1 info1 [= <-] Hp. rewrite Hpend in Hp. injection Hp as <-. cbn.
        split; [apply lookup_insert_eq|].
        split; [intros s1 Hne; by rewrite lookup_insert_ne|].
        split.
        - intros old Hold. rewrite Hold. apply lookup_delete_eq.
        - intros Hnf. destruct (Receiver.file info) as [old|]; [|done].
          apply lookup_delete_ne. congruence. }
      intros Hnone. specialize (Hnone s0 eq_refl). congruence.
    + split; [done|]. split; [done|]. split.
      { intros s1 info1 [= <-] Hp. congruence. }
      intros _. done.
  - split; [done|]. split; [done|]. split; [intros s0 info Hs; discriminate|].
    intros _. done.
Qed.

(** X14. A first line that starts with the download-request tag is never
    an offer: no pending entry is created and no request is signalled. With
    at least four fields, and the second naming a file of the shared
    folder, one Sender is started with that file towards the address of the
    requesting socket and the port read from the fourth field (0 when it is
    not a port); in every case the socket is disconnected. *)
Theorem download_request_is_served (env : Receiver.Env) (s : positive)
    (r : Receiver.Receiver) (buf : string) :
  Receiver.buffers r !! s = Some buf ->
  Receiver.pendingFiles r !! s = None ->
  let line := Receiver.firstLine buf in
  Receiver.isDownloadRequest line = true ->
  let '(r', acts) := Receiver.onReadyRead env s r in
  Receiver.pendingFiles r' = Receiver.pendingFiles r
  /\ Receiver.files r' = Receiver.files r
  /\ acts = match Qt.split "|" line with
            | _ :: relativePath :: _ :: clientPort :: _ =>
                match Receiver.sharedFile env relativePath with
                | Some fullPath =>
                    [Receiver.sendSharedFile fullPath (Receiver.peerAddress env s)
                       (Qt.toUShort clientPort)]
                | None => []
                end
            | _ => []
            end ++ [Receiver.disconnectFromHost s].
Proof.
  intros Hbuf Hpend line Hdl.
  unfold Receiver.onReadyRead. rewrite Hbuf, Hpend. unfold Receiver.readMetadata.
  subst line. unfold Receiver.firstLine in *.
  destruct (Qt.readLine buf) as [raw rest]. cbn [fst] in *.
  set (line := Qt.trimmed raw) in *.
  unfold Receiver.isDownloadRequest, Qt.startsWith in Hdl.
  assert (Hshape : line ≠ EmptyString /\ Qt.contains "|" line = true).
  { destruct line as [|c0 l0]; [done|]. split; [done|].
    revert Hdl. generalize (String c0 l0). intros l Hp.
    assert (Hgen : forall p l', String.prefix p l' = true ->
                     Qt.contains "|" p = true -> Qt.contains "|" l' = true).
    { clear. induction p as [|x p IH]; intros [|y l'] Hp Hc; try done.
      cbn [String.prefix] in Hp. destruct (ascii_dec x y) as [->|]; [|done].
      cbn in *. destruct (Ascii.eqb y "|"); [done|]. by apply IH. }
    by apply (Hgen _ _ Hp). }
  destruct Hshape as [Hne Hpipe].
  destruct (String.eqb_spec line EmptyString) as [|_]; [done|].
  rewrite Hpipe. cbn [negb orb]. unfold Qt.startsWith. rewrite Hdl.
  destruct (Qt.split "|" line) as [|p0 [|p1 [|p2 [|p3 ps]]]]; cbn [fst snd];
    (split; [done|split; [done|reflexivity]]).
Qed.

Lemma download_request_is_served_witness :
  let env := {| Receiver.sharedFile := λ p, if String.eqb p "doc.pdf"
                                            then Some "/srv/shared/doc.pdf" else None;
                Receiver.peerAddress := λ _, "192.168.1.20";
                Receiver.percentage := λ t sz, 0 |} in
  let r := Receiver.setBuffer 1 "DOWNLOAD_REQUEST|doc.pdf|doc.pdf|5556"
             (Receiver.onNewConnection 1 Receiver.new) in
  (Receiver.onReadyRead env 1 r).2
  = [Receiver.sendSharedFile "/srv/shared/doc.pdf" "192.168.1.20" 5556;
     Receiver.disconnectFromHost 1].
Proof.
  intros env r.
  pose proof (download_request_is_served env 1 r "DOWNLOAD_REQUEST|doc.pdf|doc.pdf|5556"
                ltac:(vm_compute; reflexivity) ltac:(vm_compute; reflexivity)
                ltac:(vm_compute; reflexivity)) as H.
  destruct (Receiver.onReadyRead env 1 r) as [r' acts].
  destruct H as (_ & _ & Hacts). rewrite Hacts. vm_compute. reflexivity.
Defined.

(** X15. [startServer] reports failure only when a port other than 0 was
    asked for and neither that port nor any free port could be bound. With
    the default argument 0 it always returns true: when the configured port
    cannot be bound nothing else is tried, the server does not listen, and
    the configured port is overwritten with 0. Whenever the server does
    listen, the configured port becomes the port it is bound to. *)
Theorem startServer_outcomes (listen : Z -> option Z) (configPort port : Z) :
  let '(ok, configPort', serverPort) := Receiver.startServer listen configPort port in
  (ok = false <-> port ≠ 0 /\ listen port = None /\ listen 0 = None)
  /\ (ok = false -> configPort' = configPort)
  /\ (ok = true -> configPort' = serverPort)
  /\ (port = 0 -> ok = true)
  /\ (port = 0 -> listen (configPort mod 2 ^ 16) = None -> configPort' = 0 /\ serverPort = 0)
  /\ (forall bound, listen (if bool_decide (port = 0) then configPort mod 2 ^ 16 else port)
                    = Some bound -> serverPort = bound).
Proof.
  unfold Receiver.startServer.
  destruct (decide (port = 0)) as [->|Hne].
  - rewrite bool_decide_eq_true_2 by done.
    rewrite (bool_decide_eq_false_2 (0 ≠ 0)) by (intros H; by apply H).
    destruct (listen (configPort mod 2 ^ 16)) as [bound|];
      (repeat split; try done; try tauto; try (intros; congruence)).
    all: intros (H & _); by destruct H.
  - rewrite bool_decide_eq_false_2 by done.
    rewrite (bool_decide_eq_true_2 (port ≠ 0)) by done.
    destruct (listen port) as [bound|] eqn:Hl.
    + repeat split; try done; try tauto; try (intros; congruence).
      intros (_ & H & _); discriminate.
    + destruct (listen 0) as [bound0|] eqn:Hl0.
      * repeat split; try done; try tauto; try (intros; congruence).
        intros (_ & _ & H); discriminate.
      * repeat split; try done; try tauto; try (intros; congruence).
Qed.

Lemma startServer_outcomes_witness :
  let listen := λ p : Z, if bool_decide (p = 5555) then None else Some p in
  Receiver.startServer listen 5555 0 = (true, 0, 0).
Proof.
  intros listen.
  pose proof (startServer_outcomes listen 5555 0) as H.
  destruct (Receiver.startServer listen 5555 0) as [[ok cfg] sp].
  destruct H as (_ & _ & _ & Hok & Hzero & _).
  rewrite (Hok eq_refl).
  destruct (Hzero eq_refl ltac:(vm_compute; reflexivity)) as [-> ->].
  reflexivity.
Defined.

Lemma setFile_keeps_the_entries_witness :
  let info := {| Receiver.file := Some 3%positive; Receiver.name := "a.txt";
                 Receiver.size := 4; Receiver.totalReceived := 0 |} in
  let r := {| Receiver.pendingFiles := {[1%positive := info]};
              Receiver.buffers := {[1%positive := EmptyString]};
              Receiver.files := {[3%positive := {| Receiver.isOpen := true;
                                                   Receiver.writeFails := false;
                                                   Receiver.written := EmptyString |}]} |} in
  Receiver.files (Receiver.setFile (Some 1%positive) (Some 7%positive) r) !! 3%positive = None.
Proof.
  intros info r.
  pose proof (setFile_keeps_the_entries (Some 1%positive) 7 r) as H.
  cbv zeta in H. destruct H as (_ & _ & H & _).
  destruct (H 1%positive info eq_refl ltac:(vm_compute; reflexivity)) as (_ & _ & Hold & _).
  exact (Hold 3%positive eq_refl).
Defined.

(** X16. The older Receiver reads payload whether or not a file is
    attached. Bytes that arrive on an offer the user has not answered yet
    are taken from the socket and counted but written nowhere, so when they
    reach the declared size the disconnect reports the file as received and
    FINISHED although no byte of it was stored. *)
Theorem legacy_counts_bytes_it_drops (percentage : Z -> Z -> Z) (s : positive)
    (info : LegacyReceiver.FileDefintion) (b0 d : string) (r : LegacyReceiver.Receiver) :
  LegacyReceiver.pendingFiles r !! s = Some info ->
  LegacyReceiver.file info = None ->
  LegacyReceiver.totalRecieved info = 0 ->
  LegacyReceiver.buffers r !! s = Some b0 ->
  LegacyReceiver.size info <= Qt.size (b0 +:+ d) < 2 ^ 63 ->
  exists r',
    LegacyReceiver.receive percentage s d r
    = Some (r', [Receiver.transferProgressUpdated (LegacyReceiver.name info)
                   (percentage (Qt.size (b0 +:+ d)) (LegacyReceiver.size info))])
    /\ LegacyReceiver.files r' = LegacyReceiver.files r
    /\ LegacyReceiver.buffers r' !! s = Some EmptyString
    /\ (LegacyReceiver.onDisconnected s r').2
       = [Receiver.fileReceivedSuccessfully (Qt.fileName (LegacyReceiver.name info));
          Receiver.transferStatusUpdated (LegacyReceiver.name info) FINISHED;
          Receiver.deleteLater s].
Proof.
  intros Hpend Hfile Htot Hbuf Hsize.
  unfold LegacyReceiver.receive. rewrite Hbuf. unfold LegacyReceiver.onReadyRead.
  unfold LegacyReceiver.setBuffer.
  cbn [LegacyReceiver.buffers LegacyReceiver.pendingFiles LegacyReceiver.files].
  rewrite lookup_insert_eq, Hpend, Hfile, Htot, Z.add_0_l.
  pose proof (size_nonneg (b0 +:+ d)) as Hnn.
  rewrite Qt_wrap64_id by lia.
  eexists. split; [reflexivity|].
  cbn [LegacyReceiver.buffers LegacyReceiver.pendingFiles LegacyReceiver.files].
  split; [done|]. split; [apply lookup_insert_eq|].
  unfold LegacyReceiver.onDisconnected.
  cbn [LegacyReceiver.buffers LegacyReceiver.pendingFiles LegacyReceiver.files].
  rewrite !lookup_insert_eq.
  cbn [LegacyReceiver.totalRecieved LegacyReceiver.size LegacyReceiver.name
       LegacyReceiver.file snd].
  rewrite bool_decide_eq_false_2 by lia. reflexivity.
Qed.

Lemma legacy_counts_bytes_it_drops_witness :
  let r := {| LegacyReceiver.pendingFiles :=
                {[1%positive := {| LegacyReceiver.file := None;
                                   LegacyReceiver.name := "a.txt";
                                   LegacyReceiver.size := 4;
                                   LegacyReceiver.totalRecieved := 0 |}]};
              LegacyReceiver.buffers := {[1%positive := EmptyString]};
              LegacyReceiver.files := ∅ |} in
  exists r',
    LegacyReceiver.receive (Receiver.percentage Fixtures.receiverEnv) 1 "ABCD" r
    = Some (r', [Receiver.transferProgressUpdated "a.txt"
                   (Receiver.percentage Fixtures.receiverEnv 4 4)])
    /\ (LegacyReceiver.onDisconnected 1 r').2
       = [Receiver.fileReceivedSuccessfully "a.txt";
          Receiver.transferStatusUpdated "a.txt" FINISHED;
          Receiver.deleteLater 1].
Proof.
  intros r.
  destruct (legacy_counts_bytes_it_drops (Receiver.percentage Fixtures.receiverEnv) 1
              {| LegacyReceiver.file := None; LegacyReceiver.name := "a.txt";
                 LegacyReceiver.size := 4; LegacyReceiver.totalRecieved := 0 |}
              "" "ABCD" r
              ltac:(vm_compute; reflexivity) ltac:(reflexivity) ltac:(reflexivity)
              ltac:(vm_compute; reflexivity) ltac:(vm_compute; split; [discriminate|reflexivity]))
    as (r' & Hrecv & _ & _ & Hdisc).
  exists r'. split; [exact Hrecv|exact Hdisc].
Defined.

(** ** Inbound sessions of the manager *)

Lemma offer_effect (now : Z) (n sz : string) (s : positive)
    (m : FileTransferManager.Manager) :
  FileTransferManager.onReceiverFileTransferRequested now n sz s m
  = ({| FileTransferManager.sessions :=
          <[FileTransferManager.nextSessionId m :=
              {| FileTransferManager.id := FileTransferManager.nextSessionId m;
                 FileTransferManager.fileName := n;
                 FileTransferManager.recipientIP := "Incoming";
                 FileTransferManager.status := WAITING;
                 FileTransferManager.progress := 0;
                 FileTransferManager.sender := None |}]> (FileTransferManager.sessions m);
        FileTransferManager.senderToSession := FileTransferManager.senderToSession m;
        FileTransferManager.receivedFileToSession :=
          <[n := FileTransferManager.nextSessionId m]>
            (FileTransferManager.receivedFileToSession m);
        FileTransferManager.batchTimer := Some (now + 200);
        FileTransferManager.pendingBatchFiles :=
          <[n := Qt.toLongLong sz]> (FileTransferManager.pendingBatchFiles m);
        FileTransferManager.pendingBatchSockets :=
          <[n := s]> (FileTransferManager.pendingBatchSockets m);
        FileTransferManager.nextSessionId :=
          Qt.wrap32 (FileTransferManager.nextSessionId m + 1);
        FileTransferManager.senders := FileTransferManager.senders m;
        FileTransferManager.nextSender := FileTransferManager.nextSender m;
        FileTransferManager.wired := FileTransferManager.wired m;
        FileTransferManager.cleanups := FileTransferManager.cleanups m |},
     [FileTransferManager.transferSessionCreated (FileTransferManager.nextSessionId m)
        n "Incoming";
      FileTransferManager.transferStatusChanged (FileTransferManager.nextSessionId m)
        WAITING]).
Proof.
  unfold FileTransferManager.onReceiverFileTransferRequested,
    FileTransferManager.createTransferSession, FileTransferManager.updateSessionStatus,
    FileTransferManager.setSessions.
  cbn [FileTransferManager.sessions FileTransferManager.senderToSession
       FileTransferManager.receivedFileToSession FileTransferManager.batchTimer
       FileTransferManager.pendingBatchFiles FileTransferManager.pendingBatchSockets
       FileTransferManager.nextSessionId FileTransferManager.senders
       FileTransferManager.nextSender FileTransferManager.wired
       FileTransferManager.cleanups].
  rewrite lookup_insert_eq.
  cbn [FileTransferManager.sessions FileTransferManager.senderToSession
       FileTransferManager.receivedFileToSession FileTransferManager.batchTimer
       FileTransferManager.pendingBatchFiles FileTransferManager.pendingBatchSockets
       FileTransferManager.nextSessionId FileTransferManager.senders
       FileTransferManager.nextSender FileTransferManager.wired
       FileTransferManager.cleanups FileTransferManager.id FileTransferManager.fileName
       FileTransferManager.recipientIP FileTransferManager.progress
       FileTransferManager.sender app].
  rewrite insert_insert_eq. reflexivity.
Qed.

Lemma status_update_other (i j : Z) (st : TransferStatus)
    (m : FileTransferManager.Manager) :
  i ≠ j ->
  let '(m', acts) := FileTransferManager.updateSessionStatus j st m in
  FileTransferManager.sessions m' !! i = FileTransferManager.sessions m !! i
  /\ FileTransferManager.receivedFileToSession m'
     = FileTransferManager.receivedFileToSession m
  /\ forall st', (i, st') ∉ FileTransferManager.statusChanges acts.
Proof.
  intros Hne. unfold FileTransferManager.updateSessionStatus.
  destruct (FileTransferManager.sessions m !! j) as [sj|].
  - cbn. rewrite lookup_insert_ne by done. split; [done|]. split; [done|].
    intros st' Hin. apply list_elem_of_singleton in Hin. congruence.
  - cbn. split; [done|]. split; [done|]. intros st' Hin. by apply elem_of_nil in Hin.
Qed.

Lemma progress_update_other (i j p : Z) (m : FileTransferManager.Manager) :
  i ≠ j ->
  let '(m', acts) := FileTransferManager.updateSessionProgress j p m in
  FileTransferManager.sessions m' !! i = FileTransferManager.sessions m !! i
  /\ FileTransferManager.receivedFileToSession m'
     = FileTransferManager.receivedFileToSession m
  /\ forall st', (i, st') ∉ FileTransferManager.statusChanges acts.
Proof.
  intros Hne. unfold FileTransferManager.updateSessionProgress.
  destruct (FileTransferManager.sessions m !! j) as [sj|].
  - cbn. rewrite lookup_insert_ne by done. split; [done|]. split; [done|].
    intros st' Hin. by apply elem_of_nil in Hin.
  - cbn. split; [done|]. split; [done|]. intros st' Hin. by apply elem_of_nil in Hin.
Qed.

Lemma report_keeps_untracked (now : Z) (a : Receiver.action) (i : Z)
    (m : FileTransferManager.Manager) :
  FileTransferManager.isOffer a = false ->
  FileTransferManager.untracked i m ->
  let '(m', acts) := FileTransferManager.onReceiverAction now a m in
  FileTransferManager.untracked i m'
  /\ FileTransferManager.sessions m' !! i = FileTransferManager.sessions m !! i
  /\ forall st, (i, st) ∉ FileTransferManager.statusChanges acts.
Proof.
  intros Hno Hun.
  assert (Hnil : forall st, (i, st) ∉ FileTransferManager.statusChanges []).
  { intros st Hin. by apply elem_of_nil in Hin. }
  destruct a as [n sz s|n|n p|n st0|s|s|pth ip prt]; try discriminate;
    cbn [FileTransferManager.onReceiverAction]; try (split; [done|split; [done|exact Hnil]]).
  - unfold FileTransferManager.onReceiverFileReceived.
    destruct (FileTransferManager.receivedFileToSession m !! n) as [j|] eqn:Hj;
      [|split; [done|split; [done|exact Hnil]]].
    assert (Hij : i ≠ j) by (intros ->; by apply (Hun n)).
    pose proof (status_update_other i j FINISHED m Hij) as H.
    destruct (FileTransferManager.updateSessionStatus j FINISHED m) as [m1 a1].
    destruct H as (Hs & Hr & Hc). cbn [FileTransferManager.sessions].
    split; [|split; [done|done]].
    intros n'. cbn [FileTransferManager.receivedFileToSession]. rewrite Hr.
    destruct (decide (n' = n)) as [->|Hn].
    + by rewrite lookup_delete_eq.
    + rewrite lookup_delete_ne by done. apply Hun.
  - unfold FileTransferManager.onReceiverProgressUpdated.
    destruct (FileTransferManager.receivedFileToSession m !! n) as [j|] eqn:Hj;
      [|split; [done|split; [done|exact Hnil]]].
    assert (Hij : i ≠ j) by (intros ->; by apply (Hun n)).
    pose proof (progress_update_other i j p m Hij) as H.
    destruct (FileTransferManager.updateSessionProgress j p m) as [m1 a1].
    destruct H as (Hs & Hr & Hc).
    split; [|split; [done|done]]. intros n'. rewrite Hr. apply Hun.
  - unfold FileTransferManager.onReceiverStatusUpdated.
    destruct (FileTransferManager.receivedFileToSession m !! n) as [j|] eqn:Hj;
      [|split; [done|split; [done|exact Hnil]]].
    assert (Hij : i ≠ j) by (intros ->; by apply (Hun n)).
    pose proof (status_update_other i j st0 m Hij) as H.
    destruct (FileTransferManager.updateSessionStatus j st0 m) as [m1 a1].
    destruct H as (Hs & Hr & Hc).
    split; [|split; [done|done]]. intros n'. rewrite Hr. apply Hun.
Qed.

Lemma reports_keep_untracked (now : Z) (reports : list Receiver.action) (i : Z) :
  forallb (λ a, negb (FileTransferManager.isOffer a)) reports = true ->
  forall m, FileTransferManager.untracked i m ->
  let '(m', acts) := FileTransferManager.onReceiverActions now reports m in
  FileTransferManager.untracked i m'
  /\ FileTransferManager.sessions m' !! i = FileTransferManager.sessions m !! i
  /\ forall st, (i, st) ∉ FileTransferManager.statusChanges acts.
Proof.
  induction reports as [|a reports IH]; intros Hall m Hun.
  { cbn. split; [done|]. split; [done|]. intros st Hin. by apply elem_of_nil in Hin. }
  cbn [forallb] in Hall. apply andb_prop in Hall as [Ha Hall].
  apply negb_true_iff in Ha.
  cbn [FileTransferManager.onReceiverActions].
  pose proof (report_keeps_untracked now a i m Ha Hun) as H1.
  destruct (FileTransferManager.onReceiverAction now a m) as [m1 a1].
  destruct H1 as (Hun1 & Hs1 & Hc1).
  specialize (IH Hall m1 Hun1).
  destruct (FileTransferManager.onReceiverActions now reports m1) as [m2 a2].
  destruct IH as (Hun2 & Hs2 & Hc2).
  split; [done|]. split; [congruence|].
  intros st. rewrite statusChanges_app, elem_of_app. intros [H|H].
  - by apply (Hc1 st).
  - by apply (Hc2 st).
Qed.

(** X17. Two offers under one file name: each gets a session of its own,
    but the name is tracked under the second session only, and the batch
    holds one size and one socket for the name, those of the second offer.
    Nothing the Receiver reports afterwards reaches the first session: it
    stays WAITING at progress 0 and no status change is ever signalled for
    it. *)
Theorem same_name_offer_orphans_the_first (now1 now2 now3 : Z) (n sz1 sz2 : string)
    (s1 s2 : positive) (reports : list Receiver.action)
    (m : FileTransferManager.Manager) :
  - 2 ^ 31 <= FileTransferManager.nextSessionId m < 2 ^ 31 - 1 ->
  FileTransferManager.untracked (FileTransferManager.nextSessionId m) m ->
  forallb (λ a, negb (FileTransferManager.isOffer a)) reports = true ->
  let i := FileTransferManager.nextSessionId m in
  let '(m1, a1) := FileTransferManager.onReceiverFileTransferRequested now1 n sz1 s1 m in
  let '(m2, a2) := FileTransferManager.onReceiverFileTransferRequested now2 n sz2 s2 m1 in
  let '(m3, a3) := FileTransferManager.onReceiverActions now3 reports m2 in
  FileTransferManager.sessionsCreated (a1 ++ a2)
  = [(i, n, "Incoming"); (i + 1, n, "Incoming")]
  /\ FileTransferManager.receivedFileToSession m2 !! n = Some (i + 1)
  /\ FileTransferManager.pendingBatchFiles m2 !! n = Some (Qt.toLongLong sz2)
  /\ FileTransferManager.pendingBatchSockets m2 !! n = Some s2
  /\ FileTransferManager.statusOf i m3 = Some WAITING
  /\ FileTransferManager.progressOf i m3 = Some 0
  /\ forall st, (i, st) ∉ FileTransferManager.statusChanges a3.
Proof.
  intros Hrange Hun Hall i.
  rewrite offer_effect.
  rewrite offer_effect.
  cbn [FileTransferManager.sessions FileTransferManager.senderToSession
       FileTransferManager.receivedFileToSession FileTransferManager.batchTimer
       FileTransferManager.pendingBatchFiles FileTransferManager.pendingBatchSockets
       FileTransferManager.nextSessionId FileTransferManager.senders
       FileTransferManager.nextSender FileTransferManager.wired
       FileTransferManager.cleanups].
  fold i. rewrite (Qt_wrap32_id (i + 1)) by (subst i; lia).
  match goal with
  | |- context [FileTransferManager.onReceiverActions now3 reports ?mm] => set (m2 := mm)
  end.
  assert (Hun2 : FileTransferManager.untracked i m2).
  { intros n'. subst m2. cbn [FileTransferManager.receivedFileToSession].
    destruct (decide (n' = n)) as [->|Hn].
    - rewrite lookup_insert_eq. intros [= H]. lia.
    - rewrite !lookup_insert_ne by done. apply Hun. }
  pose proof (reports_keep_untracked now3 reports i Hall m2 Hun2) as H.
  destruct (FileTransferManager.onReceiverActions now3 reports m2) as [m3 a3].
  destruct H as (_ & Hs & Hc).
  assert (Hi : FileTransferManager.sessions m2 !! i
               = Some {| FileTransferManager.id := i; FileTransferManager.fileName := n;
                         FileTransferManager.recipientIP := "Incoming";
                         FileTransferManager.status := WAITING;
                         FileTransferManager.progress := 0;
                         FileTransferManager.sender := None |}).
  { subst m2. cbn [FileTransferManager.sessions].
    rewrite lookup_insert_ne by lia. apply lookup_insert_eq. }
  split; [reflexivity|].
  split; [subst m2; cbn; apply lookup_insert_eq|].
  split; [subst m2; cbn; apply lookup_insert_eq|].
  split; [subst m2; cbn; apply lookup_insert_eq|].
  unfold FileTransferManager.statusOf, FileTransferManager.progressOf.
  rewrite Hs, Hi. split; [done|]. split; [done|]. exact Hc.
Qed.

Lemma untracked_new : FileTransferManager.untracked 1 FileTransferManager.new.
Proof. intros n. unfold FileTransferManager.new. cbn. by rewrite lookup_empty. Defined.

Lemma same_name_offer_orphans_the_first_witness :
  let '(m1, a1) := FileTransferManager.onReceiverFileTransferRequested 0 "a.txt" "4" 1
                     FileTransferManager.new in
  let '(m2, a2) := FileTransferManager.onReceiverFileTransferRequested 50 "a.txt" "9" 2 m1 in
  let '(m3, a3) := FileTransferManager.onReceiverActions 300
                     [Receiver.transferProgressUpdated "a.txt" 100;
                      Receiver.fileReceivedSuccessfully "a.txt";
                      Receiver.transferStatusUpdated "a.txt" FINISHED] m2 in
  FileTransferManager.statusOf 1 m3 = Some WAITING
  /\ FileTransferManager.receivedFileToSession m2 !! "a.txt" = Some 2.
Proof.
  pose proof (same_name_offer_orphans_the_first 0 50 300 "a.txt" "4" "9" 1 2
                [Receiver.transferProgressUpdated "a.txt" 100;
                 Receiver.fileReceivedSuccessfully "a.txt";
                 Receiver.transferStatusUpdated "a.txt" FINISHED]
                FileTransferManager.new
                ltac:(vm_compute; split; [discriminate|reflexivity])
                untracked_new ltac:(reflexivity)) as H.
  cbv zeta in H.
  destruct (FileTransferManager.onReceiverFileTransferRequested 0 "a.txt" "4" 1
              FileTransferManager.new) as [m1 a1].
  destruct (FileTransferManager.onReceiverFileTransferRequested 50 "a.txt" "9" 2 m1)
    as [m2 a2].
  destruct (FileTransferManager.onReceiverActions 300 _ m2) as [m3 a3].
  destruct H as (_ & Htrack & _ & _ & Hst & _).
  split; [exact Hst|exact Htrack].
Defined.

(** X18. The end of an inbound transfer, Receiver and manager together. On
    the disconnect of a tracked offer whose name has no directory part the
    manager signals exactly one status change for its session: FINISHED
    when the byte count reached the declared size, and then the name is no
    longer tracked (the second report of the Receiver finds nothing);
    CANCELLED otherwise, and then the name stays tracked under the session,
    which is never removed. *)
Theorem inbound_disconnect_reaches_the_session (now : Z) (s : positive)
    (info : Receiver.FileDefinition) (r : Receiver.Receiver) (sid : Z)
    (session : FileTransferManager.TransferSession) (m : FileTransferManager.Manager) :
  is_Some (Receiver.buffers r !! s) ->
  Receiver.pendingFiles r !! s = Some info ->
  Qt.fileName (Receiver.name info) = Receiver.name info ->
  FileTransferManager.receivedFileToSession m !! Receiver.name info = Some sid ->
  FileTransferManager.sessions m !! sid = Some session ->
  let '(r', reports) := Receiver.onDisconnected s r in
  let '(m', acts) := FileTransferManager.onReceiverActions now reports m in
  let complete := bool_decide (Receiver.size info <= Receiver.totalReceived info) in
  Receiver.pendingFiles r' !! s = None
  /\ acts = [FileTransferManager.transferStatusChanged sid
               (if complete then FINISHED else CANCELLED)]
  /\ FileTransferManager.statusOf sid m' = Some (if complete then FINISHED else CANCELLED)
  /\ FileTransferManager.progressOf sid m' = Some (FileTransferManager.progress session)
  /\ FileTransferManager.receivedFileToSession m' !! Receiver.name info
     = (if complete then None else Some sid)
  /\ dom (FileTransferManager.sessions m') = dom (FileTransferManager.sessions m).
Proof.
  intros [b Hbuf] Hpend Hname Htrack Hsess.
  unfold Receiver.onDisconnected. rewrite Hbuf, Hpend.
  cbn [Receiver.pendingFiles]. 
  assert (Hdom : forall st,
            dom (<[sid := {| FileTransferManager.id := FileTransferManager.id session;
                             FileTransferManager.fileName :=
                               FileTransferManager.fileName session;
                             FileTransferManager.recipientIP :=
                               FileTransferManager.recipientIP session;
                             FileTransferManager.status := st;
                             FileTransferManager.progress :=
                               FileTransferManager.progress session;
                             FileTransferManager.sender :=
                               FileTransferManager.sender session |}]>
                   (FileTransferManager.sessions m))
            = dom (FileTransferManager.sessions m)).
  { intros st. rewrite dom_insert_L.
    assert (sid ∈ dom (FileTransferManager.sessions m)) by (apply elem_of_dom; by eexists).
    apply set_eq. intros x. rewrite elem_of_union, elem_of_singleton.
    split; [intros [->|]; done|by right]. }
  destruct (decide (Receiver.totalReceived info < Receiver.size info)) as [Hlt|Hge].
  - rewrite bool_decide_eq_true_2 by done.
    rewrite (bool_decide_eq_false_2 (Receiver.size info <= _)) by lia.
    cbn [app FileTransferManager.onReceiverActions FileTransferManager.onReceiverAction].
    unfold FileTransferManager.onReceiverStatusUpdated. rewrite Htrack.
    unfold FileTransferManager.updateSessionStatus. rewrite Hsess.
    unfold FileTransferManager.statusOf, FileTransferManager.progressOf,
      FileTransferManager.setSessions.
    cbn [FileTransferManager.sessions FileTransferManager.receivedFileToSession app].
    rewrite lookup_insert_eq, lookup_delete_eq.
    split; [done|]. split; [done|]. split; [done|]. split; [done|]. split; [done|].
    apply Hdom.
  - rewrite bool_decide_eq_false_2 by done.
    rewrite (bool_decide_eq_true_2 (Receiver.size info <= _)) by lia.
    cbn [app FileTransferManager.onReceiverActions FileTransferManager.onReceiverAction].
    unfold FileTransferManager.onReceiverFileReceived. rewrite Hname, Htrack.
    unfold FileTransferManager.updateSessionStatus. rewrite Hsess.
    unfold FileTransferManager.onReceiverStatusUpdated, FileTransferManager.setSessions.
    cbn [FileTransferManager.sessions FileTransferManager.receivedFileToSession].
    rewrite lookup_delete_eq.
    unfold FileTransferManager.statusOf, FileTransferManager.progressOf.
    cbn [FileTransferManager.sessions FileTransferManager.receivedFileToSession app].
    rewrite lookup_insert_eq, !lookup_delete_eq.
    split; [done|]. split; [done|]. split; [done|]. split; [done|]. split; [done|].
    apply Hdom.
Qed.

Lemma inbound_disconnect_reaches_the_session_witness :
  let r := (Receiver.receive Fixtures.receiverEnv 1 "a.txt|4
" (Receiver.onNewConnection 1 Receiver.new)).1 in
  let m := (FileTransferManager.onReceiverFileTransferRequested 0 "a.txt" "4" 1
              FileTransferManager.new).1 in
  let '(r', reports) := Receiver.onDisconnected 1 r in
  let '(m', acts) := FileTransferManager.onReceiverActions 10 reports m in
  acts = [FileTransferManager.transferStatusChanged 1 CANCELLED]
  /\ FileTransferManager.receivedFileToSession m' !! "a.txt" = Some 1.
Proof.
  intros r m.
  pose proof (inbound_disconnect_reaches_the_session 10 1
                {| Receiver.file := None; Receiver.name := "a.txt"; Receiver.size := 4;
                   Receiver.totalReceived := 0 |} r 1
                {| FileTransferManager.id := 1; FileTransferManager.fileName := "a.txt";
                   FileTransferManager.recipientIP := "Incoming";
                   FileTransferManager.status := WAITING;
                   FileTransferManager.progress := 0;
                   FileTransferManager.sender := None |} m
                ltac:(vm_compute; by eexists) ltac:(vm_compute; reflexivity)
                ltac:(vm_compute; reflexivity) ltac:(vm_compute; reflexivity)
                ltac:(vm_compute; reflexivity)) as H.
  destruct (Receiver.onDisconnected 1 r) as [r' reports].
  destruct (FileTransferManager.onReceiverActions 10 reports m) as [m' acts].
  destruct H as (_ & Hacts & _ & _ & Htrack & _).
  split; [exact Hacts|exact Htrack].
Defined.

(** ** The peer list of the discovery service *)

Import BroadcastDiscoveryService.

Lemma replaceFirst_spec (user : LANDropUser) (users : list LANDropUser) :
  let '(users', found) := replaceFirst user users in
  if found then
    exists l1 u l2, users = l1 ++ u :: l2 /\ sameUser user u = true
                    /\ Forall (λ v, sameUser user v = false) l1
                    /\ users' = l1 ++ user :: l2
  else Forall (λ v, sameUser user v = false) users /\ users' = users.
Proof.
  induction users as [|u rest IH]; [by split|].
  cbn [replaceFirst]. fold (sameUser user u).
  destruct (sameUser user u) eqn:Hu.
  { exists [], u, rest. by repeat split. }
  destruct (replaceFirst user rest) as [rest' found]. destruct found.
  - destruct IH as (l1 & v & l2 & -> & Hv & Hl1 & ->).
    exists (u :: l1), v, l2. repeat split; try done. by constructor.
  - destruct IH as [Hall ->]. split; [by constructor|done].
Qed.

(** X19. [updatePeerWithSharedFiles] is an upsert on the first match only:
    the first entry that has the user's address or host name is overwritten
    in place and every other entry is kept where it is, also later entries
    that match; without a match the user is appended. The address is stamped
    with the current time and [userListUpdated] is signalled with the new
    list in either case. *)
Theorem update_overwrites_the_first_match (env : Env) (user : LANDropUser) (sv : Service) :
  let '(sv', acts) := updatePeerWithSharedFiles env user sv in
  acts = [userListUpdated (discoveredUsers sv')]
  /\ lastSeenTimes sv' = <[ipAddress user := currentTime env]> (lastSeenTimes sv)
  /\ discovering sv' = discovering sv
  /\ ((exists l1 u l2, discoveredUsers sv = l1 ++ u :: l2 /\ sameUser user u = true
                       /\ Forall (λ v, sameUser user v = false) l1
                       /\ discoveredUsers sv' = l1 ++ user :: l2)
      \/ (Forall (λ v, sameUser user v = false) (discoveredUsers sv)
          /\ discoveredUsers sv' = discoveredUsers sv ++ [user])).
Proof.
  unfold updatePeerWithSharedFiles.
  pose proof (replaceFirst_spec user (discoveredUsers sv)) as H.
  destruct (replaceFirst user (discoveredUsers sv)) as [users found].
  cbn [discoveredUsers lastSeenTimes discovering].
  split; [done|]. split; [done|]. split; [done|].
  destruct found.
  - left. exact H.
  - right. destruct H as [Hall _]. by split.
Qed.

Lemma update_tracked (env : Env) (user : LANDropUser) (sv : Service) :
  ¬ isSelf env user -> tracked env sv ->
  let '(sv', acts) := updatePeerWithSharedFiles env user sv in
  tracked env sv'
  /\ user ∈ discoveredUsers sv'
  /\ (length (discoveredUsers sv) <= length (discoveredUsers sv')
      <= S (length (discoveredUsers sv)))%nat
  /\ discovering sv' = discovering sv.
Proof.
  intros Hself Htr.
  pose proof (Hspec := replaceFirst_spec user (discoveredUsers sv)).
  unfold updatePeerWithSharedFiles.
  destruct (replaceFirst user (discoveredUsers sv)) as [users found].
  unfold tracked in *. cbn [discoveredUsers lastSeenTimes discovering].
  assert (Hkeep : forall u,
            ¬ isSelf env u /\ is_Some (lastSeenTimes sv !! ipAddress u) ->
            ¬ isSelf env u
            /\ is_Some (<[ipAddress user := currentTime env]> (lastSeenTimes sv)
                          !! ipAddress u)).
  { intros u [Hs Hl]. split; [done|].
    destruct (decide (ipAddress u = ipAddress user)) as [->|Hne].
    - rewrite lookup_insert_eq. by eexists.
    - by rewrite lookup_insert_ne. }
  assert (Huser : ¬ isSelf env user
                  /\ is_Some (<[ipAddress user := currentTime env]> (lastSeenTimes sv)
                                !! ipAddress user)).
  { split; [done|]. rewrite lookup_insert_eq. by eexists. }
  destruct found.
  - destruct Hspec as (l1 & u & l2 & Heq & _ & _ & ->).
    rewrite Heq in Htr |- *. apply Forall_app in Htr as [H1 H2].
    apply Forall_cons in H2 as [_ H2].
    split.
    { apply Forall_app. split; [eapply Forall_impl; [exact H1|exact Hkeep]|].
      apply Forall_cons. split; [done|]. eapply Forall_impl; [exact H2|exact Hkeep]. }
    split; [apply elem_of_app; right; apply elem_of_cons; by left|].
    split; [|done]. rewrite !length_app. cbn [length]. lia.
  - split.
    { apply Forall_app. split; [eapply Forall_impl; [exact Htr|exact Hkeep]|].
      apply Forall_cons. split; [done|constructor]. }
    split; [apply elem_of_app; right; apply elem_of_cons; by left|].
    split; [|done]. rewrite length_app. cbn [length]. lia.
Qed.

Lemma isSelfMessage_false (env : Env) (u : LANDropUser) :
  isSelfMessage env (ipAddress u) (hostname u) = false -> ¬ isSelf env u.
Proof.
  unfold isSelfMessage, isSelf. intros H [Hi|Hh].
  - rewrite Hi, String.eqb_refl in H. done.
  - rewrite Hh, String.eqb_refl, orb_true_r in H. done.
Qed.

(** What one datagram does: nothing, or the update of the list with one
    user that passed the self check, after at most one answer. *)
Lemma datagram_effect (env : Env) (message sender : string) (sv : Service) :
  handleDatagram env message sender sv = (sv, [])
  \/ exists user pre,
       isSelfMessage env (ipAddress user) (hostname user) = false
       /\ handleDatagram env message sender sv
          = ((updatePeerWithSharedFiles env user sv).1,
             pre ++ (updatePeerWithSharedFiles env user sv).2).
Proof.
  unfold handleDatagram.
  destruct (Qt.startsWith message _).
  - unfold handleDiscoveryRequest.
    destruct (Qt.split "|" message) as [|p0 [|p1 [|p2 [|p3 ps]]]]; try by left.
    destruct (isSelfMessage env (cleanIP sender) p3) eqn:Hself; [by left|].
    right.
    exists {| ipAddress := cleanIP sender; hostname := p3; transferPort := Qt.toUShort p2;
              version := "1.0";
              sharedFiles := parseSharedFiles env (p0 :: p1 :: p2 :: p3 :: ps) |}.
    eexists [_]. split; [exact Hself|].
    destruct (updatePeerWithSharedFiles env _ sv) as [sv' acts]. reflexivity.
  - destruct (Qt.startsWith message _); [|by left].
    unfold handleDiscoveryResponse.
    destruct (Qt.split "|" message) as [|p0 [|p1 [|p2 [|p3 ps]]]]; try by left.
    destruct (isSelfMessage env (cleanIP sender) p3) eqn:Hself; [by left|].
    right.
    exists {| ipAddress := cleanIP sender; hostname := p3; transferPort := Qt.toUShort p2;
              version := "1.0";
              sharedFiles := parseSharedFiles env (p0 :: p1 :: p2 :: p3 :: ps) |}.
    exists []. split; [exact Hself|].
    destruct (updatePeerWithSharedFiles env _ sv) as [sv' acts]. reflexivity.
Qed.

(** X20. While the local address and host name stay what they are, the
    handlers of incoming datagrams never put the local machine into the
    peer list and never leave an entry without a time stamp, whatever the
    datagrams hold; the list never shrinks and grows by at most one entry
    per datagram, and the service keeps discovering. *)
Theorem datagrams_keep_the_list_tracked (env : Env) (pending : list (string * string))
    (sv : Service) :
  tracked env sv ->
  let '(sv', acts) := handleDiscoveryMessage env pending sv in
  tracked env sv'
  /\ (length (discoveredUsers sv) <= length (discoveredUsers sv')
      <= length (discoveredUsers sv) + length pending)%nat
  /\ discovering sv' = discovering sv.
Proof.
  unfold handleDiscoveryMessage. destruct (discovering sv) eqn:Hd.
  2: { intros Htr. split; [done|]. split; [lia|done]. }
  rewrite <- Hd. clear Hd. revert sv.
  induction pending as [|[message sender] rest IH]; intros sv Htr.
  { cbn. split; [done|]. split; [lia|done]. }
  cbn [handleDatagrams].
  assert (H1 : let '(sv1, a1) := handleDatagram env message sender sv in
               tracked env sv1
               /\ (length (discoveredUsers sv) <= length (discoveredUsers sv1)
                   <= S (length (discoveredUsers sv)))%nat
               /\ discovering sv1 = discovering sv).
  { destruct (datagram_effect env message sender sv) as [->|(user & pre & Hself & ->)].
    { split; [done|]. split; [lia|done]. }
    pose proof (update_tracked env user sv (isSelfMessage_false env user Hself) Htr) as H.
    destruct (updatePeerWithSharedFiles env user sv) as [sv1 a1].
    destruct H as (H & _ & Hlen & Hdisc). cbn [fst snd]. done. }
  destruct (handleDatagram env message sender sv) as [sv1 a1].
  destruct H1 as (Htr1 & Hlen1 & Hd1).
  specialize (IH sv1 Htr1).
  destruct (handleDatagrams env rest sv1) as [sv2 a2].
  destruct IH as (Htr2 & Hlen2 & Hd2).
  split; [done|]. split; [cbn [length]; lia|congruence].
Qed.

Lemma datagrams_keep_the_list_tracked_witness :
  let sv := {| discovering := true; myDiscoveryPort := 12346; discoveredUsers := [];
               lastSeenTimes := ∅; cachedSharedFilesJson := "[]" |} in
  tracked Fixtures.discoveryEnv
    (handleDiscoveryMessage Fixtures.discoveryEnv
       [("LANDROP_RESPONSE_V1|12346|5556|bob-laptop|[]", "192.168.1.77")] sv).1.
Proof.
  intros sv.
  pose proof (datagrams_keep_the_list_tracked Fixtures.discoveryEnv
                [("LANDROP_RESPONSE_V1|12346|5556|bob-laptop|[]", "192.168.1.77")] sv
                ltac:(constructor)) as H.
  destruct (handleDiscoveryMessage Fixtures.discoveryEnv _ sv) as [sv' acts].
  destruct H as (H & _). exact H.
Defined.

Lemma response_fields (dp cp host json : string) :
  Qt.contains "|" dp = false -> Qt.contains "|" cp = false ->
  Qt.contains "|" host = false ->
  Qt.split "|" ("LANDROP_RESPONSE_" +:+ PROTOCOL_VERSION +:+ "|" +:+ dp +:+ "|" +:+ cp
                +:+ "|" +:+ host +:+ "|" +:+ json)
  = "LANDROP_RESPONSE_V1" :: dp :: cp :: host :: Qt.split "|" json.
Proof.
  intros Hdp Hcp Hhost.
  change ("LANDROP_RESPONSE_" +:+ PROTOCOL_VERSION +:+ "|" +:+ dp +:+ "|" +:+ cp
          +:+ "|" +:+ host +:+ "|" +:+ json)
    with ("LANDROP_RESPONSE_V1"
          +:+ String "|" (dp +:+ String "|" (cp +:+ String "|" (host +:+ String "|" json)))).
  rewrite split_app by reflexivity.
  rewrite split_app by done. rewrite split_app by done. by rewrite split_app.
Qed.

Lemma response_tag (rest : string) :
  Qt.startsWith ("LANDROP_RESPONSE_" +:+ PROTOCOL_VERSION +:+ "|" +:+ rest)
    ("LANDROP_DISCOVERY_" +:+ PROTOCOL_VERSION +:+ "|") = false
  /\ Qt.startsWith ("LANDROP_RESPONSE_" +:+ PROTOCOL_VERSION +:+ "|" +:+ rest)
       ("LANDROP_RESPONSE_" +:+ PROTOCOL_VERSION +:+ "|") = true.
Proof. split; [vm_compute; reflexivity|destruct rest; vm_compute; reflexivity]. Qed.

(** X21. The answer to a discovery request, read by the peer it is sent
    to. For a host name without separator and without place marker, a
    discovery port that is not negative and a transfer port that fits 16
    bits, a discovering peer that is not the answering machine itself
    registers it under the address the datagram came from, with the
    answering machine's host name and transfer port, stamps the address, and
    signals the new list. The shared files are read from the cached JSON up
    to its first separator. *)
Theorem discovery_answer_registers_the_peer (envA envB : Env) (svA svB : Service)
    (request requester requesterIP response senderA : string) (port : Z) :
  writeDatagram response requester port
    ∈ (handleDiscoveryRequest envA request requester requesterIP svA).2 ->
  Qt.contains "|" (localHostname envA) = false ->
  Qt.contains "%" (localHostname envA) = false ->
  0 <= myDiscoveryPort svA ->
  0 <= configPort envA < 2 ^ 16 ->
  isSelfMessage envB (cleanIP senderA) (localHostname envA) = false ->
  discovering svB = true ->
  let '(svB', acts) := handleDiscoveryMessage envB [(response, senderA)] svB in
  {| ipAddress := cleanIP senderA; hostname := localHostname envA;
     transferPort := configPort envA; version := "1.0";
     sharedFiles := default [] (Qt.split "|" (cachedSharedFilesJson svA) !! 0%nat
                                ≫= fromJsonArray envB) |}
    ∈ discoveredUsers svB'
  /\ lastSeenTimes svB' !! cleanIP senderA = Some (currentTime envB)
  /\ acts = [userListUpdated (discoveredUsers svB')].
Proof.
  intros Hin Hhost _ Hdp Hcp Hself Hdisc.
  assert (Hresp : response
                  = "LANDROP_RESPONSE_" +:+ PROTOCOL_VERSION +:+ "|"
                    +:+ Qt.number (myDiscoveryPort svA) +:+ "|"
                    +:+ Qt.number (configPort envA) +:+ "|" +:+ localHostname envA
                    +:+ "|" +:+ cachedSharedFilesJson svA).
  { revert Hin. unfold handleDiscoveryRequest, getTransferPort.
    rewrite (Z.mod_small (configPort envA)) by lia.
    destruct (Qt.split "|" request) as [|p0 [|p1 [|p2 [|p3 ps]]]];
      try (intros H; by apply elem_of_nil in H).
    destruct (isSelfMessage envA requesterIP p3); [intros H; by apply elem_of_nil in H|].
    destruct (updatePeerWithSharedFiles envA _ svA) as [sv' acts] eqn:Hupd.
    unfold updatePeerWithSharedFiles in Hupd.
    destruct (replaceFirst _ (discoveredUsers svA)) as [users found].
    injection Hupd as _ <-. cbn [snd].
    intros [H|H]%elem_of_cons; [by injection H|].
    apply list_elem_of_singleton in H. discriminate. }
  subst response.
  destruct (number_nonneg (myDiscoveryPort svA) Hdp) as (Hd1 & _ & _).
  destruct (number_nonneg (configPort envA) ltac:(lia)) as (Hd2 & _ & _).
  unfold handleDiscoveryMessage. rewrite Hdisc. cbn [handleDatagrams].
  unfold handleDatagram.
  destruct (response_tag (Qt.number (myDiscoveryPort svA) +:+ "|"
                          +:+ Qt.number (configPort envA) +:+ "|" +:+ localHostname envA
                          +:+ "|" +:+ cachedSharedFilesJson svA)) as [-> ->].
  unfold handleDiscoveryResponse.
  rewrite response_fields by (try done; by apply digits_no).
  destruct (split_nonempty "|" (cachedSharedFilesJson svA)) as (json & more & ->).
  rewrite Hself, (toUShort_number _ Hcp).
  cbn [parseSharedFiles lookup list_lookup mbind option_bind].
  pose proof (Hspec := replaceFirst_spec
                {| ipAddress := cleanIP senderA; hostname := localHostname envA;
                   transferPort := configPort envA; version := "1.0";
                   sharedFiles := default [] (fromJsonArray envB json) |}
                (discoveredUsers svB)).
  unfold updatePeerWithSharedFiles.
  destruct (replaceFirst _ (discoveredUsers svB)) as [users found].
  cbn [discoveredUsers lastSeenTimes ipAddress app].
  rewrite lookup_insert_eq. split; [|by split].
  destruct found.
  - destruct Hspec as (l1 & u & l2 & _ & _ & _ & ->).
    apply elem_of_app; right; apply elem_of_cons; by left.
  - apply elem_of_app; right; apply elem_of_cons; by left.
Qed.

Lemma discovery_answer_registers_the_peer_witness :
  let svA := {| discovering := true; myDiscoveryPort := 12346; discoveredUsers := [];
                lastSeenTimes := ∅; cachedSharedFilesJson := "[]" |} in
  let envB := {| currentTime := 100200; localIP := "192.168.1.77";
                 localHostname := "bob-laptop"; configPort := 5557;
                 fromJsonArray := λ _, Some [] |} in
  let '(svB', acts) :=
    handleDiscoveryMessage envB
      [("LANDROP_RESPONSE_V1|12346|5556|my-pc|[]", "::ffff:192.168.1.2")] svA in
  {| ipAddress := "192.168.1.2"; hostname := "my-pc"; transferPort := 5556;
     version := "1.0"; sharedFiles := [] |} ∈ discoveredUsers svB'
  /\ lastSeenTimes svB' !! "192.168.1.2" = Some 100200.
Proof.
  intros svA envB.
  assert (Hsent : writeDatagram "LANDROP_RESPONSE_V1|12346|5556|my-pc|[]" "192.168.1.77" 12346
                    ∈ (handleDiscoveryRequest Fixtures.discoveryEnv
                         "LANDROP_DISCOVERY_V1|12346|5557|bob-laptop|[]"
                         "192.168.1.77" "192.168.1.77" svA).2).
  { apply elem_of_cons. left. vm_compute. reflexivity. }
  pose proof (discovery_answer_registers_the_peer Fixtures.discoveryEnv envB svA svA
                "LANDROP_DISCOVERY_V1|12346|5557|bob-laptop|[]" "192.168.1.77" "192.168.1.77"
                "LANDROP_RESPONSE_V1|12346|5556|my-pc|[]" "::ffff:192.168.1.2" 12346
                Hsent ltac:(reflexivity) ltac:(reflexivity)
                ltac:(vm_compute; discriminate)
                ltac:(vm_compute; split; [discriminate|reflexivity])
                ltac:(vm_compute; reflexivity) ltac:(reflexivity)) as H.
  destruct (handleDiscoveryMessage envB _ svA) as [svB' acts].
  destruct H as (Hin & Hseen & _). split; [exact Hin|exact Hseen].
Defined.

(** ** The settings file *)

Lemma trimLeft_length (s : string) : (String.length (Qt.trimLeft s) <= String.length s)%nat.
Proof.
  induction s as [|c s IH]; [done|]. cbn [Qt.trimLeft].
  destruct (Ascii.is_space c); cbn [String.length]; lia.
Qed.

Lemma trimLeft_fixed (c : ascii) (s : string) :
  Qt.trimLeft (String c s) = String c s -> Ascii.is_space c = false.
Proof.
  cbn [Qt.trimLeft]. destruct (Ascii.is_space c); [|done].
  intros H. pose proof (trimLeft_length s) as Hlen. rewrite H in Hlen.
  cbn [String.length] in Hlen. lia.
Qed.

Lemma trimLeft_idem (s : string) : Qt.trimLeft (Qt.trimLeft s) = Qt.trimLeft s.
Proof.
  induction s as [|c s IH]; [done|]. cbn [Qt.trimLeft].
  destruct (Ascii.is_space c) eqn:Hc; [done|]. cbn [Qt.trimLeft]. by rewrite Hc.
Qed.

Lemma trimLeft_suffix (s : string) : exists pre, s = pre +:+ Qt.trimLeft s.
Proof.
  induction s as [|c s [pre IH]]; [by exists EmptyString|]. cbn [Qt.trimLeft].
  destruct (Ascii.is_space c).
  - exists (String c pre). change (String c pre +:+ Qt.trimLeft s)
      with (String c (pre +:+ Qt.trimLeft s)). by rewrite <- IH.
  - by exists EmptyString.
Qed.

(** A trimmed byte array has no white space at either end. *)
Lemma trimmed_ends (s : string) :
  Qt.trimLeft (Qt.trimmed s) = Qt.trimmed s
  /\ Qt.trimLeft (String.rev (Qt.trimmed s)) = String.rev (Qt.trimmed s).
Proof.
  unfold Qt.trimmed. split; [|by rewrite rev_involutive, trimLeft_idem].
  set (t := Qt.trimLeft s).
  assert (Ht : Qt.trimLeft t = t) by apply trimLeft_idem.
  destruct (trimLeft_suffix (String.rev t)) as [pre Hpre].
  set (w := Qt.trimLeft (String.rev t)) in *.
  assert (Hrev : t = String.rev w +:+ String.rev pre).
  { rewrite <- rev_app_distr, <- Hpre. by rewrite rev_involutive. }
  destruct (String.rev w) as [|c r] eqn:Hw; [done|].
  change (String c r +:+ String.rev pre) with (String c (r +:+ String.rev pre)) in Hrev.
  rewrite Hrev in Ht. apply trimLeft_fixed in Ht. cbn [Qt.trimLeft]. by rewrite Ht.
Qed.

Lemma trimmed_trimmed_newline (s : string) :
  Qt.trimmed (Qt.trimmed s +:+ String "010" EmptyString) = Qt.trimmed s.
Proof.
  destruct (trimmed_ends s) as [H1 H2].
  destruct (Qt.trimmed s) as [|c r] eqn:Hs; [reflexivity|].
  by apply trimmed_clean_newline.
Qed.

Lemma settings_lines (c : Config.Config) :
  Qt.contains "010" (Qt.trimmed (Config.receivedFilesPath c)) = false ->
  0 <= Config.port c -> 0 <= Config.bufferSize c ->
  Qt.readLine (Config.settingsText c)
  = (Qt.trimmed (Config.receivedFilesPath c) +:+ String "010" EmptyString,
     Qt.number (Config.port c) +:+ String "010" EmptyString
     +:+ Qt.number (Config.bufferSize c))
  /\ Qt.readLine (Qt.number (Config.port c) +:+ String "010" EmptyString
                  +:+ Qt.number (Config.bufferSize c))
     = (Qt.number (Config.port c) +:+ String "010" EmptyString,
        Qt.number (Config.bufferSize c))
  /\ Qt.readLine (Qt.number (Config.bufferSize c))
     = (Qt.number (Config.bufferSize c), EmptyString).
Proof.
  intros Hnl Hp Hb.
  destruct (number_nonneg _ Hp) as (Hdp & _ & _).
  destruct (number_nonneg _ Hb) as (Hdb & _ & _).
  unfold Config.settingsText.
  split; [by apply readLine_app|].
  split; [apply readLine_app; by apply digits_no|].
  apply readLine_no_newline; by apply digits_no.
Qed.

Lemma app_newline_nonempty (a : string) :
  Config.isEmpty (a +:+ String "010" EmptyString) = false.
Proof. by destruct a. Qed.

Lemma read_written (c c0 : Config.Config) (d : Config.Disk) :
  Config.valid c ->
  Qt.contains "010" (Qt.trimmed (Config.receivedFilesPath c)) = false ->
  Config.files d !! Config.settingsPath c0 = Some (Config.settingsText c) ->
  Config.canRead d (Config.settingsPath c0) = true ->
  Config.readFromFile c0 d
  = ({| Config.receivedFilesPath := Qt.trimmed (Config.receivedFilesPath c);
        Config.sharedFolderPath := Config.sharedFolderPath c0;
        Config.settingsPath := Config.settingsPath c0;
        Config.port := Config.port c;
        Config.bufferSize := Config.bufferSize c |}, d).
Proof.
  intros [Hport Hbuf] Hnl Hfile Hread.
  destruct (settings_lines c Hnl ltac:(lia) ltac:(lia)) as (L1 & L2 & L3).
  destruct (number_nonneg (Config.port c) ltac:(lia)) as (Hdp & Hnp & _).
  destruct (number_nonneg (Config.bufferSize c) ltac:(lia)) as (Hdb & Hnb & _).
  unfold Config.readFromFile. rewrite Hfile, Hread, L1, L2, L3.
  rewrite !app_newline_nonempty.
  assert (Hb : Config.isEmpty (Qt.number (Config.bufferSize c)) = false).
  { unfold Config.isEmpty. by destruct (String.eqb_spec (Qt.number (Config.bufferSize c))
                                          EmptyString). }
  rewrite Hb. cbn [negb andb].
  rewrite trimmed_trimmed_newline.
  assert (Htp : Qt.trimmed (Qt.number (Config.port c) +:+ String "010" EmptyString)
                = Qt.number (Config.port c)).
  { apply trimmed_clean_newline; [done|by apply trimLeft_digits|].
    apply trimLeft_digits. by rewrite allChars_rev. }
  rewrite Htp, (trimmed_digits _ Hdb).
  rewrite !toInt_number by lia.
  rewrite !bool_decide_eq_true_2 by lia. reflexivity.
Qed.

(** X22. The settings file round trip. What [writeToFile] stores for a
    valid configuration whose trimmed download path has no line break,
    [readFromFile] reads back: the trimmed path, the port and the buffer
    size, with the file left as it is. *)
Theorem settings_round_trip (c c0 : Config.Config) (d : Config.Disk) :
  Config.valid c ->
  Qt.contains "010" (Qt.trimmed (Config.receivedFilesPath c)) = false ->
  Config.canWrite d (Config.settingsPath c) = true ->
  Config.canRead d (Config.settingsPath c) = true ->
  Config.settingsPath c0 = Config.settingsPath c ->
  Config.readFromFile c0 (Config.writeToFile c d)
  = ({| Config.receivedFilesPath := Qt.trimmed (Config.receivedFilesPath c);
        Config.sharedFolderPath := Config.sharedFolderPath c0;
        Config.settingsPath := Config.settingsPath c0;
        Config.port := Config.port c;
        Config.bufferSize := Config.bufferSize c |},
     Config.writeToFile c d).
Proof.
  intros Hvalid Hnl Hw Hr Hpath.
  apply read_written; try done.
  - unfold Config.writeToFile. rewrite Hw, Hpath. cbn. apply lookup_insert_eq.
  - unfold Config.writeToFile. rewrite Hw, Hpath. cbn. exact Hr.
Qed.

Lemma settings_round_trip_witness :
  let d := {| Config.files := ∅; Config.canRead := λ _, true;
              Config.canWrite := λ _, true |} in
  let c := {| Config.receivedFilesPath := "  /home/me/Downloads ";
              Config.sharedFolderPath := "./Shared Files";
              Config.settingsPath := "./settings.txt";
              Config.port := 6000; Config.bufferSize := 4096 |} in
  (Config.readFromFile Config.initial (Config.writeToFile c d)).1
  = {| Config.receivedFilesPath := "/home/me/Downloads";
       Config.sharedFolderPath := "./Shared Files";
       Config.settingsPath := "./settings.txt";
       Config.port := 6000; Config.bufferSize := 4096 |}.
Proof.
  intros d c.
  rewrite (settings_round_trip c Config.initial d
             ltac:(vm_compute; repeat split; discriminate || reflexivity)
             ltac:(vm_compute; reflexivity) ltac:(reflexivity) ltac:(reflexivity)
             ltac:(reflexivity)).
  vm_compute. reflexivity.
Defined.

Lemma initial_valid : Config.valid Config.initial.
Proof. unfold Config.valid. cbn. lia. Qed.

Lemma toInt_range (s : string) (z : Z) : Qt.toInt s = (z, true) -> - 2 ^ 31 <= z < 2 ^ 31.
Proof.
  unfold Qt.toInt. destruct (Qt.parseInteger s) as [v|]; [|discriminate].
  case_bool_decide as Hv; [|discriminate]. by intros [= <-].
Qed.

(** X23. Whatever the settings file holds, [readFromFile] leaves a valid
    configuration whenever the file is missing or can be opened: a port
    between 1 and 65535 and a buffer size of at least 1. It either keeps
    the file system as it is or has fallen back to the defaults, and then
    the file it has written, if it could, is the defaults'. A valid
    configuration also stays valid when the file cannot be opened. *)
Theorem readFromFile_leaves_valid_settings (c : Config.Config) (d : Config.Disk) :
  let '(c', d') := Config.readFromFile c d in
  (Config.valid c \/ Config.files d !! Config.settingsPath c = None
   \/ Config.canRead d (Config.settingsPath c) = true -> Config.valid c')
  /\ (d' = d \/ (c' = Config.initial /\ d' = Config.writeToFile Config.initial d)).
Proof.
  unfold Config.readFromFile.
  destruct (Config.files d !! Config.settingsPath c) as [text|];
    [|split; [intros _; apply initial_valid|by right]].
  destruct (Config.canRead d (Config.settingsPath c)).
  2: { split; [|by left]. intros [H|[H|H]]; done. }
  destruct (Qt.readLine text) as [pathData rest1].
  destruct (Qt.readLine rest1) as [portData rest2].
  destruct (Qt.readLine rest2) as [bufferData rest3].
  destruct (negb (Config.isEmpty pathData) && negb (Config.isEmpty portData)
            && negb (Config.isEmpty bufferData));
    [|split; [intros _; apply initial_valid|by right]].
  destruct (Qt.toInt (Qt.trimmed portData)) as [newPort portOk] eqn:Hp.
  destruct (Qt.toInt (Qt.trimmed bufferData)) as [newBuffer bufferOk] eqn:Hb.
  destruct portOk, bufferOk; cbn [andb];
    try (split; [intros _; apply initial_valid|by right]).
  repeat case_bool_decide; cbn [andb];
    try (split; [intros _; apply initial_valid|by right]).
  split; [|by left]. intros _. unfold Config.valid. cbn.
  apply toInt_range in Hb. lia.
Qed.

Lemma readFromFile_leaves_valid_settings_witness :
  let d := {| Config.files := {["./settings.txt" := "/tmp
0
65536"]};
              Config.canRead := λ _, true; Config.canWrite := λ _, true |} in
  Config.valid (Config.readFromFile Config.initial d).1.
Proof.
  intros d.
  pose proof (readFromFile_leaves_valid_settings Config.initial d) as H.
  destruct (Config.readFromFile Config.initial d) as [c' d'].
  destruct H as [H _]. apply H. right. right. reflexivity.
Defined.

Lemma read_defaults (d : Config.Disk) :
  Config.canRead d "./settings.txt" = true ->
  Config.canWrite d "./settings.txt" = true ->
  Config.readFromFile Config.initial (Config.writeToFile Config.initial d)
  = (Config.initial, Config.writeToFile Config.initial d).
Proof.
  intros Hr Hw.
  rewrite (read_written Config.initial Config.initial
             (Config.writeToFile Config.initial d) initial_valid eq_refl).
  - reflexivity.
  - unfold Config.writeToFile. cbn [Config.settingsPath Config.initial]. rewrite Hw.
    cbn. apply lookup_insert_eq.
  - unfold Config.writeToFile. cbn [Config.settingsPath Config.initial]. rewrite Hw.
    cbn. exact Hr.
Qed.

(** X24. Reading the settings twice is reading them once: where the
    default settings file can be opened for reading and for writing, a
    second [readFromFile] right after the first changes neither the
    configuration nor the file system, whatever the file held. *)
Theorem readFromFile_twice (c : Config.Config) (d : Config.Disk) :
  Config.canRead d "./settings.txt" = true ->
  Config.canWrite d "./settings.txt" = true ->
  let '(c1, d1) := Config.readFromFile c d in
  Config.readFromFile c1 d1 = (c1, d1).
Proof.
  intros Hr Hw.
  pose proof (read_defaults d Hr Hw) as Hdef.
  unfold Config.readFromFile at 1.
  destruct (Config.files d !! Config.settingsPath c) as [text|] eqn:Hfile; [|exact Hdef].
  destruct (Config.canRead d (Config.settingsPath c)) eqn:Hread.
  2: { unfold Config.readFromFile. by rewrite Hfile, Hread. }
  destruct (Qt.readLine text) as [pathData rest1] eqn:L1.
  destruct (Qt.readLine rest1) as [portData rest2] eqn:L2.
  destruct (Qt.readLine rest2) as [bufferData rest3] eqn:L3.
  destruct (negb (Config.isEmpty pathData) && negb (Config.isEmpty portData)
            && negb (Config.isEmpty bufferData)) eqn:Hne; [|exact Hdef].
  destruct (Qt.toInt (Qt.trimmed portData)) as [newPort portOk] eqn:Hp.
  destruct (Qt.toInt (Qt.trimmed bufferData)) as [newBuffer bufferOk] eqn:Hb.
  destruct (portOk && bufferOk && bool_decide (0 < newPort) && bool_decide (newPort < 65536)
            && bool_decide (0 < newBuffer)) eqn:Hok; [|exact Hdef].
  unfold Config.readFromFile. cbn [Config.settingsPath Config.sharedFolderPath
                                   Config.receivedFilesPath].
  rewrite Hfile, Hread, L1, L2, L3, Hne, Hp, Hb, Hok. reflexivity.
Qed.

Lemma readFromFile_twice_witness :
  let d := {| Config.files := {["./settings.txt" := "/tmp
70000
65536"]};
              Config.canRead := λ _, true; Config.canWrite := λ _, true |} in
  let '(c1, d1) := Config.readFromFile Config.initial d in
  Config.readFromFile c1 d1 = (c1, d1).
Proof.
  intros d.
  exact (readFromFile_twice Config.initial d eq_refl eq_refl).
Defined.

(** ** Free ports and the local address *)

Lemma findFrom_spec (listen : Z -> bool) (attempts : nat) :
  forall testPort,
  let r := Config.findFrom listen testPort attempts in
  (r = -1 /\ forall p, testPort <= p < testPort + Z.of_nat attempts ->
                       listen (p mod 2 ^ 16) = false)
  \/ (testPort <= r < testPort + Z.of_nat attempts
      /\ listen (r mod 2 ^ 16) = true
      /\ forall p, testPort <= p < r -> listen (p mod 2 ^ 16) = false).
Proof.
  induction attempts as [|n IH]; intros testPort; cbn [Config.findFrom].
  { left. split; [done|]. intros p Hp. lia. }
  destruct (listen (testPort mod 2 ^ 16)) eqn:Hl.
  { right. split; [lia|]. split; [done|]. intros p Hp. lia. }
  destruct (IH (testPort + 1)) as [[Hr Hall]|(Hr & Hok & Hall)].
  - left. split; [done|]. intros p Hp.
    destruct (decide (p = testPort)) as [->|Hne]; [done|]. apply Hall. lia.
  - right. split; [lia|]. split; [done|]. intros p Hp.
    destruct (decide (p = testPort)) as [->|Hne]; [done|]. apply Hall. lia.
Qed.

(** X25. [findAvailablePort] returns the first number from [startPort] on,
    among [maxAttempts], whose 16-bit truncation can be listened on, and -1
    when there is none. The number itself is returned, not the port that
    was listened on, so past 65535 the result is no port at all. *)
Theorem findAvailablePort_first_free (listen : Z -> bool) (startPort maxAttempts : Z) :
  0 <= startPort -> 0 <= maxAttempts -> startPort + maxAttempts <= 2 ^ 31 ->
  let r := Config.findAvailablePort listen startPort maxAttempts in
  (r = -1 <-> forall p, startPort <= p < startPort + maxAttempts ->
                        listen (p mod 2 ^ 16) = false)
  /\ (r ≠ -1 ->
      startPort <= r < startPort + maxAttempts
      /\ listen (r mod 2 ^ 16) = true
      /\ forall p, startPort <= p < r -> listen (p mod 2 ^ 16) = false).
Proof.
  intros Hs Hm _ r. subst r. unfold Config.findAvailablePort.
  pose proof (findFrom_spec listen (Z.to_nat maxAttempts) startPort) as H.
  cbv zeta in H. rewrite Z2Nat.id in H by done.
  set (r := Config.findFrom listen startPort (Z.to_nat maxAttempts)) in *.
  destruct H as [[Hr Hall]|(Hr & Hok & Hall)].
  - split; [by split|]. intros Hne. done.
  - split; [|done]. split; [lia|]. intros Hnone. rewrite Hnone in Hok by lia. done.
Qed.

Lemma findAvailablePort_first_free_witness :
  Config.findAvailablePort (λ p, bool_decide (p = 0)) 65535 2 = 65536.
Proof.
  pose proof (findAvailablePort_first_free (λ p, bool_decide (p = 0)) 65535 2
                ltac:(lia) ltac:(lia) ltac:(lia)) as H.
  cbv zeta in H.
  set (r := Config.findAvailablePort (λ p, bool_decide (p = 0)) 65535 2) in *.
  destruct H as [Hnone Hsome].
  destruct (decide (r = -1)) as [Hr|Hr].
  - pose proof (proj1 Hnone Hr 65536 ltac:(lia)) as Hbad. discriminate.
  - destruct (Hsome Hr) as (Hrange & Hok & _).
    destruct (decide (r = 65535)) as [E|E]; [rewrite E in Hok; discriminate|lia].
Defined.

Lemma land_mask (a : Z) : 0 <= a < 2 ^ 32 -> Z.land a 0xFFFFFF00 = 256 * (a / 256).
Proof.
  intros Ha. apply Z.bits_inj'. intros n Hn.
  rewrite Z.land_spec.
  change 0xFFFFFF00 with (Z.shiftl (Z.ones 24) 8).
  rewrite (Z.mul_comm 256). change 256 with (2 ^ 8).
  rewrite <- Z.shiftl_mul_pow2, <- Z.shiftr_div_pow2 by lia.
  destruct (Z_lt_le_dec n 8) as [Hlow|Hhigh].
  - rewrite !Z.shiftl_spec_low by lia. apply andb_false_r.
  - rewrite !Z.shiftl_spec by lia. rewrite Z.shiftr_spec by lia.
    replace (n - 8 + 8) with n by lia.
    destruct (Z_lt_le_dec n 32) as [Hin|Hout].
    + rewrite Z.ones_spec_low by lia. apply andb_true_r.
    + rewrite Z.ones_spec_high by lia. rewrite andb_false_r.
      destruct (decide (a = 0)) as [->|Hnz]; [by rewrite Z.bits_0|].
      symmetry. apply Z.bits_above_log2; [lia|].
      assert (Z.log2 a < 32) by (apply Z.log2_lt_pow2; lia). lia.
Qed.

Lemma mask_range (a base : Z) :
  0 <= a < 2 ^ 32 -> base mod 256 = 0 ->
  Z.land a 0xFFFFFF00 = base <-> base <= a <= base + 255.
Proof.
  intros Ha Hbase. rewrite land_mask by done.
  pose proof (Z.div_mod a 256 ltac:(lia)) as Hdm.
  pose proof (Z.mod_pos_bound a 256 ltac:(lia)) as Hr.
  pose proof (Z.div_mod base 256 ltac:(lia)) as Hb. rewrite Hbase in Hb.
  split; intros H; [lia|].
  assert (a / 256 = base / 256); [|lia].
  symmetry. apply Z.div_unique with (r := a - base); lia.
Qed.

Lemma firstAddress_spec (entries : list NetworkManager.QNetworkAddressEntry) :
  Forall (λ e, 0 <= NetworkManager.toIPv4Address e < 2 ^ 32) entries ->
  match NetworkManager.firstAddress entries with
  | Some ip => exists l1 e l2, entries = l1 ++ e :: l2
                               /\ Forall (λ x, ¬ NetworkManager.usable x) l1
                               /\ NetworkManager.usable e
                               /\ NetworkManager.toString e = ip
  | None => Forall (λ x, ¬ NetworkManager.usable x) entries
  end.
Proof.
  induction 1 as [|e rest He Hrest IH]; [constructor|].
  cbn [NetworkManager.firstAddress].
  assert (Hskip : ¬ NetworkManager.usable e ->
            match NetworkManager.firstAddress rest with
            | Some ip => exists l1 e0 l2, e :: rest = l1 ++ e0 :: l2
                                          /\ Forall (λ x, ¬ NetworkManager.usable x) l1
                                          /\ NetworkManager.usable e0
                                          /\ NetworkManager.toString e0 = ip
            | None => Forall (λ x, ¬ NetworkManager.usable x) (e :: rest)
            end).
  { intros Hno. destruct (NetworkManager.firstAddress rest) as [ip|].
    - destruct IH as (l1 & e0 & l2 & -> & Hl1 & He0 & Hip).
      exists (e :: l1), e0, l2. split; [done|]. split; [by constructor|]. by split.
    - by constructor. }
  unfold NetworkManager.usable in *.
  destruct (NetworkManager.isIPv4 e) eqn:E4, (NetworkManager.isLoopback e) eqn:El,
    (NetworkManager.isMulticast e) eqn:Em; cbn [negb andb];
    try (apply Hskip; intros (? & ? & ? & _); congruence).
  case_bool_decide as H1.
  { apply Hskip. apply mask_range in H1; [|done|reflexivity]. intros (_ & _ & _ & Hn & _).
    apply Hn. lia. }
  case_bool_decide as H2.
  { apply Hskip. apply mask_range in H2; [|done|reflexivity]. intros (_ & _ & _ & _ & Hn).
    apply Hn. lia. }
  exists [], e, rest. split; [done|]. split; [constructor|]. split; [|done].
  split; [done|]. split; [done|]. split; [done|]. split.
  - intros Hr. apply H1. apply mask_range; [done|reflexivity|lia].
  - intros Hr. apply H2. apply mask_range; [done|reflexivity|lia].
Qed.

(** X26. The address [getLocalIPAddress] returns. With 32-bit addresses,
    an answer other than the empty string is the text of a usable entry of
    an eligible interface: the interface is up, not loop-back and not named
    like a virtual adapter, the entry is IPv4, neither loop-back nor
    multicast, and outside 192.168.56.0/24 and 172.17.0.0/24. When no
    eligible interface has a usable entry the answer is the empty string. *)
Theorem local_address_is_usable (interfaces : list NetworkManager.QNetworkInterface) :
  Forall (λ i, Forall (λ e, 0 <= NetworkManager.toIPv4Address e < 2 ^ 32)
                 (NetworkManager.addressEntries i)) interfaces ->
  let ip := NetworkManager.getLocalIPAddress interfaces in
  (ip ≠ EmptyString ->
   exists i e, i ∈ interfaces /\ e ∈ NetworkManager.addressEntries i
               /\ NetworkManager.eligible i /\ NetworkManager.usable e
               /\ NetworkManager.toString e = ip)
  /\ ((forall i e, i ∈ interfaces -> e ∈ NetworkManager.addressEntries i ->
                   NetworkManager.eligible i -> ¬ NetworkManager.usable e) ->
      ip = EmptyString).
Proof.
  induction 1 as [|i rest Hi Hrest IH]; cbn [NetworkManager.getLocalIPAddress].
  { split; [done|done]. }
  cbv zeta in IH. destruct IH as [IH1 IH2].
  assert (Hskip :
    (NetworkManager.getLocalIPAddress rest ≠ EmptyString ->
     exists i0 e, i0 ∈ i :: rest /\ e ∈ NetworkManager.addressEntries i0
                  /\ NetworkManager.eligible i0 /\ NetworkManager.usable e
                  /\ NetworkManager.toString e = NetworkManager.getLocalIPAddress rest)
    /\ ((forall i0 e, i0 ∈ i :: rest -> e ∈ NetworkManager.addressEntries i0 ->
                      NetworkManager.eligible i0 -> ¬ NetworkManager.usable e) ->
        NetworkManager.getLocalIPAddress rest = EmptyString)).
  { split.
    - intros Hne. destruct (IH1 Hne) as (i0 & e & Hin & Hrem).
      exists i0, e. split; [by apply elem_of_cons; right|done].
    - intros Hnone. apply IH2. intros i0 e Hin. apply Hnone. by apply elem_of_cons; right. }
  destruct (NetworkManager.isUp i) eqn:Hup; cbn [negb orb]; [|exact Hskip].
  destruct (NetworkManager.isLoopBack i) eqn:Hlb; [exact Hskip|].
  destruct (NetworkManager.isVirtual (NetworkManager.name i)) eqn:Hvirt; [exact Hskip|].
  pose proof (firstAddress_spec _ Hi) as Hfirst.
  destruct (NetworkManager.firstAddress (NetworkManager.addressEntries i)) as [ip|].
  - destruct Hfirst as (l1 & e & l2 & Heq & _ & Huse & Hip).
    assert (Hin : e ∈ NetworkManager.addressEntries i).
    { rewrite Heq. apply elem_of_app; right. apply elem_of_cons; by left. }
    assert (Hel : NetworkManager.eligible i) by (unfold NetworkManager.eligible; done).
    cbv zeta. split.
    + intros _. exists i, e. split; [apply elem_of_cons; by left|]. done.
    + intros Hnone. exfalso.
      apply (Hnone i e); [apply elem_of_cons; by left|done|done|done].
  - exact Hskip.
Qed.

Lemma local_address_is_usable_witness :
  let vbox := {| NetworkManager.isIPv4 := true; NetworkManager.isLoopback := false;
                 NetworkManager.isMulticast := false;
                 NetworkManager.toIPv4Address := 3232249857;
                 NetworkManager.toString := "192.168.56.1" |} in
  let eth := {| NetworkManager.isUp := true; NetworkManager.isLoopBack := false;
                NetworkManager.name := "eth0";
                NetworkManager.addressEntries := [vbox] |} in
  NetworkManager.getLocalIPAddress [eth] = EmptyString.
Proof.
  intros vbox eth.
  pose proof (local_address_is_usable [eth]
                ltac:(repeat constructor; cbn; lia)) as [_ H].
  apply H. intros i e Hi He _ (_ & _ & _ & Hout & _).
  apply list_elem_of_singleton in Hi. subst i.
  apply list_elem_of_singleton in He. subst e.
  apply Hout. cbn. lia.
Defined.

(** X27. One connectivity check signals the status twice, CHECKING and
    then the outcome, also when neither the address nor the outcome has
    changed: the comparison in [updateConnectionStatus] is made against
    CHECKING. The outcome is CONNECTED exactly when an address was found,
    and the address is signalled only when it differs from the one held
    before. *)
Theorem checkConnection_signals (interfaces : list NetworkManager.QNetworkInterface)
    (m : NetworkManager.NetworkManager) :
  let '(m', acts) := NetworkManager.checkConnection interfaces m in
  let ip := NetworkManager.getLocalIPAddress interfaces in
  NetworkManager.currentIP m' = ip
  /\ NetworkManager.connectionStatus m'
     = (if bool_decide (ip = EmptyString) then NetworkManager.DISCONNECTED
        else NetworkManager.CONNECTED)
  /\ NetworkManager.statusesSignalled acts
     = [NetworkManager.CHECKING; NetworkManager.connectionStatus m']
  /\ NetworkManager.addressesSignalled acts
     = (if bool_decide (ip = NetworkManager.currentIP m) then [] else [ip])
  /\ NetworkManager.monitorTimer m' = NetworkManager.monitorTimer m.
Proof.
  unfold NetworkManager.checkConnection.
  set (ip := NetworkManager.getLocalIPAddress interfaces).
  cbn [NetworkManager.currentIP NetworkManager.monitorTimer NetworkManager.connectionStatus].
  destruct (String.eqb_spec ip (NetworkManager.currentIP m)) as [Heq|Hne]; cbn [negb].
  - unfold NetworkManager.updateConnectionStatus.
    cbn [NetworkManager.currentIP NetworkManager.monitorTimer
         NetworkManager.connectionStatus].
    rewrite (bool_decide_eq_true_2 (ip = NetworkManager.currentIP m)) by done.
    rewrite <- Heq.
    destruct (String.eqb_spec ip EmptyString) as [E|E].
    + rewrite (bool_decide_eq_true_2 (ip = EmptyString)) by done.
      rewrite bool_decide_eq_true_2 by done. cbn. by rewrite Heq.
    + rewrite (bool_decide_eq_false_2 (ip = EmptyString)) by done.
      rewrite bool_decide_eq_true_2 by done. cbn. by rewrite Heq.
  - unfold NetworkManager.updateConnectionStatus.
    cbn [NetworkManager.currentIP NetworkManager.monitorTimer
         NetworkManager.connectionStatus].
    rewrite (bool_decide_eq_false_2 (ip = NetworkManager.currentIP m)) by done.
    destruct (String.eqb_spec ip EmptyString) as [E|E].
    + rewrite (bool_decide_eq_true_2 (ip = EmptyString)) by done.
      rewrite bool_decide_eq_true_2 by done. cbn. done.
    + rewrite (bool_decide_eq_false_2 (ip = EmptyString)) by done.
      rewrite bool_decide_eq_true_2 by done. cbn. done.
Qed.
